(** * Trajectory prediction over simplicial complexes: forward passes and data setup

    A shallow embedding of [trajectory_analysis/trajectory_experiments.py]:
    the forward-propagation functions ([scone_func], [scnn_func_2],
    [scnn_func_3], [scnn_func_4], [ebli_func], [bunch_func]), the parts of
    [data_setup] that build the shift operators, the padded neighbourhood
    table, the conditional-incidence selector [Bconds_func] and the path
    prefixes, and the regional masks of [train_model].

    Arrays hold real numbers: the floating-point arithmetic of the program is
    modelled by the field of reals.  Rounding, saturation and underflow are
    therefore not modelled, and the bounds stated on the values of [tanh],
    [sigmoid] and of the log-probabilities include their ends, which the
    floating-point values can reach.  Python exceptions are values of [exn] and
    every operation that can raise returns a [result]. Printing to standard
    output is not modelled. *)

From Stdlib Require Import String.
From Stdlib Require Import List ZArith Reals Lra Lia Bool Arith.
From Stdlib Require Import Permutation Sorted.
Import ListNotations.

Open Scope R_scope.

(** ** Exceptions and the result monad *)

Inductive exn : Type :=
| AssertionError (msg : string)
| IndexError
| ZeroDivisionError
| ShapeError        (* incompatible shapes in [@] or in a broadcast *)
| IOError           (* a file that cannot be read *)
| Exception (msg : string).

Inductive result (A : Type) : Type :=
| Ok (a : A)
| Raise (e : exn).

Arguments Ok {A} a.
Arguments Raise {A} e.

Definition bind {A B : Type} (c : result A) (k : A -> result B) : result B :=
  match c with
  | Ok a => k a
  | Raise e => Raise e
  end.

Notation "x <- c ;; k" := (bind c (fun x => k))
  (at level 61, c at next level, right associativity).

Definition is_ok {A : Type} (c : result A) : bool :=
  match c with Ok _ => true | Raise _ => false end.

(** [try: c except: h] with a bare [except]. *)
Definition try_except {A : Type} (c : result A) (h : result A) : result A :=
  match c with
  | Ok a => Ok a
  | Raise _ => h
  end.

(** ** Python lists *)

(** [l[i]] on a Python list: a negative index counts from the end, an index
    out of range raises [IndexError]. *)
Definition py_getitem {A : Type} (d : A) (l : list A) (i : Z) : result A :=
  let len := Z.of_nat (length l) in
  let i' := if (i <? 0)%Z then (i + len)%Z else i in
  if ((0 <=? i') && (i' <? len))%Z%bool
  then Ok (nth (Z.to_nat i') l d)
  else Raise IndexError.

(** [for i in range(n): s = body(i, s)], started at index [i]. *)
Fixpoint for_range {S : Type} (body : Z -> S -> result S) (i : Z) (n : nat) (s : S)
  : result S :=
  match n with
  | O => Ok s
  | S n' => s' <- body i s ;; for_range body (i + 1)%Z n' s'
  end.

(** [[f(x) for x in l]] where [f] may raise. *)
Fixpoint list_comp {A B : Type} (f : A -> result B) (l : list A) : result (list B) :=
  match l with
  | [] => Ok []
  | x :: l' => y <- f x ;; ys <- list_comp f l' ;; Ok (y :: ys)
  end.

(** ** Finite sums of reals *)

Fixpoint sumf (n : nat) (f : nat -> R) : R :=
  match n with
  | O => 0
  | S k => sumf k f + f k
  end.

(** ** Two-dimensional arrays

    An array carries its shape, as a NumPy or JAX array does, and its entries
    row by row. *)

Record ndarray : Type := { shape0 : nat; shape1 : nat; data : list (list R) }.

Definition get (A : ndarray) (i j : nat) : R := nth j (nth i (data A) []) 0.

(** The array of shape [(m, n)] whose entry [(i, j)] is [f i j]. *)
Definition mk (m n : nat) (f : nat -> nat -> R) : ndarray :=
  {| shape0 := m; shape1 := n;
     data := map (fun i => map (f i) (seq 0 n)) (seq 0 m) |}.

(** The invariant of an array: its data has the shape it declares. *)
Definition wf (A : ndarray) : Prop :=
  length (data A) = shape0 A /\ Forall (fun r => length r = shape1 A) (data A).

(** An index into an axis of length [len] of a JAX array: a negative index
    counts from the end, and the result is clamped into the axis. *)
Definition jax_index (len : nat) (i : Z) : nat :=
  let i' := if (i <? 0)%Z then (i + Z.of_nat len)%Z else i in
  Z.to_nat (Z.max 0 (Z.min i' (Z.of_nat len - 1))).

Module np.

Definition zeros (m n : nat) : ndarray := mk m n (fun _ _ => 0).

(** [A.T] *)
Definition T (A : ndarray) : ndarray :=
  mk (shape1 A) (shape0 A) (fun i j => get A j i).

(** The product of two arrays whose inner dimensions agree. *)
Definition dot (A B : ndarray) : ndarray :=
  mk (shape0 A) (shape1 B)
     (fun i j => sumf (shape1 A) (fun k => get A i k * get B k j)).

(** [A @ B] *)
Definition matmul (A B : ndarray) : result ndarray :=
  if shape1 A =? shape0 B then Ok (dot A B) else Raise ShapeError.

(** Broadcasting of one axis: equal lengths, or one of them is 1. *)
Definition bdim (a b : nat) : option nat :=
  if a =? b then Some a
  else if a =? 1 then Some b
  else if b =? 1 then Some a
  else None.

Definition bidx (d i : nat) : nat := if d =? 1 then 0%nat else i.

Definition bget (A : ndarray) (i j : nat) : R :=
  get A (bidx (shape0 A) i) (bidx (shape1 A) j).

(** [A + B], with broadcasting. *)
Definition add (A B : ndarray) : result ndarray :=
  match bdim (shape0 A) (shape0 B), bdim (shape1 A) (shape1 B) with
  | Some m, Some n => Ok (mk m n (fun i j => bget A i j + bget B i j))
  | _, _ => Raise ShapeError
  end.

(** A function applied to every entry. *)
Definition map_entries (g : R -> R) (A : ndarray) : ndarray :=
  mk (shape0 A) (shape1 A) (fun i j => g (get A i j)).

Definition tanh (A : ndarray) : ndarray := map_entries Rtrigo_def.tanh A.

(** [np.maximum(A, c)] for a scalar [c]. *)
Definition maximum (A : ndarray) (c : R) : ndarray :=
  map_entries (fun x => Rmax x c) A.

(** [A - c] for a scalar [c]. *)
Definition sub_scalar (A : ndarray) (c : R) : ndarray :=
  map_entries (fun x => x - c) A.

(** [np.diag(v)] for a one-dimensional [v]. *)
Definition diag (v : list R) : ndarray :=
  mk (length v) (length v) (fun i j => if i =? j then nth i v 0 else 0).

(** [np.append(A, B, axis=0)] *)
Definition append0 (A B : ndarray) : result ndarray :=
  if shape1 A =? shape1 B
  then Ok (mk (shape0 A + shape0 B) (shape1 A)
              (fun i j => if i <? shape0 A then get A i j
                          else get B (i - shape0 A) j))
  else Raise ShapeError.

(** [A[idx]] for a one-dimensional integer array [idx]: the rows of [A]
    selected by [idx]. *)
Definition take_rows (A : ndarray) (idx : list Z) : ndarray :=
  mk (length idx) (shape1 A)
     (fun j k => get A (jax_index (shape0 A) (nth j idx 0%Z)) k).

(** [N[n]] for a two-dimensional integer array [N] given by its rows. *)
Definition int_row (N : list (list Z)) (n : Z) : list Z :=
  nth (jax_index (length N) n) N [].

End np.

(** [jax.scipy.special.logsumexp(A)]: the logarithm of the sum of the
    exponentials of all entries. *)
Definition sum_exp (A : ndarray) : R :=
  sumf (shape0 A) (fun i => sumf (shape1 A) (fun j => exp (get A i j))).

Definition logsumexp (A : ndarray) : R := ln (sum_exp A).

(** ** Hyperparameters

    The entries of the [HYPERPARAMS] dictionary that the modelled code reads.
    The numeric flags are tested for truth, that is, for being non-zero. *)

Record hyperparams : Type := {
  model : string;
  k1_scnn : Z;
  k2_scnn : Z;
  regional : Z;
  flip_edges : Z
}.

(** The dictionary literal of [hyperparams()], before any command-line
    argument overrides an entry. *)
Definition default_hyperparams : hyperparams :=
  {| model := "scnn2"; k1_scnn := 2; k2_scnn := 2; regional := 0; flip_edges := 0 |}.

Definition truthy (flag : Z) : bool := negb (flag =? 0)%Z.

(** ** Model definition *)

Definition relu (x : ndarray) : ndarray := np.maximum x 0.

Definition tanh (x : ndarray) : ndarray := np.tanh x.

Definition no_array : ndarray := np.zeros 0 0.

(** [weights[i]] *)
Definition weight (weights : list ndarray) (i : Z) : result ndarray :=
  py_getitem no_array weights i.

(** [n_layers = a / b], [assert n_layers % 1 == 0, 'wrong number of weights']
    and [int(n_layers)].  The floating-point quotient of two integers of the
    size of a list length is a whole number exactly when [b] divides [a]. *)
Definition n_layers_checked (a b : Z) : result Z :=
  if (b =? 0)%Z then Raise ZeroDivisionError
  else if (a mod b =? 0)%Z then Ok (a / b)%Z
  else Raise (AssertionError "wrong number of weights").

(** One summand [S @ cur_out @ weights[j]]: the product [S @ cur_out] is
    formed first, then the weight is looked up, then the second product. *)
Definition shift_term (S cur_out : ndarray) (weights : list ndarray) (j : Z)
  : result ndarray :=
  s <- np.matmul S cur_out ;;
  w <- weight weights j ;;
  np.matmul s w.

(** [acc + S @ cur_out @ weights[j]] *)
Definition plus_term (acc S cur_out : ndarray) (weights : list ndarray) (j : Z)
  : result ndarray :=
  t <- shift_term S cur_out weights j ;;
  np.add acc t.

(** The common tail of the forward passes:
    [logits = Bcond_func(last_node) @ cur_out @ weights[-1]] and
    [return logits - logsumexp(logits)]. *)
Definition readout (weights : list ndarray) (Bcond_func : Z -> ndarray)
    (last_node : Z) (cur_out : ndarray) : result ndarray :=
  logits <- shift_term (Bcond_func last_node) cur_out weights (-1) ;;
  Ok (np.sub_scalar logits (logsumexp logits)).

(** *** SCoNe *)

Definition scone_layer (weights : list ndarray) (S_lower S_upper : ndarray)
    (i : Z) (cur_out : ndarray) : result ndarray :=
  w0 <- weight weights (i * 3) ;;
  t0 <- np.matmul cur_out w0 ;;
  a1 <- plus_term t0 S_lower cur_out weights (i * 3 + 1) ;;
  a2 <- plus_term a1 S_upper cur_out weights (i * 3 + 2) ;;
  Ok (tanh a2).

Definition scone_func (weights : list ndarray) (S_lower S_upper : ndarray)
    (Bcond_func : Z -> ndarray) (last_node : Z) (flow : ndarray) : result ndarray :=
  n_layers <- n_layers_checked (Z.of_nat (length weights) - 1) 3 ;;
  cur_out <- for_range (scone_layer weights S_lower S_upper) 0 (Z.to_nat n_layers) flow ;;
  readout weights Bcond_func last_node cur_out.

(** *** SCNN of order 2, 3 and 4

    [k1] and [k2] are keyword arguments whose default values are
    [HYPERPARAMS['k1_scnn']] and [HYPERPARAMS['k2_scnn']]. *)

Definition scnn_layer_2 (weights : list ndarray) (S_lower S2_lower S_upper S2_upper : ndarray)
    (n_k : Z) (i : Z) (cur_out : ndarray) : result ndarray :=
  w0 <- weight weights (i * n_k) ;;
  t0 <- np.matmul cur_out w0 ;;
  a1 <- plus_term t0 S_lower cur_out weights (i * n_k + 1) ;;
  a2 <- plus_term a1 S2_lower cur_out weights (i * n_k + 2) ;;
  a3 <- plus_term a2 S_upper cur_out weights (i * n_k + 3) ;;
  a4 <- plus_term a3 S2_upper cur_out weights (i * n_k + 4) ;;
  Ok (tanh a4).

Definition scnn_func_2 (weights : list ndarray) (S_lower S2_lower S_upper S2_upper : ndarray)
    (Bcond_func : Z -> ndarray) (last_node : Z) (flow : ndarray) (k1 k2 : Z)
  : result ndarray :=
  n_layers <- n_layers_checked (Z.of_nat (length weights) - 1) (1 + k1 + k2) ;;
  let n_k := (1 + k1 + k2)%Z in
  cur_out <- for_range (scnn_layer_2 weights S_lower S2_lower S_upper S2_upper n_k)
                       0 (Z.to_nat n_layers) flow ;;
  readout weights Bcond_func last_node cur_out.

Definition scnn_layer_3 (weights : list ndarray)
    (S_lower S2_lower S3_lower S_upper S2_upper S3_upper : ndarray)
    (n_k : Z) (i : Z) (cur_out : ndarray) : result ndarray :=
  w0 <- weight weights (i * n_k) ;;
  t0 <- np.matmul cur_out w0 ;;
  a1 <- plus_term t0 S_lower cur_out weights (i * n_k + 1) ;;
  a2 <- plus_term a1 S2_lower cur_out weights (i * n_k + 2) ;;
  a3 <- plus_term a2 S3_lower cur_out weights (i * n_k + 3) ;;
  a4 <- plus_term a3 S_upper cur_out weights (i * n_k + 4) ;;
  a5 <- plus_term a4 S2_upper cur_out weights (i * n_k + 5) ;;
  a6 <- plus_term a5 S3_upper cur_out weights (i * n_k + 6) ;;
  Ok (tanh a6).

Definition scnn_func_3 (weights : list ndarray)
    (S_lower S2_lower S3_lower S_upper S2_upper S3_upper : ndarray)
    (Bcond_func : Z -> ndarray) (last_node : Z) (flow : ndarray) (k1 k2 : Z)
  : result ndarray :=
  n_layers <- n_layers_checked (Z.of_nat (length weights) - 1) (1 + k1 + k2) ;;
  let n_k := (1 + k1 + k2)%Z in
  cur_out <- for_range (scnn_layer_3 weights S_lower S2_lower S3_lower
                                     S_upper S2_upper S3_upper n_k)
                       0 (Z.to_nat n_layers) flow ;;
  readout weights Bcond_func last_node cur_out.

(** The summand at weight [i*n_k + 4] multiplies [S4_upper], as in the source;
    [S4_lower] is a parameter that the body never reads. *)
Definition scnn_layer_4 (weights : list ndarray)
    (S_lower S2_lower S3_lower S4_lower S_upper S2_upper S3_upper S4_upper : ndarray)
    (n_k : Z) (i : Z) (cur_out : ndarray) : result ndarray :=
  w0 <- weight weights (i * n_k) ;;
  t0 <- np.matmul cur_out w0 ;;
  a1 <- plus_term t0 S_lower cur_out weights (i * n_k + 1) ;;
  a2 <- plus_term a1 S2_lower cur_out weights (i * n_k + 2) ;;
  a3 <- plus_term a2 S3_lower cur_out weights (i * n_k + 3) ;;
  a4 <- plus_term a3 S4_upper cur_out weights (i * n_k + 4) ;;
  a5 <- plus_term a4 S_upper cur_out weights (i * n_k + 5) ;;
  a6 <- plus_term a5 S2_upper cur_out weights (i * n_k + 6) ;;
  a7 <- plus_term a6 S3_upper cur_out weights (i * n_k + 7) ;;
  a8 <- plus_term a7 S4_upper cur_out weights (i * n_k + 8) ;;
  Ok (tanh a8).

Definition scnn_func_4 (weights : list ndarray)
    (S_lower S2_lower S3_lower S4_lower S_upper S2_upper S3_upper S4_upper : ndarray)
    (Bcond_func : Z -> ndarray) (last_node : Z) (flow : ndarray) (k1 k2 : Z)
  : result ndarray :=
  n_layers <- n_layers_checked (Z.of_nat (length weights) - 1) (1 + k1 + k2) ;;
  let n_k := (1 + k1 + k2)%Z in
  cur_out <- for_range (scnn_layer_4 weights S_lower S2_lower S3_lower S4_lower
                                     S_upper S2_upper S3_upper S4_upper n_k)
                       0 (Z.to_nat n_layers) flow ;;
  readout weights Bcond_func last_node cur_out.

(** *** Ebli *)

Definition ebli_layer (weights : list ndarray) (S S2 S3 : ndarray)
    (i : Z) (cur_out : ndarray) : result ndarray :=
  w0 <- weight weights (i * 4) ;;
  t0 <- np.matmul cur_out w0 ;;
  a1 <- plus_term t0 S cur_out weights (i * 4 + 1) ;;
  a2 <- plus_term a1 S2 cur_out weights (i * 4 + 2) ;;
  a3 <- plus_term a2 S3 cur_out weights (i * 4 + 3) ;;
  Ok (tanh a3).

Definition ebli_func (weights : list ndarray) (S S2 S3 : ndarray)
    (Bcond_func : Z -> ndarray) (last_node : Z) (flow : ndarray) : result ndarray :=
  n_layers <- n_layers_checked (Z.of_nat (length weights) - 1) 4 ;;
  cur_out <- for_range (ebli_layer weights S S2 S3) 0 (Z.to_nat n_layers) flow ;;
  readout weights Bcond_func last_node cur_out.

(** *** Bunch *)

Definition bunch_layer (weights : list ndarray)
    (S_00 S_10 S_01 S_11 S_21 S_12 S_22 : ndarray)
    (i : Z) (cur_out : ndarray * ndarray * ndarray)
  : result (ndarray * ndarray * ndarray) :=
  let '(c0, c1, c2) := cur_out in
  n0 <- shift_term S_00 c0 weights (i * 7) ;;
  n0 <- plus_term n0 S_10 c1 weights (i * 7 + 1) ;;
  e0 <- shift_term S_01 c0 weights (i * 7 + 2) ;;
  e1 <- plus_term e0 S_11 c1 weights (i * 7 + 3) ;;
  e2 <- plus_term e1 S_21 c2 weights (i * 7 + 4) ;;
  t0 <- shift_term S_12 c1 weights (i * 7 + 5) ;;
  t1 <- plus_term t0 S_22 c2 weights (i * 7 + 6) ;;
  Ok (relu n0, relu e2, relu t1).

Definition bunch_func (weights : list ndarray)
    (S_00 S_10 S_01 S_11 S_21 S_12 S_22 : ndarray)
    (nbrhoods : list (list Z)) (last_node : Z) (flow : ndarray) : result ndarray :=
  n_layers <- n_layers_checked (Z.of_nat (length weights)) 7 ;;
  let cur_out := (np.zeros (shape1 S_00) 1, flow, np.zeros (shape1 S_22) 1) in
  cur_out <- for_range (bunch_layer weights S_00 S_10 S_01 S_11 S_21 S_12 S_22)
                       0 (Z.to_nat n_layers) cur_out ;;
  let nodes_out := fst (fst cur_out) in
  let logits := np.take_rows nodes_out (np.int_row nbrhoods last_node) in
  Ok (np.sub_scalar logits (logsumexp logits)).

(** ** Data setup *)

(** *** Shift operators *)

(** [F @ L @ F] *)
Definition conjugate (F L : ndarray) : result ndarray :=
  FL <- np.matmul F L ;;
  np.matmul FL F.

(** The base operators [L1_lower] and [L1_upper] of [data_setup]. [flips] is
    the random vector of signs drawn when [flip_edges] is set. *)
Definition data_setup_L1 (hp : hyperparams) (flips : list R) (B1 B2 : ndarray)
  : result (ndarray * ndarray) :=
  let F := np.diag flips in
  L1_lower <- np.matmul (np.T B1) B1 ;;
  L1_upper <- np.matmul B2 (np.T B2) ;;
  if truthy (flip_edges hp) then
    L1_lower <- conjugate F L1_lower ;;
    L1_upper <- conjugate F L1_upper ;;
    Ok (L1_lower, L1_upper)
  else Ok (L1_lower, L1_upper).

(** The part of [data_setup] that defines the shifts of one dataset;
    [compute_shift_matrices] is the routine of [bunch_model_matrices]. *)
Definition data_setup_shifts (hp : hyperparams) (flips : list R)
    (compute_shift_matrices : ndarray -> ndarray -> result (list ndarray))
    (B1 B2 : ndarray) : result (list ndarray) :=
  L1 <- data_setup_L1 hp flips B1 B2 ;;
  let '(L1_lower, L1_upper) := L1 in
  if (model hp =? "scone")%string then
    Ok [L1_lower; L1_upper]
  else if (model hp =? "scnn2")%string then
    l2 <- np.matmul L1_lower L1_lower ;;
    u2 <- np.matmul L1_upper L1_upper ;;
    Ok [L1_lower; l2; L1_upper; u2]
  else if (model hp =? "scnn3")%string then
    l2 <- np.matmul L1_lower L1_lower ;;
    l2' <- np.matmul L1_lower L1_lower ;;
    l3 <- np.matmul l2' L1_lower ;;
    u2 <- np.matmul L1_upper L1_upper ;;
    u2' <- np.matmul L1_upper L1_upper ;;
    u3 <- np.matmul u2' L1_upper ;;
    Ok [L1_lower; l2; l3; L1_upper; u2; u3]
  else if (model hp =? "scnn4")%string then
    l2 <- np.matmul L1_lower L1_lower ;;
    l2' <- np.matmul L1_lower L1_lower ;;
    l3 <- np.matmul l2' L1_lower ;;
    l2'' <- np.matmul L1_lower L1_lower ;;
    l3' <- np.matmul l2'' L1_lower ;;
    l4 <- np.matmul l3' L1_lower ;;
    u2 <- np.matmul L1_upper L1_upper ;;
    u2' <- np.matmul L1_upper L1_upper ;;
    u3 <- np.matmul u2' L1_upper ;;
    u2'' <- np.matmul L1_upper L1_upper ;;
    u3' <- np.matmul u2'' L1_upper ;;
    u4 <- np.matmul u3' L1_upper ;;
    Ok [L1_lower; l2; l3; l4; L1_upper; u2; u3; u4]
  else if (model hp =? "ebli")%string then
    L1 <- np.add L1_lower L1_upper ;;
    p2 <- np.matmul L1 L1 ;;
    p2' <- np.matmul L1 L1 ;;
    p3 <- np.matmul p2' L1 ;;
    Ok [L1; p2; p3]
  else if (model hp =? "bunch")%string then
    compute_shift_matrices B1 B2
  else
    Raise (Exception "invalid model type").

(** *** Neighbourhood table

    The undirected graph is given by its adjacency: each node with the
    collection of its neighbours. *)

Definition graph : Type := list (Z * list Z).

Definition nodes (G : graph) : list Z := map fst G.

(** [G[n]] *)
Definition adj (G : graph) (n : Z) : result (list Z) :=
  match find (fun p => (fst p =? n)%Z) G with
  | Some p => Ok (snd p)
  | None => Raise (Exception "KeyError")
  end.

(** The degree of a node counts a self-loop twice. *)
Definition degree (p : Z * list Z) : nat :=
  (length (snd p) + if existsb (Z.eqb (fst p)) (snd p) then 1 else 0)%nat.

(** [max(l)] of a non-empty collection. *)
Definition py_max {A : Type} (mx : A -> A -> A) (l : list A) : result A :=
  match l with
  | [] => Raise (Exception "ValueError")
  | x :: l' => Ok (fold_left mx l' x)
  end.

Fixpoint insert_sorted (x : Z) (l : list Z) : list Z :=
  match l with
  | [] => [x]
  | y :: l' => if (x <=? y)%Z then x :: l else y :: insert_sorted x l'
  end.

(** [sorted(l)] on integers. *)
Definition sorted (l : list Z) : list Z := fold_right insert_sorted [] l.

(** [range(n)] *)
Definition range (n : Z) : list Z := map Z.of_nat (seq 0 (Z.to_nat n)).

(** [list(sorted(G[n])) + [-1] * (max_degree - len(G[n]))] *)
Definition padded_row (G : graph) (max_degree : nat) (n : Z) : result (list Z) :=
  a <- adj G n ;;
  Ok (sorted a ++ repeat (-1)%Z (max_degree - length a)).

(** [max(G_undir.degree, key=lambda x: x[1])[1]] *)
Definition max_degree_of (G : graph) : result nat :=
  py_max Nat.max (map degree G).

(** The two statements of [data_setup] that build the table: the maximum
    degree, and the comprehension over [range(max(G_undir.nodes) + 1)].  The
    statements of [data_setup] that come before them are not part of this
    definition. *)
Definition data_setup_nbrhoods (G : graph) : result (list (list Z)) :=
  max_degree <- max_degree_of G ;;
  top <- py_max Z.max (nodes G) ;;
  list_comp (padded_row G max_degree) (range (top + 1)).

(** *** Conditional incidence *)

(** [B1_jax]: [B1] with one row of zeros appended, multiplied by [F] when
    the edges are flipped. *)
Definition data_setup_B1_jax (hp : hyperparams) (flips : list R) (B1 : ndarray)
  : result ndarray :=
  B1_jax <- np.append0 B1 (np.zeros 1 (shape1 B1)) ;;
  if truthy (flip_edges hp) then np.matmul B1_jax (np.diag flips) else Ok B1_jax.

(** Returns rows of [B1] corresponding to neighbors of node [n]. *)
Definition Bconds_func (nbrhoods : list (list Z)) (B1_jax : ndarray) (n : Z) : ndarray :=
  let Nv := np.int_row nbrhoods n in
  np.take_rows B1_jax Nv.

(** *** Flows

    A batch of flows of shape [(n_flows, n_edges, 1)] is the list of its
    [(n_edges, 1)] slices. [flip_flows] reshapes the batch to
    [(n_flows, n_edges)], multiplies it by [F] and reshapes it back. *)
Definition flip_flows (X : list ndarray) (n_edges : nat) (F : ndarray)
  : result (list ndarray) :=
  let n_flows := length X in
  let X2 := mk n_flows n_edges (fun f e => get (nth f X no_array) e 0) in
  XF <- np.matmul X2 F ;;
  Ok (map (fun f => mk n_edges 1 (fun e _ => get XF f e)) (seq 0 n_flows)).

(** *** Path prefixes

    [loaded] is the outcome of reading [prefixes.npy]; [flow_to_path] is the
    routine of [synthetic_data_gen]. *)
Definition data_setup_prefixes (loaded : result (list (list Z)))
    (flow_to_path : ndarray -> list (Z * Z) -> Z -> result (list Z))
    (X : list ndarray) (E : list (Z * Z)) (last_nodes : list Z)
  : result (list (list Z)) :=
  try_except loaded
    (list_comp (fun i =>
                  x <- py_getitem no_array X i ;;
                  n <- py_getitem 0%Z last_nodes i ;;
                  flow_to_path x E n)
               (range (Z.of_nat (length last_nodes)))).

(** ** Regional masks of [train_model] *)

Definition regional_masks (hp : hyperparams) (train_mask test_mask : list Z)
    (n_examples : nat) : list Z * list Z :=
  if truthy (regional hp) then
    (map (fun i => if (i mod 3 =? 1)%Z then 1%Z else 0%Z) (range (Z.of_nat n_examples)),
     map (fun i => if (i mod 3 =? 2)%Z then 1%Z else 0%Z) (range (Z.of_nat n_examples)))
  else (train_mask, test_mask).

(** ** Vocabulary of the statements *)

(** Two computations that fail with the same exception or return related
    values. *)
Definition rel_result {A B : Type} (P : A -> B -> Prop) (c : result A) (c' : result B) : Prop :=
  match c, c' with
  | Ok a, Ok b => P a b
  | Raise e, Raise e' => e = e'
  | _, _ => False
  end.


(** An orientation sign. *)
Definition sign (s : R) : Prop := s = 1 \/ s = -1.

(** [x'] is [x] with every row [i] multiplied by the sign [f_i]. *)
Definition row_flipped (f : list R) (x x' : ndarray) : Prop :=
  shape0 x = length f /\ shape0 x' = length f /\ shape1 x' = shape1 x /\
  forall i j, (i < length f)%nat -> (j < shape1 x)%nat ->
              get x' i j = nth i f 0 * get x i j.

(** [B'] is [B] with every column [j] multiplied by the sign [f_j]. *)
Definition col_flipped (f : list R) (B B' : ndarray) : Prop :=
  shape0 B' = shape0 B /\ shape1 B = length f /\ shape1 B' = length f /\
  forall i j, (i < shape0 B)%nat -> (j < length f)%nat ->
              get B' i j = get B i j * nth j f 0.

(** [S'] is the square operator [S] with rows and columns multiplied by the
    signs. *)
Definition conjugated (f : list R) (S S' : ndarray) : Prop :=
  shape0 S = length f /\ shape1 S = length f /\
  shape0 S' = length f /\ shape1 S' = length f /\
  forall i j, (i < length f)%nat -> (j < length f)%nat ->
              get S' i j = nth i f 0 * get S i j * nth j f 0.

(** The quadratic form [x.T @ A @ x] of a column vector [x]. *)
Definition quad_form (A x : ndarray) : R :=
  get (np.dot (np.dot (np.T x) A) x) 0 0.

(** [A] is the Gram matrix of the vectors [g 0], ..., [g (m-1)] of
    dimension [n]: entry [(i, j)] is the sum of [g k i * g k j]. *)
Definition gram (m n : nat) (g : nat -> nat -> R) (A : ndarray) : Prop :=
  shape0 A = n /\ shape1 A = n /\
  forall i j, (i < n)%nat -> (j < n)%nat ->
              get A i j = sumf m (fun k => g k i * g k j).



(** ** A small complex

    The filled triangle on the nodes 0, 1, 2 with a pendant node 3 attached
    to node 2; the edges are (0,1), (0,2), (1,2), (2,3) in this order. *)

Definition of_rows (m n : nat) (rows : list (list R)) : ndarray :=
  {| shape0 := m; shape1 := n; data := rows |}.

Definition ex_B1 : ndarray :=
  of_rows 4 4 [[-1; -1; 0; 0]; [1; 0; -1; 0]; [0; 1; 1; -1]; [0; 0; 0; 1]].

Definition ex_B2 : ndarray := of_rows 4 1 [[1]; [-1]; [1]; [0]].

Definition ex_G : graph :=
  [(0, [1; 2]); (1, [0; 2]); (2, [0; 1; 3]); (3, [2])]%Z.

Definition ex_nbrhoods : list (list Z) :=
  [[1; 2; -1]; [0; 2; -1]; [0; 1; 3]; [2; -1; -1]]%Z.

(** The flow of the path 0, 2, 3, which ends at node 3. *)
Definition ex_flow : ndarray := of_rows 4 1 [[0]; [1]; [0]; [1]].

(** Weights of one base-family layer with two hidden units. *)
Definition ex_weights : list ndarray :=
  [of_rows 1 2 [[1; -1]]; of_rows 1 2 [[1; 0]]; of_rows 1 2 [[0; 1]];
   of_rows 2 1 [[1]; [1]]].

Definition ex_flips : list R := [1; -1; 1; -1].

Definition ex_hp_flip : hyperparams :=
  {| model := "scone"; k1_scnn := 2; k2_scnn := 2; regional := 0; flip_edges := 1 |}.

Definition ex_hp_scone : hyperparams :=
  {| model := "scone"; k1_scnn := 2; k2_scnn := 2; regional := 0; flip_edges := 0 |}.

Definition ex_lower : ndarray := np.dot (np.T ex_B1) ex_B1.

Definition ex_upper : ndarray := np.dot ex_B2 (np.T ex_B2).

Definition ex_B1_jax : ndarray :=
  mk 5 4 (fun i j => if i <? 4 then get ex_B1 i j else get (np.zeros 1 4) (i - 4) j).

(** A computation that stops on an index out of range or on a shape
    mismatch, and one that returns or stops on a shape mismatch. *)
Definition index_or_shape_error {A : Type} (r : result A) : Prop :=
  r = Raise IndexError \/ r = Raise ShapeError.

Definition ok_or_shape_error {A : Type} (r : result A) : Prop :=
  (exists a, r = Ok a) \/ r = Raise ShapeError.

Definition wrong_number_of_weights {A : Type} : result A :=
  Raise (AssertionError "wrong number of weights").

(** Six weights for signals of one channel, and the powers of the base
    operators of the example complex. *)
Definition ex_weights6 : list ndarray := repeat (of_rows 1 1 [[1]]) 6.

Definition ex_lower2 : ndarray := np.dot ex_lower ex_lower.
Definition ex_lower3 : ndarray := np.dot ex_lower2 ex_lower.
Definition ex_lower4 : ndarray := np.dot ex_lower3 ex_lower.
Definition ex_upper2 : ndarray := np.dot ex_upper ex_upper.
Definition ex_upper3 : ndarray := np.dot ex_upper2 ex_upper.
Definition ex_upper4 : ndarray := np.dot ex_upper3 ex_upper.

(** Powers by repeated multiplication: [A], [A @ A], [A @ A @ A], ... *)
Fixpoint matrix_power (A : ndarray) (k : nat) : ndarray :=
  match k with
  | O => np.diag (repeat 1 (shape0 A))
  | S k' => match k' with
            | O => A
            | S _ => np.dot (matrix_power A k') A
            end
  end.

(** The entry-wise sum of two arrays of one shape. *)
Definition matrix_sum (A B : ndarray) : ndarray :=
  mk (shape0 A) (shape1 A) (fun i j => get A i j + get B i j).

(** The layer of the order-4 family as the specification words it: every
    one of the eight operators, the fourth lower power included, is
    multiplied by its own weight. *)
Definition scnn_layer_4_spec (weights : list ndarray)
    (S_lower S2_lower S3_lower S4_lower S_upper S2_upper S3_upper S4_upper : ndarray)
    (n_k : Z) (i : Z) (cur_out : ndarray) : result ndarray :=
  w0 <- weight weights (i * n_k) ;;
  t0 <- np.matmul cur_out w0 ;;
  a1 <- plus_term t0 S_lower cur_out weights (i * n_k + 1) ;;
  a2 <- plus_term a1 S2_lower cur_out weights (i * n_k + 2) ;;
  a3 <- plus_term a2 S3_lower cur_out weights (i * n_k + 3) ;;
  a4 <- plus_term a3 S4_lower cur_out weights (i * n_k + 4) ;;
  a5 <- plus_term a4 S_upper cur_out weights (i * n_k + 5) ;;
  a6 <- plus_term a5 S2_upper cur_out weights (i * n_k + 6) ;;
  a7 <- plus_term a6 S3_upper cur_out weights (i * n_k + 7) ;;
  a8 <- plus_term a7 S4_upper cur_out weights (i * n_k + 8) ;;
  Ok (tanh a8).

(** ** A complex of one edge

    Two nodes joined by the edge (0,1), and no triangle. *)

Definition one_B1 : ndarray := of_rows 2 1 [[-1]; [1]].

Definition one_B2 : ndarray := of_rows 1 0 [[]].

Definition one_hp_scnn4 : hyperparams :=
  {| model := "scnn4"; k1_scnn := 4; k2_scnn := 4; regional := 0; flip_edges := 0 |}.

Definition one_lower : ndarray := np.dot (np.T one_B1) one_B1.

Definition one_upper : ndarray := np.dot one_B2 (np.T one_B2).

Definition one_flow : ndarray := of_rows 1 1 [[1]].

Definition zero11 : ndarray := of_rows 1 1 [[0]].

Definition unit11 : ndarray := of_rows 1 1 [[1]].

(** Ten weights of one layer of the order-4 family with one hidden unit;
    only the weight of index 4 and the terminal weight are not zero. *)
Definition one_weights : list ndarray :=
  [zero11; zero11; zero11; zero11; unit11; zero11; zero11; zero11; zero11; unit11].

(** What [scone_func] returns on the example complex at node 3. *)
Definition ex_out : ndarray :=
  match scone_func ex_weights ex_lower ex_upper
                   (Bconds_func ex_nbrhoods ex_B1_jax) 3 ex_flow with
  | Ok out => out
  | Raise _ => no_array
  end.

Definition ex_hp_regional : hyperparams :=
  {| model := "scone"; k1_scnn := 2; k2_scnn := 2; regional := 1; flip_edges := 0 |}.

(** * Further definitions *)

(** A square array of side [n]. *)
Definition square_of (n : nat) (S : ndarray) : Prop := shape0 S = n /\ shape1 S = n.

(** The outcomes of a forward pass whose reads of the weight list are all
    within the list: a value, a shape mismatch, or the failed validation. *)
Definition reads_in_bounds {A : Type} (r : result A) : Prop :=
  ok_or_shape_error r \/ r = wrong_number_of_weights.

(** [n_nbrs]: the number of neighbours of each last node, read from
    [nbrhoods_dict]. *)
Definition data_setup_n_nbrs (G : graph) (last_nodes : list Z) : result (list nat) :=
  list_comp (fun n => a <- adj G n ;; Ok (length a)) last_nodes.

(** ** The Markov baseline of [train_model]: paths and regions *)

(** [[prefix + [target1, target2] for prefix, target1, target2 in
    zip(prefixes, targets1, targets2)]] *)
Fixpoint markov_paths (prefixes : list (list Z)) (targets1 targets2 : list Z)
  : list (list Z) :=
  match prefixes, targets1, targets2 with
  | p :: ps, t1 :: ts1, t2 :: ts2 => (p ++ [t1; t2]) :: markov_paths ps ts1 ts2
  | _, _, _ => []
  end.

(** [p[:-2]] *)
Definition drop_last_two {A : Type} (p : list A) : list A :=
  firstn (length p - 2) p.

(** [rev_paths = [path[::-1] for path in paths]] *)
Definition rev_paths (paths : list (list Z)) : list (list Z) := map (@rev Z) paths.

(** [rev_prefixes = [p[:-2] for p in rev_paths]] *)
Definition rev_prefixes (paths : list (list Z)) : list (list Z) :=
  map drop_last_two (rev_paths paths).

(** [[p[-2] for p in rev_paths]] and [[p[-1] for p in rev_paths]] *)
Definition rev_target_nodes_1hop (paths : list (list Z)) : result (list Z) :=
  list_comp (fun p => py_getitem 0%Z p (-2)) (rev_paths paths).

Definition rev_target_nodes_2hop (paths : list (list Z)) : result (list Z) :=
  list_comp (fun p => py_getitem 0%Z p (-1)) (rev_paths paths).

(** [arr[mask == 1]] for a mask of integers: the entries of [arr] at the
    positions where the mask is 1; the lengths must agree. *)
Definition mask_select {A : Type} (arr : list A) (mask : list Z) : result (list A) :=
  if length arr =? length mask
  then Ok (map fst (filter (fun p => (snd p =? 1)%Z) (combine arr mask)))
  else Raise IndexError.

(** [[arr[i] for i in range(n) if i % 3 == r]] *)
Definition region_select {A : Type} (d : A) (arr : list A) (n : nat) (r : Z)
  : result (list A) :=
  list_comp (fun i => py_getitem d arr i)
            (filter (fun i => (i mod 3 =? r)%Z) (range (Z.of_nat n))).

(** ** The choice of the forward pass in [train_model] *)

Inductive model_func : Type :=
| Scone_func | Ebli_func | Bunch_func | Scnn_func_2 | Scnn_func_3 | Scnn_func_4.

Definition train_model_model_func (hp : hyperparams) : result model_func :=
  if (model hp =? "scone")%string then Ok Scone_func
  else if (model hp =? "ebli")%string then Ok Ebli_func
  else if (model hp =? "bunch")%string then Ok Bunch_func
  else if (model hp =? "scnn2")%string then Ok Scnn_func_2
  else if (model hp =? "scnn3")%string then Ok Scnn_func_3
  else if (model hp =? "scnn4")%string then Ok Scnn_func_4
  else Raise (Exception "invalid model").

(** The number of shift operators in the signature of each forward pass. *)
Definition n_shift_params (f : model_func) : nat :=
  match f with
  | Scone_func => 2
  | Ebli_func => 3
  | Bunch_func => 7
  | Scnn_func_2 => 4
  | Scnn_func_3 => 6
  | Scnn_func_4 => 8
  end.

(** ** The hidden layers given on the command line *)

(** [for x in l: s = body(x, s)] *)
Fixpoint for_each {A S : Type} (body : A -> S -> result S) (l : list A) (s : S)
  : result S :=
  match l with
  | [] => Ok s
  | x :: l' => s' <- body x s ;; for_each body l' s'
  end.

(** [range(0, n, 2)] *)
Definition range_step2 (n : nat) : list Z :=
  map (fun i => (2 * Z.of_nat i)%Z) (seq 0 (Nat.div2 (n + 1))).

(** The loop of [hyperparams()] that pairs the numbers of [-hidden_layers]:
    [for j in range(0, len(nums), 2):
       hidden_layers += [(nums[j], nums[j + 1])]]. *)
Definition hidden_layers_of (nums : list Z) : result (list (Z * Z)) :=
  for_each (fun j hidden_layers =>
              a <- py_getitem 0%Z nums j ;;
              b <- py_getitem 0%Z nums (j + 1) ;;
              Ok (hidden_layers ++ [(a, b)]))
           (range_step2 (length nums)) [].

(** The numbers of a list of layers, in order. *)
Fixpoint flatten_layers (l : list (Z * Z)) : list Z :=
  match l with
  | [] => []
  | (a, b) :: l' => a :: b :: flatten_layers l'
  end.

(** ** The other activation functions *)

(** [1 / (1 + np.exp(-x))] *)
Definition sigmoid (x : ndarray) : ndarray :=
  np.map_entries (fun v => 1 / (1 + exp (- v))) x.

(** [np.where(x >= 0, x, 0.01 * x)] *)
Definition leaky_relu (x : ndarray) : ndarray :=
  np.map_entries (fun v => if Rle_dec 0 v then v else 0.01 * v) x.

(** The consecutive pairs of a list of numbers. *)
Fixpoint pair_up (l : list Z) : list (Z * Z) :=
  match l with
  | a :: b :: r => (a, b) :: pair_up r
  | _ => []
  end.

(** An array of shape [(m, n)]. *)
Definition has_shape (m n : nat) (A : ndarray) : Prop := shape0 A = m /\ shape1 A = n.

(** The weights of a base-family model with the given channel widths fit
    together: the three weights of layer [i] map [widths[i]] channels to
    [widths[i+1]], and the terminal weight takes the last width. *)
Definition scone_weights_fit (widths : list nat) (weights : list ndarray) : Prop :=
  let n := (length widths - 1)%nat in
  (0 < length widths)%nat /\
  length weights = (3 * n + 1)%nat /\
  (forall i r, (i < n)%nat -> (r < 3)%nat ->
               has_shape (nth i widths 0%nat) (nth (S i) widths 0%nat)
                         (nth (3 * i + r) weights no_array)) /\
  shape0 (nth (3 * n) weights no_array) = nth n widths 0%nat.

(** ** More runs on the example complex *)

Definition ex_lower_F : ndarray :=
  np.dot (np.dot (np.diag ex_flips) ex_lower) (np.diag ex_flips).

Definition ex_hp_unknown : hyperparams :=
  {| model := "gcn"; k1_scnn := 2; k2_scnn := 2; regional := 0; flip_edges := 0 |}.


(** The seven operators of the decomposition family are of the shapes that
    [B1] and [B2] give; the table is that of a complex in which node 0 is
    adjacent to the last node only. *)
Definition ex_S_00 : ndarray := np.dot ex_B1 (np.T ex_B1).
Definition ex_S_22 : ndarray := np.dot (np.T ex_B2) ex_B2.
Definition ex_weights7 : list ndarray := repeat unit11 7.
Definition ex_nbrhoods_hub : list (list Z) :=
  [[3; -1; -1]; [2; 3; -1]; [1; 3; -1]; [0; 1; 2]]%Z.

Definition ex_bunch_out : ndarray :=
  match bunch_func ex_weights7 ex_S_00 ex_B1 (np.T ex_B1) ex_lower ex_B2 (np.T ex_B2)
                   ex_S_22 ex_nbrhoods_hub 0 ex_flow with
  | Ok out => out
  | Raise _ => no_array
  end.

Definition ex_paths : list (list Z) := [[0; 2; 3]; [1; 2; 3]; [0; 1; 2]]%Z.

(** One layer of the order-3 family with [k1 = k2 = 3] and one hidden unit
    reads seven weights and the terminal one; one layer of the combined-sum
    family reads four weights and the terminal one. *)
Definition ex_weights8 : list ndarray := repeat unit11 8.
Definition ex_weights5 : list ndarray := repeat unit11 5.
(** * Properties *)

(** ** Sums *)

Lemma sumf_ext (n : nat) (f g : nat -> R) :
  (forall k, (k < n)%nat -> f k = g k) -> sumf n f = sumf n g.
Proof.
  induction n as [|n IH]; intros H; simpl; [reflexivity|].
  rewrite IH by (intros; apply H; lia). rewrite H by lia. reflexivity.
Qed.

Lemma sumf_zero (n : nat) : sumf n (fun _ => 0) = 0.
Proof. induction n as [|n IH]; simpl; [|rewrite IH]; lra. Qed.

Lemma sumf_plus (n : nat) (f g : nat -> R) :
  sumf n (fun k => f k + g k) = sumf n f + sumf n g.
Proof. induction n as [|n IH]; simpl; [|rewrite IH]; lra. Qed.

Lemma sumf_scale (n : nat) (c : R) (f : nat -> R) :
  sumf n (fun k => c * f k) = c * sumf n f.
Proof. induction n as [|n IH]; simpl; [|rewrite IH]; lra. Qed.

Lemma sumf_scale_r (n : nat) (c : R) (f : nat -> R) :
  sumf n (fun k => f k * c) = sumf n f * c.
Proof. induction n as [|n IH]; simpl; [|rewrite IH]; lra. Qed.

Lemma sumf_swap (m n : nat) (f : nat -> nat -> R) :
  sumf m (fun i => sumf n (fun j => f i j)) = sumf n (fun j => sumf m (fun i => f i j)).
Proof.
  induction m as [|m IH]; simpl.
  - now rewrite sumf_zero.
  - rewrite IH, <- sumf_plus. reflexivity.
Qed.

(** A sum in which only the term of index [j] is not zero. *)
Lemma sumf_single (n j : nat) (f : nat -> R) :
  (j < n)%nat -> (forall k, (k < n)%nat -> k <> j -> f k = 0) -> sumf n f = f j.
Proof.
  induction n as [|n IH]; intros Hj H; [lia|]. simpl.
  destruct (Nat.eq_dec j n) as [->|Hne].
  - rewrite (sumf_ext n f (fun _ => 0)) by (intros; apply H; lia).
    rewrite sumf_zero. lra.
  - rewrite IH by (try lia; intros; apply H; lia).
    rewrite (H n) by lia. lra.
Qed.

Lemma sumf_nonneg (n : nat) (f : nat -> R) :
  (forall k, (k < n)%nat -> 0 <= f k) -> 0 <= sumf n f.
Proof.
  induction n as [|n IH]; intros H; simpl; [lra|].
  specialize (IH ltac:(intros; apply H; lia)). specialize (H n ltac:(lia)). lra.
Qed.


(** ** Arrays built by [mk] *)

Lemma nth_map_seq {A : Type} (g : nat -> A) (d : A) (n i : nat) :
  (i < n)%nat -> nth i (map g (seq 0 n)) d = g i.
Proof.
  intros H. rewrite (nth_indep _ d (g 0%nat)) by (rewrite length_map, length_seq; lia).
  rewrite map_nth, seq_nth by lia. reflexivity.
Qed.

Lemma get_mk (m n : nat) (f : nat -> nat -> R) (i j : nat) :
  (i < m)%nat -> (j < n)%nat -> get (mk m n f) i j = f i j.
Proof.
  intros Hi Hj. unfold get, mk; simpl.
  rewrite nth_map_seq by lia. now rewrite nth_map_seq by lia.
Qed.

Lemma get_mk_row_out (m n : nat) (f : nat -> nat -> R) (i j : nat) :
  (m <= i)%nat -> get (mk m n f) i j = 0.
Proof.
  intros Hi. unfold get, mk; simpl.
  rewrite (nth_overflow (map _ _)) by (rewrite length_map, length_seq; lia).
  now destruct j.
Qed.

Lemma mk_ext (m n : nat) (f g : nat -> nat -> R) :
  (forall i j, (i < m)%nat -> (j < n)%nat -> f i j = g i j) -> mk m n f = mk m n g.
Proof.
  intros H. unfold mk. f_equal.
  apply map_ext_in. intros i Hi. apply map_ext_in. intros j Hj.
  apply in_seq in Hi, Hj. apply H; lia.
Qed.

Lemma wf_mk (m n : nat) (f : nat -> nat -> R) : wf (mk m n f).
Proof.
  split; simpl.
  - now rewrite length_map, length_seq.
  - apply Forall_forall. intros r Hr. apply in_map_iff in Hr.
    destruct Hr as [i [<- _]]. now rewrite length_map, length_seq.
Qed.

(** Two well-formed arrays of one shape with the same entries are equal. *)
Lemma ndarray_ext (A B : ndarray) :
  wf A -> wf B -> shape0 A = shape0 B -> shape1 A = shape1 B ->
  (forall i j, (i < shape0 A)%nat -> (j < shape1 A)%nat -> get A i j = get B i j) ->
  A = B.
Proof.
  destruct A as [m n a], B as [m' n' b]. unfold wf, get; simpl.
  intros [La Fa] [Lb Fb] -> -> H. f_equal.
  apply (nth_ext _ _ [] []); [congruence|].
  intros i Hi. rewrite La in Hi.
  assert (Ha : length (nth i a []) = n').
  { rewrite Forall_forall in Fa. apply Fa, nth_In. lia. }
  assert (Hb : length (nth i b []) = n').
  { rewrite Forall_forall in Fb. apply Fb, nth_In. lia. }
  apply (nth_ext _ _ 0 0); [congruence|].
  intros j Hj. apply H; lia.
Qed.

Lemma mk_get (A : ndarray) : wf A -> mk (shape0 A) (shape1 A) (get A) = A.
Proof.
  intros H. apply ndarray_ext; auto using wf_mk.
  intros i j Hi Hj. now apply get_mk.
Qed.

(** ** The result monad *)

Lemma rel_result_bind {A B A' B' : Type} (P : A -> A' -> Prop) (Q : B -> B' -> Prop)
    (c : result A) (c' : result A') (k : A -> result B) (k' : A' -> result B') :
  rel_result P c c' ->
  (forall a a', P a a' -> rel_result Q (k a) (k' a')) ->
  rel_result Q (bind c k) (bind c' k').
Proof.
  destruct c, c'; simpl; intros H K; try contradiction; auto.
Qed.

Lemma rel_result_eq {A : Type} (c c' : result A) : rel_result eq c c' -> c = c'.
Proof. destruct c, c'; simpl; intros H; try contradiction; congruence. Qed.

Lemma rel_result_refl {A : Type} (P : A -> A -> Prop) (c : result A) :
  (forall a, P a a) -> rel_result P c c.
Proof. destruct c; simpl; auto. Qed.

Lemma for_range_rel {S S' : Type} (P : S -> S' -> Prop)
    (body : Z -> S -> result S) (body' : Z -> S' -> result S') (n : nat) :
  (forall i s s', P s s' -> rel_result P (body i s) (body' i s')) ->
  forall i s s', P s s' -> rel_result P (for_range body i n s) (for_range body' i n s').
Proof.
  intros Hb. induction n as [|n IH]; intros i s s' H; simpl; [exact H|].
  eapply rel_result_bind; [apply Hb, H|]. intros a a' Ha. now apply IH.
Qed.

(** ** Orientation flips *)

Lemma sign_sq (s : R) : sign s -> s * s = 1.
Proof. intros [-> | ->]; lra. Qed.

Lemma cosh_pos (x : R) : 0 < cosh x.
Proof.
  unfold cosh. pose proof (exp_pos x). pose proof (exp_pos (- x)). lra.
Qed.

Lemma tanh_odd (x : R) : Rtrigo_def.tanh (- x) = - Rtrigo_def.tanh x.
Proof.
  unfold Rtrigo_def.tanh.
  assert (Hc : cosh (- x) = cosh x).
  { unfold cosh. rewrite Ropp_involutive. lra. }
  assert (Hs : sinh (- x) = - sinh x).
  { unfold sinh. rewrite Ropp_involutive. lra. }
  rewrite Hc, Hs. pose proof (cosh_pos x). field. lra.
Qed.

Lemma tanh_sign (s x : R) : sign s -> Rtrigo_def.tanh (s * x) = s * Rtrigo_def.tanh x.
Proof.
  intros [-> | ->].
  - now rewrite !Rmult_1_l.
  - replace (-1 * x) with (- x) by lra. rewrite tanh_odd. lra.
Qed.

Lemma nth_sign (f : list R) (i : nat) :
  Forall sign f -> (i < length f)%nat -> sign (nth i f 0).
Proof. intros H Hi. rewrite Forall_forall in H. apply H, nth_In, Hi. Qed.

Lemma get_diag (f : list R) (i j : nat) :
  (i < length f)%nat -> (j < length f)%nat ->
  get (np.diag f) i j = if i =? j then nth i f 0 else 0.
Proof. intros Hi Hj. unfold np.diag. now rewrite get_mk. Qed.

Lemma get_dot (A B : ndarray) (i j : nat) :
  (i < shape0 A)%nat -> (j < shape1 B)%nat ->
  get (np.dot A B) i j = sumf (shape1 A) (fun k => get A i k * get B k j).
Proof. intros Hi Hj. unfold np.dot. now rewrite get_mk. Qed.

Lemma get_dot_diag_l (f : list R) (A : ndarray) (i j : nat) :
  (i < length f)%nat -> (j < shape1 A)%nat ->
  get (np.dot (np.diag f) A) i j = nth i f 0 * get A i j.
Proof.
  intros Hi Hj. rewrite get_dot by (simpl; lia). simpl.
  rewrite (sumf_single _ i); [| lia |].
  - rewrite get_diag by lia. now rewrite Nat.eqb_refl.
  - intros k Hk Hne. rewrite get_diag by lia.
    destruct (Nat.eqb_spec i k); [congruence | lra].
Qed.

Lemma get_dot_diag_r (f : list R) (A : ndarray) (i j : nat) :
  shape1 A = length f -> (i < shape0 A)%nat -> (j < length f)%nat ->
  get (np.dot A (np.diag f)) i j = get A i j * nth j f 0.
Proof.
  intros HA Hi Hj. rewrite get_dot by (simpl; lia). rewrite HA.
  rewrite (sumf_single _ j); [| lia |].
  - rewrite get_diag by lia. now rewrite Nat.eqb_refl.
  - intros k Hk Hne. rewrite get_diag by lia.
    destruct (Nat.eqb_spec k j); [congruence | lra].
Qed.

Lemma conjugate_spec (f : list R) (S : ndarray) :
  shape0 S = length f -> shape1 S = length f ->
  exists S', conjugate (np.diag f) S = Ok S' /\ conjugated f S S'.
Proof.
  intros H0 H1. unfold conjugate, np.matmul. simpl.
  rewrite H0, Nat.eqb_refl. simpl. rewrite H1, Nat.eqb_refl.
  eexists; split; [reflexivity|].
  repeat split; auto. intros i j Hi Hj.
  rewrite get_dot_diag_r by (simpl; lia).
  rewrite get_dot_diag_l by lia. reflexivity.
Qed.

Lemma matmul_row_flipped (f : list R) (x x' w : ndarray) :
  row_flipped f x x' ->
  rel_result (row_flipped f) (np.matmul x w) (np.matmul x' w).
Proof.
  intros (H0 & H0' & H1 & Hg). unfold np.matmul. rewrite H1.
  destruct (shape1 x =? shape0 w); simpl; [|reflexivity].
  repeat split; simpl; auto. intros i j Hi Hj.
  unfold np.dot. rewrite !get_mk by lia. rewrite H1, <- sumf_scale.
  apply sumf_ext. intros k Hk. rewrite Hg by lia. ring.
Qed.

Lemma matmul_conjugated (f : list R) (S S' x x' : ndarray) :
  Forall sign f -> conjugated f S S' -> row_flipped f x x' ->
  rel_result (row_flipped f) (np.matmul S x) (np.matmul S' x').
Proof.
  intros Hf (S0 & S1 & S0' & S1' & Sg) (H0 & H0' & H1 & Hg).
  unfold np.matmul. rewrite S1, S1', H0, H0', Nat.eqb_refl. simpl.
  repeat split; simpl; auto. intros i j Hi Hj.
  unfold np.dot. rewrite !get_mk by lia. rewrite S1, S1', <- sumf_scale.
  apply sumf_ext. intros k Hk. rewrite Sg, Hg by lia.
  pose proof (sign_sq _ (nth_sign f k Hf Hk)) as Hk2.
  transitivity (nth i f 0 * get S i k * get x k j * (nth k f 0 * nth k f 0)); [ring|].
  rewrite Hk2. ring.
Qed.

Lemma add_row_flipped (f : list R) (a a' b b' : ndarray) :
  row_flipped f a a' -> row_flipped f b b' ->
  rel_result (row_flipped f) (np.add a b) (np.add a' b').
Proof.
  intros (A0 & A0' & A1 & Ag) (B0 & B0' & B1 & Bg).
  unfold np.add. rewrite A0, A0', B0, B0', A1, B1.
  assert (Hd : np.bdim (length f) (length f) = Some (length f))
    by (unfold np.bdim; now rewrite Nat.eqb_refl).
  rewrite Hd. destruct (np.bdim (shape1 a) (shape1 b)) as [n|] eqn:Hn; simpl; [|reflexivity].
  repeat split; simpl; auto. intros i j Hi Hj.
  rewrite !get_mk by lia. unfold np.bget. rewrite A0, A0', B0, B0', A1, B1.
  assert (Hi' : (np.bidx (length f) i < length f)%nat /\ nth (np.bidx (length f) i) f 0 = nth i f 0).
  { unfold np.bidx. destruct (Nat.eqb_spec (length f) 1); [|auto].
    assert (i = 0)%nat as -> by lia. auto. }
  destruct Hi' as [Hi' Hfi].
  assert (Hja : (np.bidx (shape1 a) j < shape1 a)%nat /\ (np.bidx (shape1 b) j < shape1 b)%nat).
  { unfold np.bdim in Hn. unfold np.bidx.
    destruct (Nat.eqb_spec (shape1 a) (shape1 b)), (Nat.eqb_spec (shape1 a) 1),
      (Nat.eqb_spec (shape1 b) 1); try discriminate;
      injection Hn as Hn; lia. }
  destruct Hja as [Hja Hjb].
  rewrite Ag, Bg by lia. rewrite Hfi. ring.
Qed.

Lemma tanh_row_flipped (f : list R) (a a' : ndarray) :
  Forall sign f -> row_flipped f a a' -> row_flipped f (tanh a) (tanh a').
Proof.
  intros Hf (A0 & A0' & A1 & Ag). unfold tanh, np.tanh, np.map_entries.
  repeat split; simpl; auto. intros i j Hi Hj.
  rewrite !get_mk by lia. rewrite Ag by lia.
  apply tanh_sign, nth_sign; auto.
Qed.

Lemma shift_term_flipped (f : list R) (S S' x x' : ndarray) (weights : list ndarray) (j : Z) :
  Forall sign f -> conjugated f S S' -> row_flipped f x x' ->
  rel_result (row_flipped f) (shift_term S x weights j) (shift_term S' x' weights j).
Proof.
  intros Hf HS Hx. unfold shift_term.
  eapply rel_result_bind; [apply matmul_conjugated; eauto|].
  intros s s' Hs. destruct (weight weights j); simpl; [|reflexivity].
  now apply matmul_row_flipped.
Qed.

Lemma plus_term_flipped (f : list R) (acc acc' S S' x x' : ndarray)
    (weights : list ndarray) (j : Z) :
  Forall sign f -> row_flipped f acc acc' -> conjugated f S S' -> row_flipped f x x' ->
  rel_result (row_flipped f) (plus_term acc S x weights j) (plus_term acc' S' x' weights j).
Proof.
  intros Hf Ha HS Hx. unfold plus_term.
  eapply rel_result_bind; [apply shift_term_flipped; eauto|].
  intros t t' Ht. now apply add_row_flipped.
Qed.

Lemma scone_layer_flipped (f : list R) (weights : list ndarray)
    (L L' U U' : ndarray) (i : Z) (x x' : ndarray) :
  Forall sign f -> conjugated f L L' -> conjugated f U U' -> row_flipped f x x' ->
  rel_result (row_flipped f) (scone_layer weights L U i x) (scone_layer weights L' U' i x').
Proof.
  intros Hf HL HU Hx. unfold scone_layer.
  destruct (weight weights (i * 3)); simpl; [|reflexivity].
  eapply rel_result_bind; [apply matmul_row_flipped; eauto|]. intros t0 t0' H0.
  eapply rel_result_bind; [apply plus_term_flipped; eauto|]. intros a1 a1' H1.
  eapply rel_result_bind; [apply plus_term_flipped; eauto|]. intros a2 a2' H2.
  simpl. now apply tanh_row_flipped.
Qed.

(** The selected rows times the flipped signal: the signs cancel. *)
Lemma matmul_col_row_flipped (f : list R) (B B' x x' : ndarray) :
  Forall sign f -> col_flipped f B B' -> row_flipped f x x' ->
  np.matmul B' x' = np.matmul B x.
Proof.
  intros Hf (B0 & B1 & B1' & Bg) (H0 & H0' & H1 & Hg).
  unfold np.matmul. rewrite B1, B1', H0, H0', Nat.eqb_refl. f_equal.
  unfold np.dot. rewrite B0, H1, B1, B1'. apply mk_ext. intros i j Hi Hj.
  apply sumf_ext. intros k Hk. rewrite Bg, Hg by lia.
  pose proof (sign_sq _ (nth_sign f k Hf Hk)) as Hk2.
  transitivity (get B i k * get x k j * (nth k f 0 * nth k f 0)); [ring|].
  rewrite Hk2. ring.
Qed.

Lemma readout_flipped (f : list R) (weights : list ndarray)
    (Bcond Bcond' : Z -> ndarray) (last_node : Z) (x x' : ndarray) :
  Forall sign f -> col_flipped f (Bcond last_node) (Bcond' last_node) ->
  row_flipped f x x' ->
  readout weights Bcond' last_node x' = readout weights Bcond last_node x.
Proof.
  intros Hf HB Hx. unfold readout, shift_term.
  now rewrite (matmul_col_row_flipped f _ _ _ _ Hf HB Hx).
Qed.

Lemma jax_index_lt (len : nat) (i : Z) : (0 < len)%nat -> (jax_index len i < len)%nat.
Proof. intros H. unfold jax_index. destruct (i <? 0)%Z; lia. Qed.

Lemma take_rows_col_flipped (f : list R) (B B' : ndarray) (idx : list Z) :
  (0 < shape0 B)%nat -> col_flipped f B B' ->
  col_flipped f (np.take_rows B idx) (np.take_rows B' idx).
Proof.
  intros Hpos (B0 & B1 & B1' & Bg). unfold np.take_rows.
  repeat split; simpl; auto. intros i j Hi Hj.
  rewrite !get_mk by lia. rewrite B0. apply Bg; [|lia].
  now apply jax_index_lt.
Qed.

Lemma data_setup_B1_jax_plain (hp : hyperparams) (flips : list R) (B1 : ndarray) :
  truthy (flip_edges hp) = false ->
  data_setup_B1_jax hp flips B1 =
  Ok (mk (shape0 B1 + 1) (shape1 B1)
         (fun i j => if i <? shape0 B1 then get B1 i j
                     else get (np.zeros 1 (shape1 B1)) (i - shape0 B1) j)).
Proof.
  intros H. unfold data_setup_B1_jax, np.append0. simpl.
  now rewrite Nat.eqb_refl, H.
Qed.

Lemma data_setup_B1_jax_flipped (hp0 hp1 : hyperparams) (flips : list R) (B1 : ndarray) :
  truthy (flip_edges hp0) = false -> truthy (flip_edges hp1) = true ->
  shape1 B1 = length flips ->
  exists B B', data_setup_B1_jax hp0 flips B1 = Ok B /\
               data_setup_B1_jax hp1 flips B1 = Ok B' /\
               (0 < shape0 B)%nat /\ col_flipped flips B B'.
Proof.
  intros H0 H1 Hs. rewrite (data_setup_B1_jax_plain hp0) by assumption.
  unfold data_setup_B1_jax, np.append0, np.matmul. simpl.
  rewrite Nat.eqb_refl. simpl. rewrite H1, Hs, Nat.eqb_refl.
  do 2 eexists. split; [reflexivity|]. split; [reflexivity|].
  split; [simpl; lia|]. repeat split; simpl; auto.
  intros i j Hi Hj. rewrite get_dot_diag_r by (simpl; lia). reflexivity.
Qed.

Lemma matmul_diag_row_flipped (f : list R) (x : ndarray) :
  shape0 x = length f ->
  exists x', np.matmul (np.diag f) x = Ok x' /\ row_flipped f x x'.
Proof.
  intros H. unfold np.matmul. simpl. rewrite H, Nat.eqb_refl.
  eexists; split; [reflexivity|]. repeat split; simpl; auto.
  intros i j Hi Hj. now apply get_dot_diag_l.
Qed.

(** C1. Orientation-flip invariance of the base family: for sign vector
    [flips] and [F = diag(flips)], the log-probabilities that [scone_func]
    returns for the flipped inputs (selector over [B1_jax @ F], operators
    [F @ lower @ F] and [F @ upper @ F], flow [F @ flow]) are exactly those
    it returns for the original inputs, for every weight list and last node;
    when the weights make the one pass raise, the other raises the same
    exception. *)
Theorem scone_func_orientation_flip_invariant
    (hp0 hp1 : hyperparams) (flips : list R) (weights : list ndarray)
    (B1 lower upper : ndarray) (nbrhoods : list (list Z)) (last_node : Z)
    (flow : ndarray) :
  truthy (flip_edges hp0) = false -> truthy (flip_edges hp1) = true ->
  Forall sign flips ->
  shape1 B1 = length flips ->
  shape0 lower = length flips -> shape1 lower = length flips ->
  shape0 upper = length flips -> shape1 upper = length flips ->
  shape0 flow = length flips ->
  (B1_F <- data_setup_B1_jax hp1 flips B1 ;;
   lower_F <- conjugate (np.diag flips) lower ;;
   upper_F <- conjugate (np.diag flips) upper ;;
   flow_F <- np.matmul (np.diag flips) flow ;;
   scone_func weights lower_F upper_F (Bconds_func nbrhoods B1_F) last_node flow_F)
  =
  (B1_jax <- data_setup_B1_jax hp0 flips B1 ;;
   scone_func weights lower upper (Bconds_func nbrhoods B1_jax) last_node flow).
Proof.
  intros H0 H1 Hf HB HL0 HL1 HU0 HU1 Hx.
  destruct (data_setup_B1_jax_flipped hp0 hp1 flips B1 H0 H1 HB)
    as (B & B' & -> & -> & Hpos & HBB).
  destruct (conjugate_spec flips lower HL0 HL1) as (L' & -> & HL).
  destruct (conjugate_spec flips upper HU0 HU1) as (U' & -> & HU).
  destruct (matmul_diag_row_flipped flips flow Hx) as (x' & -> & Hxx).
  simpl. unfold scone_func.
  destruct (n_layers_checked (Z.of_nat (length weights) - 1) 3) as [n|e]; simpl; [|reflexivity].
  pose proof (for_range_rel (row_flipped flips)
                (scone_layer weights lower upper) (scone_layer weights L' U') (Z.to_nat n)
                (fun i s s' Hs => scone_layer_flipped flips weights _ _ _ _ i s s' Hf HL HU Hs)
                0%Z flow x' Hxx) as Hloop.
  destruct (for_range (scone_layer weights lower upper) 0 (Z.to_nat n) flow) as [c|e],
           (for_range (scone_layer weights L' U') 0 (Z.to_nat n) x') as [c'|e'];
    simpl in Hloop; try contradiction; simpl; [|congruence].
  apply readout_flipped with (f := flips); auto.
  unfold Bconds_func. now apply take_rows_col_flipped.
Qed.

(** The batch path of [data_setup]: slice [k] of the flipped batch is
    [F @ flow] for the slice [flow] of the original batch. *)
Lemma flip_flows_slice (f : list R) (X : list ndarray) :
  exists X', flip_flows X (length f) (np.diag f) = Ok X' /\
             length X' = length X /\
             forall k, (k < length X)%nat ->
                       shape0 (nth k X no_array) = length f ->
                       shape1 (nth k X no_array) = 1%nat ->
                       np.matmul (np.diag f) (nth k X no_array) = Ok (nth k X' no_array).
Proof.
  unfold flip_flows, np.matmul. simpl. rewrite Nat.eqb_refl. simpl.
  eexists; split; [reflexivity|]. split; [now rewrite length_map, length_seq|].
  intros k Hk H0 H1. rewrite H0, Nat.eqb_refl. f_equal.
  rewrite nth_map_seq by lia. unfold np.dot at 1. simpl. rewrite H1.
  apply mk_ext. intros e j He Hj. assert (j = 0)%nat as -> by lia.
  rewrite get_dot_diag_r by (simpl; lia). rewrite get_mk by lia.
  rewrite (sumf_single _ e); [| simpl; lia |].
  - rewrite get_diag by lia. rewrite Nat.eqb_refl. ring.
  - simpl. intros l Hl Hne. rewrite get_diag by lia.
    destruct (Nat.eqb_spec e l); [congruence | lra].
Qed.

(** ** The base operators are symmetric and positive semi-definite *)

Lemma quad_form_sum (A x : ndarray) :
  shape1 x = 1%nat -> shape0 x = shape0 A ->
  quad_form A x =
  sumf (shape1 A) (fun j => sumf (shape0 A) (fun i => get x i 0 * get A i j) * get x j 0).
Proof.
  intros H1 H0. unfold quad_form.
  rewrite get_dot by (simpl; lia). simpl.
  apply sumf_ext. intros j Hj. f_equal.
  rewrite get_dot by (simpl; lia). simpl. rewrite H0.
  apply sumf_ext. intros i Hi. f_equal.
  unfold np.T. now rewrite get_mk by lia.
Qed.

Lemma gram_quad_form (m n : nat) (g : nat -> nat -> R) (A x : ndarray) :
  gram m n g A -> shape0 x = n -> shape1 x = 1%nat ->
  quad_form A x = sumf m (fun k => Rsqr (sumf n (fun i => g k i * get x i 0))).
Proof.
  intros (A0 & A1 & Ag) H0 H1.
  rewrite quad_form_sum by congruence. rewrite A0, A1.
  transitivity
    (sumf n (fun j => sumf m (fun k =>
       sumf n (fun i => g k i * get x i 0) * (g k j * get x j 0)))).
  - apply sumf_ext. intros j Hj.
    rewrite <- sumf_scale_r.
    transitivity (sumf n (fun i => sumf m (fun k => g k i * get x i 0 * (g k j * get x j 0)))).
    + apply sumf_ext. intros i Hi. rewrite Ag by lia.
      transitivity (sumf m (fun k => (get x i 0 * get x j 0) * (g k i * g k j))).
      * rewrite sumf_scale. ring.
      * apply sumf_ext. intros k Hk. ring.
    + rewrite sumf_swap. apply sumf_ext. intros k Hk. now rewrite sumf_scale_r.
  - rewrite sumf_swap. apply sumf_ext. intros k Hk.
    rewrite sumf_scale. reflexivity.
Qed.

Lemma gram_psd (m n : nat) (g : nat -> nat -> R) (A x : ndarray) :
  gram m n g A -> shape0 x = n -> shape1 x = 1%nat -> 0 <= quad_form A x.
Proof.
  intros HA H0 H1. rewrite (gram_quad_form m n g) by assumption.
  apply sumf_nonneg. intros k Hk. apply Rle_0_sqr.
Qed.

Lemma gram_symmetric (m n : nat) (g : nat -> nat -> R) (A : ndarray) :
  gram m n g A -> wf A -> np.T A = A.
Proof.
  intros (A0 & A1 & Ag) HA. apply ndarray_ext.
  - apply wf_mk.
  - exact HA.
  - simpl. congruence.
  - simpl. congruence.
  - simpl. intros i j Hi Hj. unfold np.T. rewrite get_mk by lia.
    rewrite !Ag by lia. apply sumf_ext. intros k Hk. ring.
Qed.

Lemma gram_lower (B1 : ndarray) :
  gram (shape0 B1) (shape1 B1) (fun k i => get B1 k i) (np.dot (np.T B1) B1).
Proof.
  repeat split; simpl; auto. intros i j Hi Hj.
  rewrite get_dot by (simpl; lia). simpl.
  apply sumf_ext. intros k Hk. unfold np.T. now rewrite get_mk by lia.
Qed.

Lemma gram_upper (B2 : ndarray) :
  gram (shape1 B2) (shape0 B2) (fun k i => get B2 i k) (np.dot B2 (np.T B2)).
Proof.
  repeat split; simpl; auto. intros i j Hi Hj.
  rewrite get_dot by (simpl; lia).
  apply sumf_ext. intros k Hk. unfold np.T. now rewrite get_mk by lia.
Qed.

Lemma gram_conjugated (m : nat) (f : list R) (g : nat -> nat -> R) (S S' : ndarray) :
  gram m (length f) g S -> conjugated f S S' ->
  gram m (length f) (fun k i => g k i * nth i f 0) S'.
Proof.
  intros (A0 & A1 & Ag) (S0 & S1 & S0' & S1' & Sg).
  repeat split; auto. intros i j Hi Hj.
  rewrite Sg, Ag by lia.
  transitivity (nth i f 0 * nth j f 0 * sumf m (fun k => g k i * g k j)); [ring|].
  rewrite <- sumf_scale. apply sumf_ext. intros k Hk. ring.
Qed.

Lemma conjugate_wf (F S S' : ndarray) : conjugate F S = Ok S' -> wf S'.
Proof.
  unfold conjugate, np.matmul. destruct (shape1 F =? shape0 S); simpl; [|discriminate].
  destruct (_ =? _); [|discriminate]. intros [= <-]. apply wf_mk.
Qed.

Lemma conjugate_inv (f : list R) (S S' : ndarray) :
  conjugate (np.diag f) S = Ok S' -> shape1 S = shape0 S -> conjugated f S S'.
Proof.
  intros H Hsq.
  assert (H0 : shape0 S = length f).
  { unfold conjugate, np.matmul in H. simpl in H.
    destruct (Nat.eqb_spec (length f) (shape0 S)); [congruence | discriminate]. }
  destruct (conjugate_spec f S H0 ltac:(congruence)) as (S'' & E & HS). congruence.
Qed.

(** C8. The base operators [lower] and [upper] that [data_setup] computes
    from real boundary matrices are symmetric and positive semi-definite:
    each equals its transpose, and [x.T @ lower @ x >= 0] and
    [x.T @ upper @ x >= 0] for every column vector [x] of matching length. *)
Theorem data_setup_L1_symmetric_psd
    (hp : hyperparams) (flips : list R) (B1 B2 lower upper : ndarray) :
  data_setup_L1 hp flips B1 B2 = Ok (lower, upper) ->
  (truthy (flip_edges hp) = false ->
   lower = np.dot (np.T B1) B1 /\ upper = np.dot B2 (np.T B2)) /\
  np.T lower = lower /\ np.T upper = upper /\
  (forall x, shape0 x = shape0 lower -> shape1 x = 1%nat -> 0 <= quad_form lower x) /\
  (forall x, shape0 x = shape0 upper -> shape1 x = 1%nat -> 0 <= quad_form upper x).
Proof.
  unfold data_setup_L1, np.matmul. simpl. rewrite !Nat.eqb_refl. simpl.
  pose proof (gram_lower B1) as GL. pose proof (gram_upper B2) as GU.
  destruct (truthy (flip_edges hp)).
  - destruct (conjugate (np.diag flips) (np.dot (np.T B1) B1)) as [L'|] eqn:EL;
      simpl; [|discriminate].
    destruct (conjugate (np.diag flips) (np.dot B2 (np.T B2))) as [U'|] eqn:EU;
      simpl; [|discriminate].
    intros [= <- <-].
    pose proof (conjugate_inv _ _ _ EL eq_refl) as CL.
    pose proof (conjugate_inv _ _ _ EU eq_refl) as CU.
    assert (HnL : shape1 B1 = length flips) by (destruct CL as (? & _); assumption).
    assert (HnU : shape0 B2 = length flips) by (destruct CU as (? & _); assumption).
    rewrite HnL in GL. rewrite HnU in GU.
    pose proof (gram_conjugated _ _ _ _ _ GL CL) as GL'.
    pose proof (gram_conjugated _ _ _ _ _ GU CU) as GU'.
    split; [discriminate|].
    split; [eapply gram_symmetric; eauto using conjugate_wf|].
    split; [eapply gram_symmetric; eauto using conjugate_wf|].
    split; intros x H0 H1; eapply gram_psd; eauto.
    + destruct CL as (_ & _ & ? & _). congruence.
    + destruct CU as (_ & _ & ? & _). congruence.
  - intros [= <- <-]. split; [auto|].
    split; [eapply gram_symmetric; eauto using wf_mk|].
    split; [eapply gram_symmetric; eauto using wf_mk|].
    split; intros x H0 H1; eapply gram_psd; eauto.
Qed.

(** ** Log-probabilities *)

Lemma bind_ok {A B : Type} (c : result A) (k : A -> result B) (b : B) :
  bind c k = Ok b -> exists a, c = Ok a /\ k a = Ok b.
Proof. destruct c as [a|e]; simpl; [eauto | discriminate]. Qed.




Lemma readout_inv (weights : list ndarray) (Bcond : Z -> ndarray) (n : Z)
    (x out : ndarray) :
  readout weights Bcond n x = Ok out ->
  exists logits w, out = np.sub_scalar logits (logsumexp logits) /\
                   weight weights (-1) = Ok w /\
                   shape0 logits = shape0 (Bcond n) /\ shape1 logits = shape1 w.
Proof.
  unfold readout, shift_term. intros H.
  apply bind_ok in H as (logits & H & E). injection E as <-.
  apply bind_ok in H as (s & Hs & H). apply bind_ok in H as (w & Hw & H).
  unfold np.matmul in Hs, H.
  destruct (_ =? _) in Hs; [|discriminate]. injection Hs as <-.
  destruct (_ =? _) in H; [|discriminate]. injection H as <-.
  exists (np.dot (np.dot (Bcond n) x) w), w. auto.
Qed.










(** ** The example complex *)

Lemma ex_setup :
  data_setup_nbrhoods ex_G = Ok ex_nbrhoods /\
  data_setup_B1_jax ex_hp_scone [] ex_B1 = Ok ex_B1_jax /\
  data_setup_L1 ex_hp_scone [] ex_B1 ex_B2 = Ok (ex_lower, ex_upper).
Proof. repeat split. Qed.

Lemma ex_scone_func_ok :
  is_ok (scone_func ex_weights ex_lower ex_upper
                    (Bconds_func ex_nbrhoods ex_B1_jax) 3 ex_flow) = true.
Proof. vm_compute. reflexivity. Qed.




(** ** The padded neighbourhood table and the selector *)

Lemma get_mk_out (m n : nat) (f : nat -> nat -> R) (i j : nat) :
  (m <= i)%nat \/ (n <= j)%nat -> get (mk m n f) i j = 0.
Proof.
  intros [Hi|Hj]; [now apply get_mk_row_out|].
  destruct (Nat.lt_ge_cases i m) as [Hi|Hi]; [|now apply get_mk_row_out].
  unfold get, mk; simpl. rewrite nth_map_seq by lia.
  apply nth_overflow. rewrite length_map, length_seq. lia.
Qed.

Lemma list_comp_nth {A B : Type} (f : A -> result B) (l : list A) (r : list B)
    (da : A) (db : B) :
  list_comp f l = Ok r ->
  length r = length l /\
  forall i, (i < length l)%nat -> f (nth i l da) = Ok (nth i r db).
Proof.
  revert r. induction l as [|x l IH]; intros r H; simpl in H.
  - injection H as <-. split; [reflexivity|]. simpl; intros; lia.
  - apply bind_ok in H as (y & Hy & H). apply bind_ok in H as (ys & Hys & H).
    injection H as <-. destruct (IH ys Hys) as [IHl IHn]. split; [simpl; lia|].
    intros [|i] Hi; simpl; [assumption|]. apply IHn. simpl in Hi. lia.
Qed.

Lemma list_comp_map {A B : Type} (f : A -> result B) (g : A -> B) (l : list A) :
  (forall x, In x l -> f x = Ok (g x)) -> list_comp f l = Ok (map g l).
Proof.
  induction l as [|x l IH]; intros H; simpl; [reflexivity|].
  rewrite H by (now left). simpl. rewrite IH by (intros; apply H; now right).
  reflexivity.
Qed.

Lemma length_insert_sorted (x : Z) (l : list Z) :
  length (insert_sorted x l) = S (length l).
Proof.
  induction l as [|y l IH]; simpl; [reflexivity|].
  destruct (x <=? y)%Z; simpl; [reflexivity | now rewrite IH].
Qed.

Lemma length_sorted (l : list Z) : length (sorted l) = length l.
Proof.
  induction l as [|x l IH]; simpl; [reflexivity|].
  unfold sorted in *. simpl. now rewrite length_insert_sorted, IH.
Qed.

Lemma fold_left_max_ge (l : list nat) (x : nat) :
  (x <= fold_left Nat.max l x)%nat /\
  forall y, In y l -> (y <= fold_left Nat.max l x)%nat.
Proof.
  revert x. induction l as [|z l IH]; intros x; simpl; [split; [lia | tauto]|].
  destruct (IH (Nat.max x z)) as [H1 H2]. split; [lia|].
  intros y [->|Hy]; [lia | auto].
Qed.

Lemma max_degree_of_ge (G : graph) (md : nat) (p : Z * list Z) :
  max_degree_of G = Ok md -> In p G -> (length (snd p) <= md)%nat.
Proof.
  unfold max_degree_of, py_max. destruct G as [|q G]; simpl; [discriminate|].
  intros [= <-] Hp.
  destruct (fold_left_max_ge (map degree G) (degree q)) as [H1 H2].
  assert (Hd : (degree p <= fold_left Nat.max (map degree G) (degree q))%nat).
  { destruct Hp as [->|Hp]; [assumption|]. apply H2. now apply in_map. }
  unfold degree in Hd at 1. lia.
Qed.

Lemma adj_in (G : graph) (n : Z) (a : list Z) : adj G n = Ok a -> In (n, a) G.
Proof.
  unfold adj. destruct (find _ G) as [[m b]|] eqn:E; [|discriminate].
  intros [= <-]. apply find_some in E as [Hin Heq]. simpl in Heq.
  apply Z.eqb_eq in Heq. now subst.
Qed.

Lemma nth_range (n : Z) (i : nat) :
  (i < Z.to_nat n)%nat -> nth i (range n) 0%Z = Z.of_nat i.
Proof. intros H. unfold range. now rewrite nth_map_seq. Qed.

Lemma length_range (n : Z) : length (range n) = Z.to_nat n.
Proof. unfold range. now rewrite length_map, length_seq. Qed.

(** Row [n] of the table is the sorted neighbourhood of [n], padded with the
    sentinel to the maximum degree. *)
Lemma data_setup_nbrhoods_row (G : graph) (nbrhoods : list (list Z)) (md : nat) (n : Z) :
  data_setup_nbrhoods G = Ok nbrhoods -> max_degree_of G = Ok md ->
  (0 <= n < Z.of_nat (length nbrhoods))%Z ->
  exists a, adj G n = Ok a /\
            np.int_row nbrhoods n = sorted a ++ repeat (-1)%Z (md - length a) /\
            length (np.int_row nbrhoods n) = md.
Proof.
  unfold data_setup_nbrhoods. intros H Hmd Hn. rewrite Hmd in H. simpl in H.
  apply bind_ok in H as (top & _ & H).
  destruct (list_comp_nth _ _ _ 0%Z [] H) as [Hlen Hnth].
  rewrite length_range in Hlen.
  specialize (Hnth (Z.to_nat n)). rewrite length_range in Hnth.
  specialize (Hnth ltac:(lia)). rewrite nth_range in Hnth by lia.
  rewrite Z2Nat.id in Hnth by lia.
  unfold padded_row in Hnth. apply bind_ok in Hnth as (a & Ha & Hrow).
  injection Hrow as Hrow. exists a.
  assert (Hidx : jax_index (length nbrhoods) n = Z.to_nat n).
  { unfold jax_index. destruct (Z.ltb_spec n 0); lia. }
  unfold np.int_row. rewrite Hidx, <- Hrow. repeat split; auto.
  rewrite length_app, length_sorted, repeat_length.
  pose proof (max_degree_of_ge G md (n, a) Hmd (adj_in _ _ _ Ha)). simpl in *. lia.
Qed.

Lemma data_setup_B1_jax_shape (hp : hyperparams) (flips : list R) (B1 B1_jax : ndarray) :
  data_setup_B1_jax hp flips B1 = Ok B1_jax ->
  shape0 B1_jax = (shape0 B1 + 1)%nat /\
  (forall k, get B1_jax (shape0 B1) k = 0) /\
  (truthy (flip_edges hp) = false ->
   shape1 B1_jax = shape1 B1 /\
   forall i k, (i < shape0 B1)%nat -> (k < shape1 B1)%nat ->
               get B1_jax i k = get B1 i k).
Proof.
  unfold data_setup_B1_jax, np.append0. simpl. rewrite Nat.eqb_refl. simpl.
  set (A := mk _ _ _).
  assert (HA : forall k, get A (shape0 B1) k = 0).
  { intros k. destruct (Nat.lt_ge_cases k (shape1 B1)) as [Hk|Hk].
    - unfold A. rewrite get_mk by lia. rewrite Nat.ltb_irrefl, Nat.sub_diag.
      unfold np.zeros. now rewrite get_mk by lia.
    - apply get_mk_out. now right. }
  destruct (truthy (flip_edges hp)).
  - unfold np.matmul. destruct (_ =? _); [|discriminate]. intros [= <-].
    split; [reflexivity|]. split; [|discriminate].
    intros k. destruct (Nat.lt_ge_cases k (shape1 (np.diag flips))) as [Hk|Hk].
    + rewrite get_dot by (unfold A; simpl in *; lia).
      rewrite (sumf_ext _ _ (fun _ => 0)); [apply sumf_zero|].
      intros l Hl. rewrite HA. lra.
    + apply get_mk_out. now right.
  - intros [= <-]. split; [reflexivity|]. split; [assumption|]. intros _.
    split; [reflexivity|]. intros i k Hi Hk. unfold A. rewrite get_mk by lia.
    destruct (Nat.ltb_spec i (shape0 B1)); [reflexivity | lia].
Qed.

(** C6. For every node [n] of the table, [Bconds_func] returns an array with
    exactly max-degree rows; row [j] is the row of [B1_jax] indexed by entry
    [j] of the padded neighbour list of [n]; a sentinel entry selects an
    all-zero row, because [B1_jax] is [B1] followed by exactly one row of
    zeros, which the index -1 resolves to. *)
Theorem Bconds_func_rows
    (hp : hyperparams) (flips : list R) (G : graph) (B1 B1_jax : ndarray)
    (nbrhoods : list (list Z)) (max_degree : nat) (n : Z) :
  data_setup_nbrhoods G = Ok nbrhoods ->
  max_degree_of G = Ok max_degree ->
  data_setup_B1_jax hp flips B1 = Ok B1_jax ->
  (0 <= n < Z.of_nat (length nbrhoods))%Z ->
  let Nv := np.int_row nbrhoods n in
  let rows := Bconds_func nbrhoods B1_jax n in
  (exists a, adj G n = Ok a /\
             Nv = sorted a ++ repeat (-1)%Z (max_degree - length a)) /\
  shape0 rows = max_degree /\ shape1 rows = shape1 B1_jax /\
  shape0 B1_jax = (shape0 B1 + 1)%nat /\
  jax_index (shape0 B1_jax) (-1) = shape0 B1 /\
  (forall k, get B1_jax (shape0 B1) k = 0) /\
  (truthy (flip_edges hp) = false ->
   shape1 B1_jax = shape1 B1 /\
   forall i k, (i < shape0 B1)%nat -> (k < shape1 B1)%nat ->
               get B1_jax i k = get B1 i k) /\
  (forall j k, (j < max_degree)%nat -> (k < shape1 B1_jax)%nat ->
               get rows j k =
               get B1_jax (jax_index (shape0 B1_jax) (nth j Nv 0%Z)) k) /\
  (forall j k, (j < max_degree)%nat -> nth j Nv 0%Z = (-1)%Z -> get rows j k = 0).
Proof.
  intros Hnb Hmd HB Hn Nv rows.
  destruct (data_setup_nbrhoods_row G nbrhoods max_degree n Hnb Hmd Hn)
    as (a & Ha & Hrow & Hlen).
  destruct (data_setup_B1_jax_shape hp flips B1 B1_jax HB) as (Hs0 & Hzero & Hplain).
  assert (Hm1 : jax_index (shape0 B1_jax) (-1) = shape0 B1).
  { rewrite Hs0. unfold jax_index. change (-1 <? 0)%Z with true. cbv iota. lia. }
  assert (Hget : forall j k, (j < max_degree)%nat -> (k < shape1 B1_jax)%nat ->
                 get rows j k =
                 get B1_jax (jax_index (shape0 B1_jax) (nth j Nv 0%Z)) k).
  { intros j k Hj Hk. unfold rows, Bconds_func, np.take_rows. fold Nv.
    rewrite get_mk; [reflexivity | unfold Nv; lia | assumption]. }
  split; [eauto|]. split; [exact Hlen|]. split; [reflexivity|].
  split; [exact Hs0|]. split; [exact Hm1|]. split; [exact Hzero|].
  split; [exact Hplain|]. split; [exact Hget|].
  intros j k Hj Hsent.
  destruct (Nat.lt_ge_cases k (shape1 B1_jax)) as [Hk|Hk].
  - rewrite Hget by assumption. rewrite Hsent, Hm1. apply Hzero.
  - unfold rows, Bconds_func, np.take_rows. apply get_mk_out. now right.
Qed.

(** ** Regional masks *)

Lemma nth_mask (c : Z) (n i : nat) :
  (i < n)%nat ->
  nth i (map (fun i => if (i mod 3 =? c)%Z then 1%Z else 0%Z) (range (Z.of_nat n))) 0%Z
  = if (Z.of_nat i mod 3 =? c)%Z then 1%Z else 0%Z.
Proof.
  intros H. unfold range. rewrite map_map, Nat2Z.id. now rewrite nth_map_seq.
Qed.

(** C9. Under the regional configuration the train mask selects exactly the
    examples [i] with [i mod 3 = 1] and the test mask exactly those with
    [i mod 3 = 2]; no example is selected by both, and the two together
    select exactly the examples of these two thirds. *)
Theorem regional_masks_partition
    (hp : hyperparams) (train_mask test_mask : list Z) (n_examples : nat) :
  truthy (regional hp) = true ->
  let train := fst (regional_masks hp train_mask test_mask n_examples) in
  let test := snd (regional_masks hp train_mask test_mask n_examples) in
  length train = n_examples /\ length test = n_examples /\
  forall i, (i < n_examples)%nat ->
    (nth i train 0 = 1 <-> Z.of_nat i mod 3 = 1)%Z /\
    (nth i test 0 = 1 <-> Z.of_nat i mod 3 = 2)%Z /\
    (nth i train 0 = 0 \/ nth i train 0 = 1)%Z /\
    (nth i test 0 = 0 \/ nth i test 0 = 1)%Z /\
    ~ (nth i train 0 = 1 /\ nth i test 0 = 1)%Z /\
    ((nth i train 0 = 1 \/ nth i test 0 = 1) <->
     (Z.of_nat i mod 3 = 1 \/ Z.of_nat i mod 3 = 2))%Z.
Proof.
  intros Hreg. unfold regional_masks. rewrite Hreg. simpl.
  rewrite !length_map, !length_range, Nat2Z.id.
  split; [reflexivity|]. split; [reflexivity|]. intros i Hi.
  rewrite !nth_mask by assumption.
  destruct (Z.eqb_spec (Z.of_nat i mod 3) 1), (Z.eqb_spec (Z.of_nat i mod 3) 2);
    repeat split; intros; try lia; auto; intuition lia.
Qed.

(** ** Path prefixes *)

Lemma py_getitem_nat {A : Type} (d : A) (l : list A) (i : nat) :
  (i < length l)%nat -> py_getitem d l (Z.of_nat i) = Ok (nth i l d).
Proof.
  intros H. unfold py_getitem.
  destruct (Z.ltb_spec (Z.of_nat i) 0); [lia|].
  destruct (Z.leb_spec 0 (Z.of_nat i)); [|lia].
  destruct (Z.ltb_spec (Z.of_nat i) (Z.of_nat (length l))); [|lia].
  simpl. now rewrite Nat2Z.id.
Qed.

(** C10. When reading the cache of prefixes fails, [data_setup] computes a
    prefix for every example by [flow_to_path] on its flow and its last
    node, and the failure of the read does not reach the caller: the
    prefixes are returned. *)
Theorem data_setup_prefixes_fallback
    (e : exn) (flow_to_path : ndarray -> list (Z * Z) -> Z -> result (list Z))
    (X : list ndarray) (E : list (Z * Z)) (last_nodes : list Z)
    (path : nat -> list Z) :
  length X = length last_nodes ->
  (forall i, (i < length last_nodes)%nat ->
             flow_to_path (nth i X no_array) E (nth i last_nodes 0%Z) = Ok (path i)) ->
  data_setup_prefixes (Raise e) flow_to_path X E last_nodes =
  Ok (map path (seq 0 (length last_nodes))).
Proof.
  intros Hlen Hpath. unfold data_setup_prefixes, try_except, range.
  rewrite Nat2Z.id.
  rewrite (list_comp_map _ (fun i => path (Z.to_nat i))).
  - rewrite map_map. f_equal. apply map_ext. intros i. now rewrite Nat2Z.id.
  - intros z Hz. apply in_map_iff in Hz as (i & <- & Hi). apply in_seq in Hi.
    rewrite !py_getitem_nat by lia. simpl. rewrite Nat2Z.id. apply Hpath. lia.
Qed.

(** The cache, when it can be read, is returned as it is; and the fallback
    does not depend on how the read failed. *)
Lemma data_setup_prefixes_loaded loaded flow_to_path X E last_nodes :
  data_setup_prefixes (Ok loaded) flow_to_path X E last_nodes = Ok loaded.
Proof. reflexivity. Qed.

Lemma data_setup_prefixes_any_failure e e' flow_to_path X E last_nodes :
  data_setup_prefixes (Raise e) flow_to_path X E last_nodes =
  data_setup_prefixes (Raise e') flow_to_path X E last_nodes.
Proof. reflexivity. Qed.

(** ** Validation of the number of weights *)

Lemma n_layers_checked_fail (a b : Z) :
  (b <> 0)%Z -> (a mod b <> 0)%Z -> n_layers_checked a b = wrong_number_of_weights.
Proof.
  intros Hb Hm. unfold n_layers_checked.
  destruct (Z.eqb_spec b 0); [contradiction|].
  destruct (Z.eqb_spec (a mod b) 0); [contradiction | reflexivity].
Qed.

Lemma n_layers_checked_pass (a b : Z) :
  (b <> 0)%Z -> (a mod b = 0)%Z -> n_layers_checked a b = Ok (a / b)%Z.
Proof.
  intros Hb Hm. unfold n_layers_checked.
  destruct (Z.eqb_spec b 0); [contradiction|].
  destruct (Z.eqb_spec (a mod b) 0); [reflexivity | contradiction].
Qed.

(** C3, amended. The forward passes of the base, order-2 and combined-sum
    families check that [len(weights) - 1] is a multiple of the number of
    weights that one layer reads, which is the operator count plus one for
    the layer's own weight: 3, 5 and 4; the decomposition family checks that
    [len(weights)] is a multiple of 7.  When the check fails the call raises
    the assertion error whatever the arrays are, so before any product is
    formed; when it passes, the quotient is the number of layers run. *)
Theorem weight_count_validation (weights : list ndarray) :
  let len := Z.of_nat (length weights) in
  let k1 := k1_scnn default_hyperparams in
  let k2 := k2_scnn default_hyperparams in
  (forall S_lower S_upper Bcond last_node flow,
     ((len - 1) mod 3 <> 0 ->
      scone_func weights S_lower S_upper Bcond last_node flow
      = wrong_number_of_weights)%Z /\
     ((len - 1) mod 3 = 0 ->
      scone_func weights S_lower S_upper Bcond last_node flow
      = (cur_out <- for_range (scone_layer weights S_lower S_upper) 0
                              (Z.to_nat ((len - 1) / 3)) flow ;;
         readout weights Bcond last_node cur_out))%Z) /\
  (forall S1 S2 S3 S4 Bcond last_node flow,
     ((len - 1) mod 5 <> 0 ->
      scnn_func_2 weights S1 S2 S3 S4 Bcond last_node flow k1 k2
      = wrong_number_of_weights)%Z /\
     ((len - 1) mod 5 = 0 ->
      scnn_func_2 weights S1 S2 S3 S4 Bcond last_node flow k1 k2
      = (cur_out <- for_range (scnn_layer_2 weights S1 S2 S3 S4 5) 0
                              (Z.to_nat ((len - 1) / 5)) flow ;;
         readout weights Bcond last_node cur_out))%Z) /\
  (forall S S2 S3 Bcond last_node flow,
     ((len - 1) mod 4 <> 0 ->
      ebli_func weights S S2 S3 Bcond last_node flow = wrong_number_of_weights)%Z /\
     ((len - 1) mod 4 = 0 ->
      ebli_func weights S S2 S3 Bcond last_node flow
      = (cur_out <- for_range (ebli_layer weights S S2 S3) 0
                              (Z.to_nat ((len - 1) / 4)) flow ;;
         readout weights Bcond last_node cur_out))%Z) /\
  (forall S_00 S_10 S_01 S_11 S_21 S_12 S_22 nbrhoods last_node flow,
     (len mod 7 <> 0 ->
      bunch_func weights S_00 S_10 S_01 S_11 S_21 S_12 S_22 nbrhoods last_node flow
      = wrong_number_of_weights)%Z /\
     (len mod 7 = 0 ->
      bunch_func weights S_00 S_10 S_01 S_11 S_21 S_12 S_22 nbrhoods last_node flow
      = (cur_out <- for_range (bunch_layer weights S_00 S_10 S_01 S_11 S_21 S_12 S_22) 0
                              (Z.to_nat (len / 7))
                              (np.zeros (shape1 S_00) 1, flow, np.zeros (shape1 S_22) 1) ;;
         let logits := np.take_rows (fst (fst cur_out)) (np.int_row nbrhoods last_node) in
         Ok (np.sub_scalar logits (logsumexp logits))))%Z).
Proof.
  intros len k1 k2. repeat split; intros H.
  - unfold scone_func. fold len. now rewrite n_layers_checked_fail by lia.
  - unfold scone_func. fold len. now rewrite n_layers_checked_pass by lia.
  - unfold scnn_func_2. fold len. change (1 + k1 + k2)%Z with 5%Z.
    now rewrite n_layers_checked_fail by lia.
  - unfold scnn_func_2. fold len. change (1 + k1 + k2)%Z with 5%Z.
    now rewrite n_layers_checked_pass by lia.
  - unfold ebli_func. fold len. now rewrite n_layers_checked_fail by lia.
  - unfold ebli_func. fold len. now rewrite n_layers_checked_pass by lia.
  - unfold bunch_func. fold len. now rewrite n_layers_checked_fail by lia.
  - unfold bunch_func. fold len. now rewrite n_layers_checked_pass by lia.
Qed.

(** C3, as stated, fails for the base family, whose operator count is 2:
    with four weights [len(weights) - 1 = 3] is not a multiple of 2, and
    [scone_func] raises nothing and runs one layer. *)
Lemma scone_func_accepts_four_weights :
  ((Z.of_nat (length ex_weights) - 1) mod 2 <> 0)%Z /\
  n_layers_checked (Z.of_nat (length ex_weights) - 1) 3 = Ok 1%Z /\
  is_ok (scone_func ex_weights ex_lower ex_upper
                    (Bconds_func ex_nbrhoods ex_B1_jax) 3 ex_flow) = true.
Proof.
  split; [vm_compute; discriminate|]. split; [reflexivity|]. exact ex_scone_func_ok.
Qed.

(** ** Reads past the end of the weight list *)

Lemma weight_in_range (weights : list ndarray) (i : nat) :
  (i < length weights)%nat -> weight weights (Z.of_nat i) = Ok (nth i weights no_array).
Proof. apply py_getitem_nat. Qed.

Lemma weight_past_end (weights : list ndarray) (j : Z) :
  (Z.of_nat (length weights) <= j)%Z -> weight weights j = Raise IndexError.
Proof.
  intros H. unfold weight, py_getitem.
  destruct (Z.ltb_spec j 0); [lia|].
  destruct (Z.ltb_spec j (Z.of_nat (length weights))); [lia|].
  now rewrite andb_false_r.
Qed.

Lemma matmul_ok_or_shape (A B : ndarray) : ok_or_shape_error (np.matmul A B).
Proof. unfold np.matmul. destruct (_ =? _); [left; eauto | now right]. Qed.

Lemma add_ok_or_shape (A B : ndarray) : ok_or_shape_error (np.add A B).
Proof.
  unfold np.add. destruct (np.bdim _ _); [|now right].
  destruct (np.bdim _ _); [left; eauto | now right].
Qed.

Lemma bind_ok_or_shape {A B : Type} (c : result A) (k : A -> result B) :
  ok_or_shape_error c -> (forall a, ok_or_shape_error (k a)) ->
  ok_or_shape_error (bind c k).
Proof. intros [[a ->]| ->] Hk; simpl; [apply Hk | now right]. Qed.

Lemma bind_index_or_shape {A B : Type} (c : result A) (k : A -> result B) :
  ok_or_shape_error c -> (forall a, index_or_shape_error (k a)) ->
  index_or_shape_error (bind c k).
Proof. intros [[a ->]| ->] Hk; simpl; [apply Hk | now right]. Qed.

Lemma bind_stops {A B : Type} (c : result A) (k : A -> result B) :
  index_or_shape_error c -> index_or_shape_error (bind c k).
Proof. intros [-> | ->]; simpl; [now left | now right]. Qed.

Lemma plus_term_in_range (acc S x : ndarray) (weights : list ndarray) (i : nat) :
  (i < length weights)%nat ->
  ok_or_shape_error (plus_term acc S x weights (Z.of_nat i)).
Proof.
  intros H. unfold plus_term, shift_term. rewrite weight_in_range by assumption.
  apply bind_ok_or_shape; [|intros; apply add_ok_or_shape].
  apply bind_ok_or_shape; [apply matmul_ok_or_shape|]. intros s. simpl.
  apply matmul_ok_or_shape.
Qed.

Lemma plus_term_past_end (acc S x : ndarray) (weights : list ndarray) (j : Z) :
  (Z.of_nat (length weights) <= j)%Z ->
  index_or_shape_error (plus_term acc S x weights j).
Proof.
  intros H. unfold plus_term, shift_term. rewrite weight_past_end by assumption.
  apply bind_stops. apply bind_index_or_shape; [apply matmul_ok_or_shape|].
  intros s. now left.
Qed.

Ltac next_term :=
  apply bind_index_or_shape;
  [ first [ apply matmul_ok_or_shape
          | match goal with
            | |- ok_or_shape_error (plus_term _ _ _ _ ?j) =>
                let n := eval vm_compute in (Z.to_nat j) in
                change j with (Z.of_nat n); apply plus_term_in_range; simpl; lia
            end ]
  | intro ].

Lemma scnn_layer_3_six_weights weights S1 S2 S3 S4 S5 S6 x :
  length weights = 6%nat ->
  index_or_shape_error (scnn_layer_3 weights S1 S2 S3 S4 S5 S6 5 0 x).
Proof.
  intros H. unfold scnn_layer_3.
  change (0 * 5)%Z with (Z.of_nat 0). rewrite weight_in_range by lia. simpl bind.
  do 6 next_term.
  apply bind_stops, plus_term_past_end. lia.
Qed.

Lemma scnn_layer_4_six_weights weights S1 S2 S3 S4 S5 S6 S7 S8 x :
  length weights = 6%nat ->
  index_or_shape_error (scnn_layer_4 weights S1 S2 S3 S4 S5 S6 S7 S8 5 0 x).
Proof.
  intros H. unfold scnn_layer_4.
  change (0 * 5)%Z with (Z.of_nat 0). rewrite weight_in_range by lia. simpl bind.
  do 6 next_term.
  apply bind_stops, plus_term_past_end. lia.
Qed.

(** C7. In [scnn_func_3] and [scnn_func_4] the size of a weight group used
    by the validation is [1 + k1 + k2], which is 5 with the default
    hyperparameters, while a layer reads 7 resp. 9 weights.  A list of six
    weights passes the assertion with one layer, the reads at [0*5 + 6] and
    [0*5 + 8] are past its end, and neither function returns: the first layer
    stops on the index error, unless a shape mismatch stops it earlier. On
    the example complex the outcome is the index error. *)
Theorem scnn_validation_allows_reads_past_end :
  let k1 := k1_scnn default_hyperparams in
  let k2 := k2_scnn default_hyperparams in
  (1 + k1 + k2 = 5)%Z /\
  (forall weights : list ndarray,
     length weights = 6%nat ->
     n_layers_checked (Z.of_nat (length weights) - 1) (1 + k1 + k2) = Ok 1%Z /\
     weight weights (0 * (1 + k1 + k2) + 6) = Raise IndexError /\
     weight weights (0 * (1 + k1 + k2) + 8) = Raise IndexError /\
     (forall S1 S2 S3 S4 S5 S6 Bcond last_node flow,
        index_or_shape_error
          (scnn_func_3 weights S1 S2 S3 S4 S5 S6 Bcond last_node flow k1 k2)) /\
     (forall S1 S2 S3 S4 S5 S6 S7 S8 Bcond last_node flow,
        index_or_shape_error
          (scnn_func_4 weights S1 S2 S3 S4 S5 S6 S7 S8 Bcond last_node flow k1 k2))) /\
  scnn_func_3 ex_weights6 ex_lower ex_lower2 ex_lower3 ex_upper ex_upper2 ex_upper3
              (Bconds_func ex_nbrhoods ex_B1_jax) 3 ex_flow k1 k2 = Raise IndexError /\
  scnn_func_4 ex_weights6 ex_lower ex_lower2 ex_lower3 ex_lower4
              ex_upper ex_upper2 ex_upper3 ex_upper4
              (Bconds_func ex_nbrhoods ex_B1_jax) 3 ex_flow k1 k2 = Raise IndexError.
Proof.
  intros k1 k2. split; [reflexivity|]. split.
  - intros weights H. change (1 + k1 + k2)%Z with 5%Z. rewrite H.
    split; [reflexivity|].
    split; [apply weight_past_end; lia|]. split; [apply weight_past_end; lia|].
    split; intros.
    + unfold scnn_func_3. change (1 + k1 + k2)%Z with 5%Z. rewrite H.
      change (n_layers_checked (Z.of_nat 6 - 1) 5) with (Ok 1%Z). simpl bind.
      change (Z.to_nat 1) with 1%nat. simpl for_range.
      apply bind_stops, bind_stops. now apply scnn_layer_3_six_weights.
    + unfold scnn_func_4. change (1 + k1 + k2)%Z with 5%Z. rewrite H.
      change (n_layers_checked (Z.of_nat 6 - 1) 5) with (Ok 1%Z). simpl bind.
      change (Z.to_nat 1) with 1%nat. simpl for_range.
      apply bind_stops, bind_stops. now apply scnn_layer_4_six_weights.
  - split; vm_compute; reflexivity.
Qed.

(** ** The table of shift operators *)

Lemma matmul_square (A : ndarray) :
  shape1 A = shape0 A -> np.matmul A A = Ok (np.dot A A).
Proof. intros H. unfold np.matmul. now rewrite H, Nat.eqb_refl. Qed.

Lemma matmul_power (A P : ndarray) :
  shape1 P = shape0 A -> np.matmul P A = Ok (np.dot P A).
Proof. intros H. unfold np.matmul. now rewrite H, Nat.eqb_refl. Qed.

Lemma add_same_shape (A B : ndarray) :
  shape0 A = shape0 B -> shape1 A = shape1 B -> np.add A B = Ok (matrix_sum A B).
Proof.
  intros H0 H1. unfold np.add, np.bdim. rewrite H0, H1, !Nat.eqb_refl.
  f_equal. unfold matrix_sum. rewrite H0, H1. apply mk_ext. intros i j Hi Hj.
  unfold np.bget, np.bidx. rewrite H0, H1.
  destruct (Nat.eqb_spec (shape0 B) 1), (Nat.eqb_spec (shape1 B) 1);
    repeat match goal with
           | H : (?i < ?d)%nat, E : ?d = 1%nat |- _ =>
               assert (i = 0)%nat by lia; subst i; clear H
           end; reflexivity.
Qed.

(** C4. Without edge flips, the shift operators that [data_setup] builds
    from [B1] and [B2] are, in this order, [lower, upper] for the base
    family, the powers of [lower] followed by the powers of [upper] up to the
    order for the families of order 2, 3 and 4, and [L, L^2, L^3] with
    [L = lower + upper] for the combined-sum family, where
    [lower = B1.T @ B1], [upper = B2 @ B2.T] and a power is a repeated
    product. *)
Theorem data_setup_shifts_table
    (hp : hyperparams) (flips : list R)
    (compute_shift_matrices : ndarray -> ndarray -> result (list ndarray))
    (B1 B2 : ndarray) :
  truthy (flip_edges hp) = false ->
  let lower := np.dot (np.T B1) B1 in
  let upper := np.dot B2 (np.T B2) in
  let shifts := data_setup_shifts hp flips compute_shift_matrices B1 B2 in
  (model hp = "scone"%string -> shifts = Ok [lower; upper]) /\
  (model hp = "scnn2"%string ->
   shifts = Ok [lower; matrix_power lower 2; upper; matrix_power upper 2]) /\
  (model hp = "scnn3"%string ->
   shifts = Ok [lower; matrix_power lower 2; matrix_power lower 3;
                upper; matrix_power upper 2; matrix_power upper 3]) /\
  (model hp = "scnn4"%string ->
   shifts = Ok [lower; matrix_power lower 2; matrix_power lower 3; matrix_power lower 4;
                upper; matrix_power upper 2; matrix_power upper 3; matrix_power upper 4]) /\
  (model hp = "ebli"%string -> shape1 B1 = shape0 B2 ->
   let L := matrix_sum lower upper in
   shifts = Ok [L; matrix_power L 2; matrix_power L 3]) /\
  (model hp = "bunch"%string -> shifts = compute_shift_matrices B1 B2).
Proof.
  intros Hflip lower upper shifts.
  assert (HL1 : data_setup_L1 hp flips B1 B2 = Ok (lower, upper)).
  { unfold data_setup_L1, np.matmul. simpl. now rewrite !Nat.eqb_refl, Hflip. }
  assert (Hl : forall P, shape1 P = shape1 B1 -> np.matmul P lower = Ok (np.dot P lower))
    by (intros; now apply matmul_power).
  assert (Hu : forall P, shape1 P = shape0 B2 -> np.matmul P upper = Ok (np.dot P upper))
    by (intros; now apply matmul_power).
  unfold shifts, data_setup_shifts. rewrite HL1. simpl bind. cbv iota beta.
  repeat split; intros Hm; rewrite Hm; simpl String.eqb; cbv iota.
  - reflexivity.
  - rewrite Hl, Hu by reflexivity. reflexivity.
  - rewrite !Hl by reflexivity. simpl bind. rewrite !Hl by reflexivity. simpl bind.
    rewrite !Hu by reflexivity. simpl bind. rewrite !Hu by reflexivity. reflexivity.
  - rewrite !Hl by reflexivity. simpl bind. rewrite !Hl by reflexivity. simpl bind.
    rewrite !Hl by reflexivity. simpl bind.
    rewrite !Hu by reflexivity. simpl bind. rewrite !Hu by reflexivity. simpl bind.
    rewrite !Hu by reflexivity. reflexivity.
  - intros He. cbv zeta. set (L := matrix_sum lower upper).
    rewrite add_same_shape by (simpl; auto). simpl bind. fold L.
    assert (HL : forall P, shape1 P = shape1 B1 -> np.matmul P L = Ok (np.dot P L))
      by (intros; now apply matmul_power).
    rewrite !HL by reflexivity. simpl bind. rewrite !HL by reflexivity. reflexivity.
  - reflexivity.
Qed.

(** ** The fourth lower power in the order-4 family *)

Lemma tanh_0 : Rtrigo_def.tanh 0 = 0.
Proof. unfold Rtrigo_def.tanh. rewrite sinh_0, cosh_0. lra. Qed.

Lemma tanh_pos (x : R) : 0 < x -> 0 < Rtrigo_def.tanh x.
Proof.
  intros H. unfold Rtrigo_def.tanh. apply Rdiv_lt_0_compat; [|apply cosh_pos].
  unfold sinh. assert (exp (- x) < exp x) by (apply exp_increasing; lra). lra.
Qed.

(** [scnn_func_4] never reads its parameter [S4_lower]. *)
Lemma scnn_func_4_ignores_S4_lower
    weights S_lower S2_lower S3_lower A B S_upper S2_upper S3_upper S4_upper
    Bcond last_node flow k1 k2 :
  scnn_func_4 weights S_lower S2_lower S3_lower A S_upper S2_upper S3_upper S4_upper
              Bcond last_node flow k1 k2
  = scnn_func_4 weights S_lower S2_lower S3_lower B S_upper S2_upper S3_upper S4_upper
                Bcond last_node flow k1 k2.
Proof. reflexivity. Qed.

(** C2. The layer of [scnn_func_4] does not multiply the fourth lower power
    by a weight of its own: the weight of index [i*n_k + 4] multiplies
    [S4_upper].  On the complex of one edge, with the shifts that
    [data_setup] builds for the order-4 family and a weight list in which
    the weight of index 4 is the only one of the layer that is not zero, the
    layer of the source returns 0 where the layer of the specification
    returns [tanh 16]. *)
Theorem scnn_layer_4_skips_fourth_lower_power
    (compute_shift_matrices : ndarray -> ndarray -> result (list ndarray)) :
  let l := one_lower in
  let u := one_upper in
  data_setup_shifts one_hp_scnn4 [] compute_shift_matrices one_B1 one_B2
  = Ok [l; matrix_power l 2; matrix_power l 3; matrix_power l 4;
        u; matrix_power u 2; matrix_power u 3; matrix_power u 4] /\
  n_layers_checked (Z.of_nat (length one_weights) - 1)
                   (1 + k1_scnn one_hp_scnn4 + k2_scnn one_hp_scnn4) = Ok 1%Z /\
  exists a b,
    scnn_layer_4 one_weights l (matrix_power l 2) (matrix_power l 3) (matrix_power l 4)
                 u (matrix_power u 2) (matrix_power u 3) (matrix_power u 4)
                 9 0 one_flow = Ok a /\
    scnn_layer_4_spec one_weights l (matrix_power l 2) (matrix_power l 3) (matrix_power l 4)
                      u (matrix_power u 2) (matrix_power u 3) (matrix_power u 4)
                      9 0 one_flow = Ok b /\
    get a 0 0 = 0 /\ get b 0 0 = Rtrigo_def.tanh 16 /\ get a 0 0 <> get b 0 0.
Proof.
  intros l u. split; [reflexivity|]. split; [reflexivity|].
  eexists. eexists. split; [reflexivity|]. split; [reflexivity|].
  match goal with
  | |- ?x = 0 /\ ?y = _ /\ _ =>
      assert (Hx : x = 0);
      [ cbv -[Rplus Rmult Rtrigo_def.tanh IZR];
        match goal with
        | |- Rtrigo_def.tanh ?e = _ => replace e with 0 by lra
        end; apply tanh_0
      | assert (Hy : y = Rtrigo_def.tanh 16);
        [ cbv -[Rplus Rmult Rtrigo_def.tanh IZR]; f_equal; lra | ] ]
  end.
  split; [exact Hx|]. split; [exact Hy|].
  rewrite Hx, Hy. pose proof (tanh_pos 16 ltac:(lra)). lra.
Qed.

(** ** Runs on the example complex *)

Lemma scone_func_orientation_flip_invariant_witness :
  (B1_F <- data_setup_B1_jax ex_hp_flip ex_flips ex_B1 ;;
   lower_F <- conjugate (np.diag ex_flips) ex_lower ;;
   upper_F <- conjugate (np.diag ex_flips) ex_upper ;;
   flow_F <- np.matmul (np.diag ex_flips) ex_flow ;;
   scone_func ex_weights lower_F upper_F (Bconds_func ex_nbrhoods B1_F) 3 flow_F)
  =
  (B1_jax <- data_setup_B1_jax ex_hp_scone ex_flips ex_B1 ;;
   scone_func ex_weights ex_lower ex_upper (Bconds_func ex_nbrhoods B1_jax) 3 ex_flow).
Proof.
  apply (scone_func_orientation_flip_invariant
           ex_hp_scone ex_hp_flip ex_flips ex_weights ex_B1 ex_lower ex_upper
           ex_nbrhoods 3 ex_flow); try reflexivity.
  unfold ex_flips.
  apply Forall_cons; [left; reflexivity|].
  apply Forall_cons; [right; reflexivity|].
  apply Forall_cons; [left; reflexivity|].
  apply Forall_cons; [right; reflexivity|].
  apply Forall_nil.
Defined.

Lemma data_setup_shifts_table_witness :
  data_setup_shifts ex_hp_scone [] (fun _ _ => Ok []) ex_B1 ex_B2
  = Ok [ex_lower; ex_upper].
Proof.
  apply (proj1 (data_setup_shifts_table ex_hp_scone [] (fun _ _ => Ok [])
                                        ex_B1 ex_B2 eq_refl)).
  reflexivity.
Defined.


Lemma Bconds_func_rows_witness :
  shape0 (Bconds_func ex_nbrhoods ex_B1_jax 3) = 3%nat /\
  forall j k, (j < 3)%nat -> nth j (np.int_row ex_nbrhoods 3) 0%Z = (-1)%Z ->
              get (Bconds_func ex_nbrhoods ex_B1_jax 3) j k = 0.
Proof.
  pose proof (Bconds_func_rows ex_hp_scone [] ex_G ex_B1 ex_B1_jax ex_nbrhoods 3 3
                eq_refl eq_refl eq_refl ltac:(simpl; lia)) as H.
  cbv zeta in H. split; [apply H|]. apply H.
Defined.

Lemma data_setup_L1_symmetric_psd_witness :
  np.T ex_lower = ex_lower /\ np.T ex_upper = ex_upper /\
  (forall x, shape0 x = shape0 ex_lower -> shape1 x = 1%nat -> 0 <= quad_form ex_lower x) /\
  (forall x, shape0 x = shape0 ex_upper -> shape1 x = 1%nat -> 0 <= quad_form ex_upper x).
Proof.
  apply (data_setup_L1_symmetric_psd ex_hp_scone [] ex_B1 ex_B2 ex_lower ex_upper).
  reflexivity.
Defined.

Lemma regional_masks_partition_witness :
  regional_masks ex_hp_regional [] [] 6 = ([0; 1; 0; 0; 1; 0]%Z, [0; 0; 1; 0; 0; 1]%Z) /\
  length (fst (regional_masks ex_hp_regional [] [] 6)) = 6%nat /\
  length (snd (regional_masks ex_hp_regional [] [] 6)) = 6%nat.
Proof.
  pose proof (regional_masks_partition ex_hp_regional [] [] 6 eq_refl) as H.
  cbv zeta in H. split; [reflexivity|]. split; apply H.
Defined.

Lemma data_setup_prefixes_fallback_witness :
  data_setup_prefixes (Raise IOError) (fun _ _ _ => Ok [0; 2; 3]%Z)
                      [ex_flow] [(0, 1); (0, 2); (1, 2); (2, 3)]%Z [3%Z]
  = Ok [[0; 2; 3]%Z].
Proof.
  apply (data_setup_prefixes_fallback IOError (fun _ _ _ => Ok [0; 2; 3]%Z)
           [ex_flow] [(0, 1); (0, 2); (1, 2); (2, 3)]%Z [3%Z] (fun _ => [0; 2; 3]%Z)).
  - reflexivity.
  - intros i Hi. reflexivity.
Defined.

Lemma weight_count_validation_witness :
  scone_func (ex_weights ++ [unit11]) ex_lower ex_upper
             (Bconds_func ex_nbrhoods ex_B1_jax) 3 ex_flow
  = wrong_number_of_weights.
Proof.
  apply (weight_count_validation (ex_weights ++ [unit11])).
  vm_compute. discriminate.
Defined.

Lemma scnn_validation_allows_reads_past_end_witness :
  weight ex_weights6 6 = Raise IndexError /\
  index_or_shape_error
    (scnn_func_3 ex_weights6 ex_lower ex_lower2 ex_lower3 ex_upper ex_upper2 ex_upper3
                 (Bconds_func ex_nbrhoods ex_B1_jax) 3 ex_flow 2 2).
Proof.
  destruct (proj1 (proj2 scnn_validation_allows_reads_past_end) ex_weights6 eq_refl)
    as (_ & H6 & _ & H3 & _).
  split; [exact H6|].
  exact (H3 ex_lower ex_lower2 ex_lower3 ex_upper ex_upper2 ex_upper3
            (Bconds_func ex_nbrhoods ex_B1_jax) 3%Z ex_flow).
Defined.

(** * Further properties *)

(** ** Orientation flips and the operator table *)

Lemma conjugated_dot (f : list R) (A A' B B' : ndarray) :
  Forall sign f -> conjugated f A A' -> conjugated f B B' ->
  conjugated f (np.dot A B) (np.dot A' B').
Proof.
  intros Hf (A0 & A1 & A0' & A1' & Ag) (B0 & B1 & B0' & B1' & Bg).
  repeat split; simpl; auto. intros i j Hi Hj.
  rewrite !get_dot by lia. rewrite A1, A1'.
  transitivity (sumf (length f) (fun k => nth i f 0 * nth j f 0 * (get A i k * get B k j))).
  - apply sumf_ext. intros k Hk. rewrite Ag, Bg by lia.
    pose proof (sign_sq _ (nth_sign f k Hf Hk)) as Hk2.
    transitivity (nth i f 0 * get A i k * get B k j * nth j f 0 * (nth k f 0 * nth k f 0));
      [ring|]. rewrite Hk2. ring.
  - rewrite sumf_scale. ring.
Qed.

Lemma conjugated_sum (f : list R) (A A' B B' : ndarray) :
  conjugated f A A' -> conjugated f B B' ->
  conjugated f (matrix_sum A B) (matrix_sum A' B').
Proof.
  intros (A0 & A1 & A0' & A1' & Ag) (B0 & B1 & B0' & B1' & Bg).
  repeat split; simpl; auto. intros i j Hi Hj.
  unfold matrix_sum. rewrite !get_mk by lia. rewrite Ag, Bg by lia. ring.
Qed.

Lemma conjugated_unique (f : list R) (S X Y : ndarray) :
  conjugated f S X -> conjugated f S Y -> wf X -> wf Y -> X = Y.
Proof.
  intros (_ & _ & X0 & X1 & Xg) (_ & _ & Y0 & Y1 & Yg) HX HY.
  apply ndarray_ext; auto; try congruence.
  intros i j Hi Hj. rewrite Xg, Yg by lia. reflexivity.
Qed.

Lemma wf_dot (A B : ndarray) : wf (np.dot A B).
Proof. apply wf_mk. Qed.

(** The conjugate of [S] is what [conjugate] returns, whenever the array
    [X] is well formed and conjugated to [S]. *)
Lemma conjugate_is (f : list R) (S X : ndarray) :
  conjugated f S X -> wf X -> conjugate (np.diag f) S = Ok X.
Proof.
  intros HX Hwf. pose proof HX as (S0 & S1 & _).
  destruct (conjugate_spec f S S0 S1) as (S' & E & HS'). rewrite E. f_equal.
  eapply conjugated_unique; eauto using conjugate_wf.
Qed.

(** A forward pass made of a validation, a loop of layers and the readout
    gives the same outcome on flipped inputs as on the original ones. *)
Lemma layers_readout_flipped (f : list R) (weights : list ndarray) (nl : result Z)
    (layer layer' : Z -> ndarray -> result ndarray)
    (Bcond Bcond' : Z -> ndarray) (last_node : Z) (x x' : ndarray) :
  Forall sign f ->
  (forall i s s', row_flipped f s s' ->
                  rel_result (row_flipped f) (layer i s) (layer' i s')) ->
  col_flipped f (Bcond last_node) (Bcond' last_node) ->
  row_flipped f x x' ->
  (n <- nl ;; c <- for_range layer' 0 (Z.to_nat n) x' ;;
   readout weights Bcond' last_node c)
  = (n <- nl ;; c <- for_range layer 0 (Z.to_nat n) x ;;
     readout weights Bcond last_node c).
Proof.
  intros Hf Hlayer HB Hx. destruct nl as [n|e]; simpl; [|reflexivity].
  pose proof (for_range_rel (row_flipped f) layer layer' (Z.to_nat n) Hlayer
                            0%Z x x' Hx) as Hloop.
  destruct (for_range layer 0 (Z.to_nat n) x) as [c|e],
           (for_range layer' 0 (Z.to_nat n) x') as [c'|e'];
    simpl in Hloop; try contradiction; simpl; [|congruence].
  now apply readout_flipped with (f := f).
Qed.

Ltac layer_flipped :=
  repeat first
    [ eapply rel_result_bind;
      [ first [ apply matmul_row_flipped; eassumption
              | apply plus_term_flipped; eassumption ] | intros ? ? ? ]
    | simpl; apply tanh_row_flipped; assumption ].

Lemma scnn_layer_2_flipped (f : list R) (weights : list ndarray)
    (S1 S1' S2 S2' S3 S3' S4 S4' : ndarray) (n_k i : Z) (x x' : ndarray) :
  Forall sign f -> conjugated f S1 S1' -> conjugated f S2 S2' ->
  conjugated f S3 S3' -> conjugated f S4 S4' -> row_flipped f x x' ->
  rel_result (row_flipped f) (scnn_layer_2 weights S1 S2 S3 S4 n_k i x)
             (scnn_layer_2 weights S1' S2' S3' S4' n_k i x').
Proof.
  intros Hf H1 H2 H3 H4 Hx. unfold scnn_layer_2.
  destruct (weight weights (i * n_k)); simpl; [|reflexivity]. layer_flipped.
Qed.

Lemma scnn_layer_3_flipped (f : list R) (weights : list ndarray)
    (S1 S1' S2 S2' S3 S3' S4 S4' S5 S5' S6 S6' : ndarray) (n_k i : Z) (x x' : ndarray) :
  Forall sign f -> conjugated f S1 S1' -> conjugated f S2 S2' ->
  conjugated f S3 S3' -> conjugated f S4 S4' -> conjugated f S5 S5' ->
  conjugated f S6 S6' -> row_flipped f x x' ->
  rel_result (row_flipped f) (scnn_layer_3 weights S1 S2 S3 S4 S5 S6 n_k i x)
             (scnn_layer_3 weights S1' S2' S3' S4' S5' S6' n_k i x').
Proof.
  intros Hf H1 H2 H3 H4 H5 H6 Hx. unfold scnn_layer_3.
  destruct (weight weights (i * n_k)); simpl; [|reflexivity]. layer_flipped.
Qed.

Lemma scnn_layer_4_flipped (f : list R) (weights : list ndarray)
    (S1 S1' S2 S2' S3 S3' S4 S4' S5 S5' S6 S6' S7 S7' S8 S8' : ndarray)
    (n_k i : Z) (x x' : ndarray) :
  Forall sign f -> conjugated f S1 S1' -> conjugated f S2 S2' ->
  conjugated f S3 S3' -> conjugated f S5 S5' ->
  conjugated f S6 S6' -> conjugated f S7 S7' -> conjugated f S8 S8' ->
  row_flipped f x x' ->
  rel_result (row_flipped f) (scnn_layer_4 weights S1 S2 S3 S4 S5 S6 S7 S8 n_k i x)
             (scnn_layer_4 weights S1' S2' S3' S4' S5' S6' S7' S8' n_k i x').
Proof.
  intros Hf H1 H2 H3 H5 H6 H7 H8 Hx. unfold scnn_layer_4.
  destruct (weight weights (i * n_k)); simpl; [|reflexivity]. layer_flipped.
Qed.

Lemma ebli_layer_flipped (f : list R) (weights : list ndarray)
    (S1 S1' S2 S2' S3 S3' : ndarray) (i : Z) (x x' : ndarray) :
  Forall sign f -> conjugated f S1 S1' -> conjugated f S2 S2' ->
  conjugated f S3 S3' -> row_flipped f x x' ->
  rel_result (row_flipped f) (ebli_layer weights S1 S2 S3 i x)
             (ebli_layer weights S1' S2' S3' i x').
Proof.
  intros Hf H1 H2 H3 Hx. unfold ebli_layer.
  destruct (weight weights (i * 4)); simpl; [|reflexivity]. layer_flipped.
Qed.

Lemma conjugate_square (f : list R) (S : ndarray) :
  square_of (length f) S ->
  exists S', conjugate (np.diag f) S = Ok S' /\ conjugated f S S'.
Proof. intros [H0 H1]. now apply conjugate_spec. Qed.

Ltac flip_setup hp0 hp1 flips B1 flow H0 H1 HB Hx :=
  destruct (data_setup_B1_jax_flipped hp0 hp1 flips B1 H0 H1 HB)
    as (?B & ?B' & -> & -> & ?Hpos & ?HBB);
  repeat match goal with
         | H : square_of (length flips) ?S |- _ =>
             let S' := fresh "S'" in
             let HS := fresh "HS" in
             destruct (conjugate_square flips S H) as (S' & -> & HS); clear H
         end;
  destruct (matmul_diag_row_flipped flips flow Hx) as (?x' & -> & ?Hxx);
  simpl bind.

(** X1. The order-2 family is invariant under orientation flips: [scnn_func_2]
    on the flipped selector, operators and flow returns what it returns on
    the original ones. *)
Theorem scnn_func_2_orientation_flip_invariant
    (hp0 hp1 : hyperparams) (flips : list R) (weights : list ndarray)
    (B1 S1 S2 S3 S4 : ndarray) (nbrhoods : list (list Z)) (last_node : Z)
    (flow : ndarray) (k1 k2 : Z) :
  truthy (flip_edges hp0) = false -> truthy (flip_edges hp1) = true ->
  Forall sign flips -> shape1 B1 = length flips ->
  square_of (length flips) S1 -> square_of (length flips) S2 ->
  square_of (length flips) S3 -> square_of (length flips) S4 ->
  shape0 flow = length flips ->
  (B1_F <- data_setup_B1_jax hp1 flips B1 ;;
   S1_F <- conjugate (np.diag flips) S1 ;;
   S2_F <- conjugate (np.diag flips) S2 ;;
   S3_F <- conjugate (np.diag flips) S3 ;;
   S4_F <- conjugate (np.diag flips) S4 ;;
   flow_F <- np.matmul (np.diag flips) flow ;;
   scnn_func_2 weights S1_F S2_F S3_F S4_F (Bconds_func nbrhoods B1_F)
               last_node flow_F k1 k2)
  =
  (B1_jax <- data_setup_B1_jax hp0 flips B1 ;;
   scnn_func_2 weights S1 S2 S3 S4 (Bconds_func nbrhoods B1_jax) last_node flow k1 k2).
Proof.
  intros H0 H1 Hf HB Q1 Q2 Q3 Q4 Hx.
  flip_setup hp0 hp1 flips B1 flow H0 H1 HB Hx.
  unfold scnn_func_2. cbv zeta.
  apply layers_readout_flipped with (f := flips); auto.
  - intros i s s' Hs. now apply scnn_layer_2_flipped.
  - unfold Bconds_func. now apply take_rows_col_flipped.
Qed.

(** X2. The order-3 family is invariant under orientation flips. *)
Theorem scnn_func_3_orientation_flip_invariant
    (hp0 hp1 : hyperparams) (flips : list R) (weights : list ndarray)
    (B1 S1 S2 S3 S4 S5 S6 : ndarray) (nbrhoods : list (list Z)) (last_node : Z)
    (flow : ndarray) (k1 k2 : Z) :
  truthy (flip_edges hp0) = false -> truthy (flip_edges hp1) = true ->
  Forall sign flips -> shape1 B1 = length flips ->
  square_of (length flips) S1 -> square_of (length flips) S2 ->
  square_of (length flips) S3 -> square_of (length flips) S4 ->
  square_of (length flips) S5 -> square_of (length flips) S6 ->
  shape0 flow = length flips ->
  (B1_F <- data_setup_B1_jax hp1 flips B1 ;;
   S1_F <- conjugate (np.diag flips) S1 ;;
   S2_F <- conjugate (np.diag flips) S2 ;;
   S3_F <- conjugate (np.diag flips) S3 ;;
   S4_F <- conjugate (np.diag flips) S4 ;;
   S5_F <- conjugate (np.diag flips) S5 ;;
   S6_F <- conjugate (np.diag flips) S6 ;;
   flow_F <- np.matmul (np.diag flips) flow ;;
   scnn_func_3 weights S1_F S2_F S3_F S4_F S5_F S6_F (Bconds_func nbrhoods B1_F)
               last_node flow_F k1 k2)
  =
  (B1_jax <- data_setup_B1_jax hp0 flips B1 ;;
   scnn_func_3 weights S1 S2 S3 S4 S5 S6 (Bconds_func nbrhoods B1_jax)
               last_node flow k1 k2).
Proof.
  intros H0 H1 Hf HB Q1 Q2 Q3 Q4 Q5 Q6 Hx.
  flip_setup hp0 hp1 flips B1 flow H0 H1 HB Hx.
  unfold scnn_func_3. cbv zeta.
  apply layers_readout_flipped with (f := flips); auto.
  - intros i s s' Hs. now apply scnn_layer_3_flipped.
  - unfold Bconds_func. now apply take_rows_col_flipped.
Qed.

(** X3. The order-4 family is invariant under orientation flips; the operator
    passed as [S4_lower] need not even be flipped, since it is not read. *)
Theorem scnn_func_4_orientation_flip_invariant
    (hp0 hp1 : hyperparams) (flips : list R) (weights : list ndarray)
    (B1 S1 S2 S3 S4 S4' S5 S6 S7 S8 : ndarray) (nbrhoods : list (list Z))
    (last_node : Z) (flow : ndarray) (k1 k2 : Z) :
  truthy (flip_edges hp0) = false -> truthy (flip_edges hp1) = true ->
  Forall sign flips -> shape1 B1 = length flips ->
  square_of (length flips) S1 -> square_of (length flips) S2 ->
  square_of (length flips) S3 ->
  square_of (length flips) S5 -> square_of (length flips) S6 ->
  square_of (length flips) S7 -> square_of (length flips) S8 ->
  shape0 flow = length flips ->
  (B1_F <- data_setup_B1_jax hp1 flips B1 ;;
   S1_F <- conjugate (np.diag flips) S1 ;;
   S2_F <- conjugate (np.diag flips) S2 ;;
   S3_F <- conjugate (np.diag flips) S3 ;;
   S5_F <- conjugate (np.diag flips) S5 ;;
   S6_F <- conjugate (np.diag flips) S6 ;;
   S7_F <- conjugate (np.diag flips) S7 ;;
   S8_F <- conjugate (np.diag flips) S8 ;;
   flow_F <- np.matmul (np.diag flips) flow ;;
   scnn_func_4 weights S1_F S2_F S3_F S4' S5_F S6_F S7_F S8_F
               (Bconds_func nbrhoods B1_F) last_node flow_F k1 k2)
  =
  (B1_jax <- data_setup_B1_jax hp0 flips B1 ;;
   scnn_func_4 weights S1 S2 S3 S4 S5 S6 S7 S8 (Bconds_func nbrhoods B1_jax)
               last_node flow k1 k2).
Proof.
  intros H0 H1 Hf HB Q1 Q2 Q3 Q5 Q6 Q7 Q8 Hx.
  flip_setup hp0 hp1 flips B1 flow H0 H1 HB Hx.
  unfold scnn_func_4. cbv zeta.
  apply layers_readout_flipped with (f := flips); auto.
  - intros i s s' Hs. now apply scnn_layer_4_flipped.
  - unfold Bconds_func. now apply take_rows_col_flipped.
Qed.

(** X4. The combined-sum family is invariant under orientation flips. *)
Theorem ebli_func_orientation_flip_invariant
    (hp0 hp1 : hyperparams) (flips : list R) (weights : list ndarray)
    (B1 S S2 S3 : ndarray) (nbrhoods : list (list Z)) (last_node : Z)
    (flow : ndarray) :
  truthy (flip_edges hp0) = false -> truthy (flip_edges hp1) = true ->
  Forall sign flips -> shape1 B1 = length flips ->
  square_of (length flips) S -> square_of (length flips) S2 ->
  square_of (length flips) S3 ->
  shape0 flow = length flips ->
  (B1_F <- data_setup_B1_jax hp1 flips B1 ;;
   S_F <- conjugate (np.diag flips) S ;;
   S2_F <- conjugate (np.diag flips) S2 ;;
   S3_F <- conjugate (np.diag flips) S3 ;;
   flow_F <- np.matmul (np.diag flips) flow ;;
   ebli_func weights S_F S2_F S3_F (Bconds_func nbrhoods B1_F) last_node flow_F)
  =
  (B1_jax <- data_setup_B1_jax hp0 flips B1 ;;
   ebli_func weights S S2 S3 (Bconds_func nbrhoods B1_jax) last_node flow).
Proof.
  intros H0 H1 Hf HB Q1 Q2 Q3 Hx.
  flip_setup hp0 hp1 flips B1 flow H0 H1 HB Hx.
  unfold ebli_func.
  apply layers_readout_flipped with (f := flips); auto.
  - intros i s s' Hs. now apply ebli_layer_flipped.
  - unfold Bconds_func. now apply take_rows_col_flipped.
Qed.

Lemma data_setup_L1_plain (hp : hyperparams) (flips : list R) (B1 B2 : ndarray) :
  truthy (flip_edges hp) = false ->
  data_setup_L1 hp flips B1 B2 = Ok (np.dot (np.T B1) B1, np.dot B2 (np.T B2)).
Proof.
  intros H. unfold data_setup_L1, np.matmul. simpl. now rewrite !Nat.eqb_refl, H.
Qed.

Lemma data_setup_L1_flipped (hp : hyperparams) (flips : list R) (B1 B2 : ndarray) :
  truthy (flip_edges hp) = true ->
  shape1 B1 = length flips -> shape0 B2 = length flips ->
  exists L' U',
    data_setup_L1 hp flips B1 B2 = Ok (L', U') /\
    conjugated flips (np.dot (np.T B1) B1) L' /\
    conjugated flips (np.dot B2 (np.T B2)) U' /\
    conjugate (np.diag flips) (np.dot (np.T B1) B1) = Ok L' /\
    conjugate (np.diag flips) (np.dot B2 (np.T B2)) = Ok U'.
Proof.
  intros H H1 H2. unfold data_setup_L1, np.matmul at 1 2. simpl.
  rewrite !Nat.eqb_refl, H. simpl.
  destruct (conjugate_spec flips (np.dot (np.T B1) B1)) as (L' & EL & HL); auto.
  destruct (conjugate_spec flips (np.dot B2 (np.T B2))) as (U' & EU & HU); auto.
  rewrite EL, EU. simpl. exists L', U'. auto.
Qed.

Ltac run_products :=
  repeat (rewrite matmul_power by (simpl; congruence); simpl bind).

(** X5. Under edge flips [data_setup] builds, for every family whose operators
    it computes itself, the conjugates [F @ S @ F] of the operators [S] it
    builds without flips: flipping commutes with taking the powers and the
    sum. *)
Theorem data_setup_shifts_flip_commutes
    (hp0 hp1 : hyperparams) (flips : list R)
    (compute_shift_matrices : ndarray -> ndarray -> result (list ndarray))
    (B1 B2 : ndarray) (shifts : list ndarray) :
  truthy (flip_edges hp0) = false -> truthy (flip_edges hp1) = true ->
  model hp1 = model hp0 -> model hp0 <> "bunch"%string ->
  Forall sign flips ->
  shape1 B1 = length flips -> shape0 B2 = length flips ->
  data_setup_shifts hp0 flips compute_shift_matrices B1 B2 = Ok shifts ->
  data_setup_shifts hp1 flips compute_shift_matrices B1 B2
  = list_comp (conjugate (np.diag flips)) shifts.
Proof.
  intros H0 H1 Hm Hb Hf HB1 HB2.
  destruct (data_setup_L1_flipped hp1 flips B1 B2 H1 HB1 HB2)
    as (L' & U' & E1 & HL & HU & EL & EU).
  pose proof HL as (L0 & L1 & L0' & L1' & _).
  pose proof HU as (U0 & U1 & U0' & U1' & _).
  unfold data_setup_shifts. rewrite E1, (data_setup_L1_plain hp0) by assumption.
  rewrite Hm. simpl bind. cbv iota beta.
  set (lower := np.dot (np.T B1) B1) in *. set (upper := np.dot B2 (np.T B2)) in *.
  destruct (String.eqb_spec (model hp0) "scone").
  { intros [= <-]. simpl. now rewrite EL, EU. }
  destruct (String.eqb_spec (model hp0) "scnn2").
  { run_products. intros [= <-]. simpl list_comp. rewrite EL, EU. simpl bind.
    rewrite (conjugate_is flips (np.dot lower lower) (np.dot L' L'))
      by (try apply wf_mk; now apply conjugated_dot).
    rewrite (conjugate_is flips (np.dot upper upper) (np.dot U' U'))
      by (try apply wf_mk; now apply conjugated_dot).
    reflexivity. }
  destruct (String.eqb_spec (model hp0) "scnn3").
  { run_products. intros [= <-]. simpl list_comp. rewrite EL, EU. simpl bind.
    rewrite (conjugate_is flips (np.dot lower lower) (np.dot L' L'))
      by (try apply wf_mk; now apply conjugated_dot).
    rewrite (conjugate_is flips (np.dot (np.dot lower lower) lower)
                          (np.dot (np.dot L' L') L'))
      by (try apply wf_mk; repeat apply conjugated_dot; assumption).
    rewrite (conjugate_is flips (np.dot upper upper) (np.dot U' U'))
      by (try apply wf_mk; now apply conjugated_dot).
    rewrite (conjugate_is flips (np.dot (np.dot upper upper) upper)
                          (np.dot (np.dot U' U') U'))
      by (try apply wf_mk; repeat apply conjugated_dot; assumption).
    reflexivity. }
  destruct (String.eqb_spec (model hp0) "scnn4").
  { run_products. intros [= <-]. simpl list_comp. rewrite EL, EU. simpl bind.
    rewrite (conjugate_is flips (np.dot lower lower) (np.dot L' L'))
      by (try apply wf_mk; now apply conjugated_dot).
    rewrite (conjugate_is flips (np.dot (np.dot lower lower) lower)
                          (np.dot (np.dot L' L') L'))
      by (try apply wf_mk; repeat apply conjugated_dot; assumption).
    rewrite (conjugate_is flips (np.dot (np.dot (np.dot lower lower) lower) lower)
                          (np.dot (np.dot (np.dot L' L') L') L'))
      by (try apply wf_mk; repeat apply conjugated_dot; assumption).
    rewrite (conjugate_is flips (np.dot upper upper) (np.dot U' U'))
      by (try apply wf_mk; now apply conjugated_dot).
    rewrite (conjugate_is flips (np.dot (np.dot upper upper) upper)
                          (np.dot (np.dot U' U') U'))
      by (try apply wf_mk; repeat apply conjugated_dot; assumption).
    rewrite (conjugate_is flips (np.dot (np.dot (np.dot upper upper) upper) upper)
                          (np.dot (np.dot (np.dot U' U') U') U'))
      by (try apply wf_mk; repeat apply conjugated_dot; assumption).
    reflexivity. }
  destruct (String.eqb_spec (model hp0) "ebli").
  { rewrite !add_same_shape by (simpl; congruence). simpl bind.
    run_products. intros [= <-]. simpl list_comp.
    assert (HS : conjugated flips (matrix_sum lower upper) (matrix_sum L' U'))
      by now apply conjugated_sum.
    rewrite (conjugate_is flips _ _ HS) by apply wf_mk. simpl bind.
    rewrite (conjugate_is flips (np.dot (matrix_sum lower upper) (matrix_sum lower upper))
                          (np.dot (matrix_sum L' U') (matrix_sum L' U')))
      by (try apply wf_mk; now apply conjugated_dot).
    rewrite (conjugate_is flips
               (np.dot (np.dot (matrix_sum lower upper) (matrix_sum lower upper))
                       (matrix_sum lower upper))
               (np.dot (np.dot (matrix_sum L' U') (matrix_sum L' U')) (matrix_sum L' U')))
      by (try apply wf_mk; repeat apply conjugated_dot; assumption).
    reflexivity. }
  destruct (String.eqb_spec (model hp0) "bunch"); [contradiction | discriminate].
Qed.

(** ** Reads of the weight list stay within the list *)

Lemma weight_valid (weights : list ndarray) (j : Z) :
  (- Z.of_nat (length weights) <= j < Z.of_nat (length weights))%Z ->
  exists w, weight weights j = Ok w.
Proof.
  intros H. unfold weight, py_getitem.
  destruct (Z.ltb_spec j 0).
  - destruct (Z.leb_spec 0 (j + Z.of_nat (length weights))); [|lia].
    destruct (Z.ltb_spec (j + Z.of_nat (length weights)) (Z.of_nat (length weights)));
      [|lia]. simpl. eauto.
  - destruct (Z.leb_spec 0 j); [|lia].
    destruct (Z.ltb_spec j (Z.of_nat (length weights))); [|lia]. simpl. eauto.
Qed.

Lemma shift_term_valid (S x : ndarray) (weights : list ndarray) (j : Z) :
  (- Z.of_nat (length weights) <= j < Z.of_nat (length weights))%Z ->
  ok_or_shape_error (shift_term S x weights j).
Proof.
  intros H. unfold shift_term. destruct (weight_valid weights j H) as (w & ->).
  apply bind_ok_or_shape; [apply matmul_ok_or_shape|]. intros s. simpl.
  apply matmul_ok_or_shape.
Qed.

Lemma plus_term_valid (acc S x : ndarray) (weights : list ndarray) (j : Z) :
  (- Z.of_nat (length weights) <= j < Z.of_nat (length weights))%Z ->
  ok_or_shape_error (plus_term acc S x weights j).
Proof.
  intros H. unfold plus_term.
  apply bind_ok_or_shape; [now apply shift_term_valid|]. intros. apply add_ok_or_shape.
Qed.

Lemma first_term_valid (x : ndarray) (weights : list ndarray) (j : Z)
    (k : ndarray -> result ndarray) :
  (- Z.of_nat (length weights) <= j < Z.of_nat (length weights))%Z ->
  (forall t, ok_or_shape_error (k t)) ->
  ok_or_shape_error (w0 <- weight weights j ;; t0 <- np.matmul x w0 ;; k t0).
Proof.
  intros H Hk. destruct (weight_valid weights j H) as (w & ->). simpl.
  apply bind_ok_or_shape; [apply matmul_ok_or_shape | assumption].
Qed.

Lemma ok_ok_or_shape {A : Type} (a : A) : ok_or_shape_error (Ok a).
Proof. left. eauto. Qed.

Lemma for_range_ok_or_shape {S : Type} (body : Z -> S -> result S) (n : nat) :
  forall (i0 : Z) (s : S),
    (forall k s', (i0 <= k < i0 + Z.of_nat n)%Z -> ok_or_shape_error (body k s')) ->
    ok_or_shape_error (for_range body i0 n s).
Proof.
  induction n as [|n IH]; intros i0 s H; simpl; [apply ok_ok_or_shape|].
  apply bind_ok_or_shape; [apply H; lia|]. intros s'. apply IH.
  intros k s'' Hk. apply H. lia.
Qed.

Lemma readout_valid (weights : list ndarray) (Bcond : Z -> ndarray) (n : Z) (x : ndarray) :
  (0 < length weights)%nat -> ok_or_shape_error (readout weights Bcond n x).
Proof.
  intros H. unfold readout.
  apply bind_ok_or_shape; [apply shift_term_valid; lia|]. intros. apply ok_ok_or_shape.
Qed.

Ltac layer_valid :=
  apply first_term_valid; [nia|]; intro;
  repeat (apply bind_ok_or_shape; [apply plus_term_valid; nia | intro]);
  apply ok_ok_or_shape.

(** A validated group size [g] with [a = len(weights) - 1]. *)
Lemma n_layers_checked_inv (a g n : Z) :
  n_layers_checked a g = Ok n -> (g <> 0 /\ a = g * n)%Z.
Proof.
  unfold n_layers_checked. destruct (Z.eqb_spec g 0); [discriminate|].
  destruct (Z.eqb_spec (a mod g) 0); [|discriminate]. intros [= <-].
  split; [assumption|]. now apply Z_div_exact_full_2.
Qed.

Lemma n_layers_checked_cases (a g : Z) :
  (g <> 0)%Z ->
  (exists n, n_layers_checked a g = Ok n) \/
  n_layers_checked a g = wrong_number_of_weights.
Proof.
  intros Hg. unfold n_layers_checked. destruct (Z.eqb_spec g 0); [contradiction|].
  destruct (_ =? _)%Z; [left; eauto | now right].
Qed.

(** A pass made of validation, layers and readout whose layers only read
    weights below [g * n] reads within bounds. *)
Lemma layers_readout_in_bounds (weights : list ndarray) (g : Z)
    (layer : Z -> ndarray -> result ndarray) (Bcond : Z -> ndarray)
    (last_node : Z) (flow : ndarray) :
  (1 < g)%Z ->
  (forall n i s, (Z.of_nat (length weights) - 1 = g * n)%Z -> (0 <= i < n)%Z ->
                 ok_or_shape_error (layer i s)) ->
  reads_in_bounds
    (n <- n_layers_checked (Z.of_nat (length weights) - 1) g ;;
     c <- for_range layer 0 (Z.to_nat n) flow ;;
     readout weights Bcond last_node c).
Proof.
  intros Hg Hlayer.
  destruct (n_layers_checked_cases (Z.of_nat (length weights) - 1) g ltac:(lia))
    as [[n E] | E]; rewrite E; [|now right].
  left. simpl. apply n_layers_checked_inv in E as [_ E].
  apply bind_ok_or_shape.
  - apply for_range_ok_or_shape. intros k s Hk. apply (Hlayer n); [assumption | lia].
  - intros c. apply readout_valid. destruct (Z.le_gt_cases 0 n); nia.
Qed.

(** X6. Whatever the arrays are, the forward passes of the base, combined-sum
    and decomposition families never read past the end of the weight list:
    they return, stop on a shape mismatch or fail the validation. *)
Theorem validated_families_read_in_bounds (weights : list ndarray) :
  (forall S_lower S_upper Bcond last_node flow,
     reads_in_bounds (scone_func weights S_lower S_upper Bcond last_node flow)) /\
  (forall S S2 S3 Bcond last_node flow,
     reads_in_bounds (ebli_func weights S S2 S3 Bcond last_node flow)) /\
  (forall S_00 S_10 S_01 S_11 S_21 S_12 S_22 nbrhoods last_node flow,
     reads_in_bounds
       (bunch_func weights S_00 S_10 S_01 S_11 S_21 S_12 S_22 nbrhoods last_node flow)).
Proof.
  repeat split; intros.
  - unfold scone_func. apply layers_readout_in_bounds; [lia|].
    intros n i s Hn Hi. unfold scone_layer. layer_valid.
  - unfold ebli_func. apply layers_readout_in_bounds; [lia|].
    intros n i s Hn Hi. unfold ebli_layer. layer_valid.
  - unfold bunch_func.
    destruct (n_layers_checked_cases (Z.of_nat (length weights)) 7 ltac:(lia))
      as [[n E] | E]; rewrite E; [|now right].
    left. simpl. apply n_layers_checked_inv in E as [_ E].
    apply bind_ok_or_shape; [|intros; apply ok_ok_or_shape].
    apply for_range_ok_or_shape. intros k [[c0 c1] c2] Hk. unfold bunch_layer.
    repeat (apply bind_ok_or_shape;
            [first [apply shift_term_valid; lia | apply plus_term_valid; lia] | intro]).
    apply ok_ok_or_shape.
Qed.

(** X7. The forward passes of the order families never read past the end of
    the weight list when the group size [1 + k1 + k2] is at least the number
    of weights a layer reads: 5, 7 and 9. *)
Theorem scnn_families_read_in_bounds (weights : list ndarray) (k1 k2 : Z) :
  ((5 <= 1 + k1 + k2)%Z ->
   forall S1 S2 S3 S4 Bcond last_node flow,
     reads_in_bounds (scnn_func_2 weights S1 S2 S3 S4 Bcond last_node flow k1 k2)) /\
  ((7 <= 1 + k1 + k2)%Z ->
   forall S1 S2 S3 S4 S5 S6 Bcond last_node flow,
     reads_in_bounds
       (scnn_func_3 weights S1 S2 S3 S4 S5 S6 Bcond last_node flow k1 k2)) /\
  ((9 <= 1 + k1 + k2)%Z ->
   forall S1 S2 S3 S4 S5 S6 S7 S8 Bcond last_node flow,
     reads_in_bounds
       (scnn_func_4 weights S1 S2 S3 S4 S5 S6 S7 S8 Bcond last_node flow k1 k2)).
Proof.
  repeat split; intros Hg; intros.
  - unfold scnn_func_2. cbv zeta. apply layers_readout_in_bounds; [lia|].
    intros n i s Hn Hi. unfold scnn_layer_2. layer_valid.
  - unfold scnn_func_3. cbv zeta. apply layers_readout_in_bounds; [lia|].
    intros n i s Hn Hi. unfold scnn_layer_3. layer_valid.
  - unfold scnn_func_4. cbv zeta. apply layers_readout_in_bounds; [lia|].
    intros n i s Hn Hi. unfold scnn_layer_4. layer_valid.
Qed.

(** ** Signs of the log-probabilities *)







(** ** Padding slots *)






(** ** The layout of a padded row *)

Lemma insert_sorted_perm (x : Z) (l : list Z) : Permutation (x :: l) (insert_sorted x l).
Proof.
  induction l as [|y l IH]; simpl; [reflexivity|].
  destruct (x <=? y)%Z; [reflexivity|].
  rewrite perm_swap. now apply perm_skip.
Qed.

Lemma sorted_perm (l : list Z) : Permutation l (sorted l).
Proof.
  induction l as [|x l IH]; [reflexivity|].
  change (sorted (x :: l)) with (insert_sorted x (sorted l)).
  rewrite <- insert_sorted_perm. now apply perm_skip.
Qed.

Lemma insert_sorted_Sorted (x : Z) (l : list Z) :
  Sorted Z.le l -> Sorted Z.le (insert_sorted x l).
Proof.
  induction l as [|y l IH]; intros H; simpl; [repeat constructor|].
  destruct (Z.leb_spec x y).
  - constructor; [assumption|]. now constructor.
  - inversion H as [|? ? Hs Hh]; subst. constructor; [now apply IH|].
    destruct l as [|z l]; simpl.
    + constructor. lia.
    + destruct (Z.leb_spec x z); constructor; [lia|].
      inversion Hh; subst. assumption.
Qed.

Lemma sorted_Sorted (l : list Z) : Sorted Z.le (sorted l).
Proof.
  induction l as [|x l IH]; [constructor|].
  change (sorted (x :: l)) with (insert_sorted x (sorted l)).
  now apply insert_sorted_Sorted.
Qed.

(** X10. A padded row lists the neighbours of the node in ascending order and
    then the sentinel up to the maximum degree; when no node id is negative,
    the slots that do not hold the sentinel are exactly the first [n_nbrs]
    ones. *)
Theorem padded_row_layout
    (G : graph) (nbrhoods : list (list Z)) (max_degree : nat) (n : Z) :
  data_setup_nbrhoods G = Ok nbrhoods ->
  max_degree_of G = Ok max_degree ->
  (0 <= n < Z.of_nat (length nbrhoods))%Z ->
  let row := np.int_row nbrhoods n in
  exists a c,
    adj G n = Ok a /\ data_setup_n_nbrs G [n] = Ok [c] /\ c = length a /\
    (c <= max_degree)%nat /\ length row = max_degree /\
    Permutation a (firstn c row) /\ Sorted Z.le (firstn c row) /\
    skipn c row = repeat (-1)%Z (max_degree - c) /\
    (Forall (fun v => 0 <= v)%Z a ->
     forall j, (j < max_degree)%nat -> ((j < c)%nat <-> nth j row 0%Z <> (-1)%Z)).
Proof.
  intros Hnb Hmd Hn row.
  destruct (data_setup_nbrhoods_row G nbrhoods max_degree n Hnb Hmd Hn)
    as (a & Ha & Hrow & Hlen).
  fold row in Hrow, Hlen. exists a, (length a).
  assert (Hc : (length a <= max_degree)%nat).
  { pose proof (max_degree_of_ge G max_degree (n, a) Hmd (adj_in _ _ _ Ha)). assumption. }
  assert (Hf : firstn (length a) row = sorted a).
  { rewrite Hrow. rewrite <- (length_sorted a) at 1.
    now rewrite firstn_app, Nat.sub_diag, firstn_all, app_nil_r. }
  split; [exact Ha|]. split; [unfold data_setup_n_nbrs; simpl; now rewrite Ha|].
  split; [reflexivity|]. split; [exact Hc|]. split; [exact Hlen|].
  split; [rewrite Hf; apply sorted_perm|]. split; [rewrite Hf; apply sorted_Sorted|].
  split.
  { rewrite Hrow. rewrite <- (length_sorted a) at 1.
    now rewrite skipn_app, Nat.sub_diag, skipn_all. }
  intros Hpos j Hj. rewrite Hrow. split.
  - intros Hja. rewrite app_nth1 by (now rewrite length_sorted).
    assert (Hin : In (nth j (sorted a) 0%Z) a).
    { apply Permutation_in with (sorted a); [symmetry; apply sorted_perm|].
      apply nth_In. now rewrite length_sorted. }
    rewrite Forall_forall in Hpos. specialize (Hpos _ Hin). lia.
  - intros Hne. destruct (Nat.lt_ge_cases j (length a)) as [Hlt|Hge]; [assumption|].
    exfalso. apply Hne. rewrite app_nth2 by (now rewrite length_sorted).
    rewrite length_sorted. apply nth_repeat_lt. lia.
Qed.

(** ** When the neighbourhood table can be built *)

Lemma adj_missing (G : graph) (n : Z) :
  ~ In n (nodes G) -> adj G n = Raise (Exception "KeyError").
Proof.
  intros H. unfold adj. destruct (find _ G) as [p|] eqn:E; [|reflexivity].
  apply find_some in E as [Hin Heq]. simpl in Heq. apply Z.eqb_eq in Heq.
  exfalso. apply H. unfold nodes. rewrite <- Heq. now apply in_map.
Qed.

Lemma adj_present (G : graph) (n : Z) :
  In n (nodes G) -> exists a, adj G n = Ok a.
Proof.
  intros H. unfold adj. destruct (find _ G) as [p|] eqn:E; [eauto|].
  exfalso. unfold nodes in H. apply in_map_iff in H as (p & Hp & Hin).
  apply (find_none _ _ E) in Hin. simpl in Hin. rewrite Hp, Z.eqb_refl in Hin.
  discriminate.
Qed.

Lemma list_comp_all_ok {A B : Type} (f : A -> result B) (l : list A) :
  (forall x, In x l -> exists y, f x = Ok y) ->
  exists r, list_comp f l = Ok r /\ length r = length l.
Proof.
  induction l as [|x l IH]; intros H; simpl; [now exists []|].
  destruct (H x ltac:(now left)) as (y & ->).
  destruct IH as (r & -> & Hr); [intros; apply H; now right|].
  simpl. exists (y :: r). simpl. auto.
Qed.

Lemma list_comp_raises {A B : Type} (f : A -> result B) (l : list A) (e : exn) :
  (forall x, In x l -> (exists y, f x = Ok y) \/ f x = Raise e) ->
  (exists x, In x l /\ f x = Raise e) ->
  list_comp f l = Raise e.
Proof.
  induction l as [|x l IH]; intros H (x0 & Hin & Hx0); [contradiction|]. simpl.
  destruct (H x ltac:(now left)) as [(y & Hy) | Hr]; [|now rewrite Hr].
  rewrite Hy. simpl. rewrite IH; [reflexivity | intros; apply H; now right |].
  destruct Hin as [->|Hin]; [congruence | eauto].
Qed.

Lemma in_range (n v : Z) : In v (range n) <-> (0 <= v < n)%Z.
Proof.
  unfold range. rewrite in_map_iff. split.
  - intros (i & <- & Hi). apply in_seq in Hi. lia.
  - intros H. exists (Z.to_nat v). split; [lia|]. apply in_seq. lia.
Qed.

(** X11. The two statements of [data_setup] that build the neighbourhood table
    (the maximum degree and the comprehension over [range(max(nodes) + 1)]),
    taken on their own once the run has reached them: on an empty graph they
    stop on the maximum of an empty collection, on a gap in the node ids on
    the missing key; when the ids fill the range the table has one row for
    each id up to the largest.  What [data_setup] does before these
    statements is not part of the property. *)
Theorem data_setup_nbrhoods_outcome (G : graph) :
  (G = [] -> data_setup_nbrhoods G = Raise (Exception "ValueError")) /\
  (forall top, py_max Z.max (nodes G) = Ok top ->
     ((exists n, (0 <= n <= top)%Z /\ ~ In n (nodes G)) ->
      data_setup_nbrhoods G = Raise (Exception "KeyError")) /\
     ((forall n, (0 <= n <= top)%Z -> In n (nodes G)) ->
      exists nbrhoods, data_setup_nbrhoods G = Ok nbrhoods /\
                       length nbrhoods = Z.to_nat (top + 1))).
Proof.
  split; [intros ->; reflexivity|].
  intros top Htop. unfold data_setup_nbrhoods.
  assert (Hmd : exists md, max_degree_of G = Ok md).
  { destruct G; [discriminate|]. unfold max_degree_of. simpl. eauto. }
  destruct Hmd as (md & ->). rewrite Htop. simpl. split.
  - intros (n & Hn & Hmiss). apply list_comp_raises.
    + intros x _. unfold padded_row.
      destruct (in_dec Z.eq_dec x (nodes G)) as [Hin|Hout].
      * left. destruct (adj_present G x Hin) as (a & ->). simpl. eauto.
      * right. now rewrite adj_missing.
    + exists n. split; [apply in_range; lia|].
      unfold padded_row. now rewrite adj_missing.
  - intros Hall.
    destruct (list_comp_all_ok (padded_row G md) (range (top + 1))) as (r & Hr & Hlen).
    + intros x Hx. apply in_range in Hx. unfold padded_row.
      destruct (adj_present G x (Hall x ltac:(lia))) as (a & ->). simpl. eauto.
    + exists r. split; [assumption|]. now rewrite Hlen, length_range.
Qed.

(** ** Flipping twice *)

(** X12. Flipping the orientation of the same edges twice gives the operator
    back: [F @ (F @ S @ F) @ F = S] for a square [S]. *)
Theorem conjugate_involutive (flips : list R) (S S' : ndarray) :
  Forall sign flips -> wf S -> shape1 S = shape0 S ->
  conjugate (np.diag flips) S = Ok S' ->
  conjugate (np.diag flips) S' = Ok S.
Proof.
  intros Hf Hwf Hsq H. pose proof (conjugate_inv flips S S' H Hsq) as HC.
  destruct HC as (S0 & S1 & S0' & S1' & Sg).
  apply conjugate_is; [|assumption].
  repeat split; auto. intros i j Hi Hj. rewrite Sg by assumption.
  pose proof (sign_sq _ (nth_sign flips i Hf Hi)) as Hi2.
  pose proof (sign_sq _ (nth_sign flips j Hf Hj)) as Hj2.
  transitivity ((nth i flips 0 * nth i flips 0) * get S i j * (nth j flips 0 * nth j flips 0));
    [|ring]. rewrite Hi2, Hj2. ring.
Qed.

Lemma flip_flows_entries (f : list R) (X X' : list ndarray) :
  flip_flows X (length f) (np.diag f) = Ok X' ->
  length X' = length X /\
  forall k e, (k < length X)%nat -> (e < length f)%nat ->
              nth k X' no_array = mk (length f) 1
                                     (fun e _ => get (nth k X no_array) e 0 * nth e f 0).
Proof.
  unfold flip_flows, np.matmul. simpl. rewrite Nat.eqb_refl. simpl. intros [= <-].
  split; [now rewrite length_map, length_seq|]. intros k e Hk He.
  rewrite nth_map_seq by assumption. apply mk_ext. intros e' j He' Hj.
  rewrite get_dot_diag_r by (simpl; lia). now rewrite get_mk by lia.
Qed.

(** X13. Flipping a batch of flows twice with the same signs gives the batch
    back. *)
Theorem flip_flows_involutive (flips : list R) (X : list ndarray) :
  Forall sign flips ->
  Forall (fun x => wf x /\ shape0 x = length flips /\ shape1 x = 1%nat) X ->
  (X' <- flip_flows X (length flips) (np.diag flips) ;;
   flip_flows X' (length flips) (np.diag flips)) = Ok X.
Proof.
  intros Hf HX.
  destruct (flip_flows X (length flips) (np.diag flips)) as [X'|] eqn:E1;
    [|unfold flip_flows, np.matmul in E1; simpl in E1;
      rewrite Nat.eqb_refl in E1; discriminate].
  simpl.
  destruct (flip_flows X' (length flips) (np.diag flips)) as [X''|] eqn:E2;
    [|unfold flip_flows, np.matmul in E2; simpl in E2;
      rewrite Nat.eqb_refl in E2; discriminate].
  f_equal.
  pose proof (flip_flows_entries flips X X' E1) as [L1 N1].
  pose proof (flip_flows_entries flips X' X'' E2) as [L2 N2].
  apply (nth_ext _ _ no_array no_array); [congruence|].
  intros k Hk. rewrite L2, L1 in Hk.
  rewrite Forall_forall in HX.
  destruct (HX (nth k X no_array) (nth_In _ _ Hk)) as (Hwf & H0 & H1).
  destruct (Nat.eq_dec (length flips) 0) as [Hz|Hnz].
  - apply ndarray_ext; auto.
    + unfold flip_flows, np.matmul in E2. simpl in E2. rewrite Nat.eqb_refl in E2.
      injection E2 as <-. rewrite nth_map_seq by congruence. apply wf_mk.
    + unfold flip_flows, np.matmul in E2. simpl in E2. rewrite Nat.eqb_refl in E2.
      injection E2 as <-. rewrite nth_map_seq by congruence. simpl. congruence.
    + unfold flip_flows, np.matmul in E2. simpl in E2. rewrite Nat.eqb_refl in E2.
      injection E2 as <-. rewrite nth_map_seq by congruence. simpl. congruence.
    + unfold flip_flows, np.matmul in E2. simpl in E2. rewrite Nat.eqb_refl in E2.
      injection E2 as <-. rewrite nth_map_seq by congruence. simpl. intros; lia.
  - rewrite (N2 k 0%nat) by lia. rewrite (N1 k 0%nat) by lia.
    transitivity (mk (shape0 (nth k X no_array)) (shape1 (nth k X no_array))
                     (get (nth k X no_array))); [|now apply mk_get].
    rewrite H0, H1. apply mk_ext. intros e j He Hj.
    assert (j = 0)%nat as -> by lia. rewrite get_mk by lia.
    pose proof (sign_sq _ (nth_sign flips e Hf He)) as He2.
    transitivity (get (nth k X no_array) e 0 * (nth e flips 0 * nth e flips 0)); [ring|].
    rewrite He2. ring.
Qed.

(** ** The Markov baseline: reversed paths *)

Lemma last_two {A : Type} (d : A) (l : list A) :
  (2 <= length l)%nat ->
  l = firstn (length l - 2) l ++ [nth (length l - 2) l d; nth (length l - 1) l d].
Proof.
  intros H. rewrite <- (firstn_skipn (length l - 2) l) at 1. f_equal.
  assert (Hlen : length (skipn (length l - 2) l) = 2%nat) by (rewrite length_skipn; lia).
  assert (H0 : nth 0 (skipn (length l - 2) l) d = nth (length l - 2) l d)
    by (rewrite nth_skipn; f_equal; lia).
  assert (H1 : nth 1 (skipn (length l - 2) l) d = nth (length l - 1) l d)
    by (rewrite nth_skipn; f_equal; lia).
  destruct (skipn (length l - 2) l) as [|x [|y [|z r]]]; simpl in *; try lia.
  congruence.
Qed.

Lemma py_getitem_from_end {A : Type} (d : A) (l : list A) (k : nat) :
  (0 < k <= length l)%nat ->
  py_getitem d l (- Z.of_nat k) = Ok (nth (length l - k) l d).
Proof.
  intros H. unfold py_getitem.
  destruct (Z.ltb_spec (- Z.of_nat k) 0); [|lia].
  destruct (Z.leb_spec 0 (- Z.of_nat k + Z.of_nat (length l))); [|lia].
  destruct (Z.ltb_spec (- Z.of_nat k + Z.of_nat (length l)) (Z.of_nat (length l))); [|lia].
  simpl. do 2 f_equal. lia.
Qed.

Lemma markov_paths_long (prefixes : list (list Z)) (t1 t2 : list Z) :
  Forall (fun p => 2 <= length p)%nat (markov_paths prefixes t1 t2).
Proof.
  revert t1 t2. induction prefixes as [|p ps IH]; intros [|a t1] [|b t2]; simpl;
    try constructor; [rewrite length_app; simpl; lia | apply IH].
Qed.

(** X14. The reversed examples of the Markov baseline are well defined and
    consistent: every path has its two targets, so the reads [p[-2]] and
    [p[-1]] succeed; a reversed prefix followed by its two reversed targets
    is the reversed path; and reversing again gives the forward paths. *)
Theorem markov_reversed_paths (prefixes : list (list Z)) (targets1 targets2 : list Z) :
  let paths := markov_paths prefixes targets1 targets2 in
  exists r1 r2,
    rev_target_nodes_1hop paths = Ok r1 /\
    rev_target_nodes_2hop paths = Ok r2 /\
    markov_paths (rev_prefixes paths) r1 r2 = rev_paths paths /\
    rev_paths (rev_paths paths) = paths.
Proof.
  intros paths. pose proof (markov_paths_long prefixes targets1 targets2) as Hlong.
  fold paths in Hlong. clearbody paths.
  unfold rev_target_nodes_1hop, rev_target_nodes_2hop, rev_prefixes, rev_paths.
  induction paths as [|p paths IH]; simpl.
  - exists [], []. auto.
  - inversion Hlong as [|? ? Hp Hrest]; subst.
    destruct (IH Hrest) as (r1 & r2 & E1 & E2 & E3 & E4).
    assert (Hrp : (2 <= length (rev p))%nat) by (rewrite length_rev; lia).
    change (-2)%Z with (- Z.of_nat 2)%Z. change (-1)%Z with (- Z.of_nat 1)%Z.
    rewrite !py_getitem_from_end by lia.
    change (- Z.of_nat 2)%Z with (-2)%Z in *. change (- Z.of_nat 1)%Z with (-1)%Z in *.
    rewrite E1, E2. simpl.
    exists (nth (length (rev p) - 2) (rev p) 0%Z :: r1),
           (nth (length (rev p) - 1) (rev p) 0%Z :: r2).
    split; [reflexivity|]. split; [reflexivity|]. split.
    + simpl. rewrite E3. f_equal. unfold drop_last_two. symmetry. now apply last_two.
    + now rewrite rev_involutive, E4.
Qed.

(** X15. The reversed targets are the first two nodes of the forward path: the
    1-hop target is its second node and the 2-hop target its first. *)
Theorem markov_reversed_targets (p : list Z) (n0 n1 t1 t2 : Z) :
  let path := (n0 :: n1 :: p) ++ [t1; t2] in
  py_getitem 0%Z (rev path) (-2) = Ok n1 /\
  py_getitem 0%Z (rev path) (-1) = Ok n0 /\
  drop_last_two (rev path) = t2 :: t1 :: rev p.
Proof.
  intros path. unfold path.
  assert (Hrev : rev ((n0 :: n1 :: p) ++ [t1; t2]) = (t2 :: t1 :: rev p) ++ [n1; n0]).
  { rewrite rev_app_distr. simpl. now rewrite <- !app_assoc. }
  rewrite Hrev.
  assert (Hlen : length ((t2 :: t1 :: rev p) ++ [n1; n0]) = (length (t2 :: t1 :: rev p) + 2)%nat)
    by (rewrite length_app; reflexivity).
  change (-2)%Z with (- Z.of_nat 2)%Z. change (-1)%Z with (- Z.of_nat 1)%Z.
  rewrite !py_getitem_from_end by lia. unfold drop_last_two. rewrite Hlen.
  replace (length (t2 :: t1 :: rev p) + 2 - 2)%nat with (length (t2 :: t1 :: rev p)) by lia.
  replace (length (t2 :: t1 :: rev p) + 2 - 1)%nat with (S (length (t2 :: t1 :: rev p))) by lia.
  rewrite !app_nth2 by lia.
  replace (length (t2 :: t1 :: rev p) - length (t2 :: t1 :: rev p))%nat with 0%nat by lia.
  replace (S (length (t2 :: t1 :: rev p)) - length (t2 :: t1 :: rev p))%nat with 1%nat by lia.
  split; [reflexivity|]. split; [reflexivity|].
  now rewrite firstn_app, Nat.sub_diag, firstn_all, app_nil_r.
Qed.

(** ** Regions of the Markov baseline and the regional masks *)

Lemma list_eta {A : Type} (d : A) (l : list A) :
  l = map (fun i => nth i l d) (seq 0 (length l)).
Proof.
  apply (nth_ext _ _ d d); [now rewrite length_map, length_seq|].
  intros i Hi. now rewrite nth_map_seq.
Qed.

Lemma select_combine_map {A : Type} (a : nat -> A) (b : nat -> Z) (s : list nat) :
  map fst (filter (fun p => (snd p =? 1)%Z) (combine (map a s) (map b s)))
  = map a (filter (fun i => (b i =? 1)%Z) s).
Proof.
  induction s as [|i s IH]; simpl; [reflexivity|].
  destruct (b i =? 1)%Z; simpl; now rewrite IH.
Qed.

Lemma filter_range (r : Z) (n : nat) :
  filter (fun i => (i mod 3 =? r)%Z) (range (Z.of_nat n))
  = map Z.of_nat (filter (fun i => (Z.of_nat i mod 3 =? r)%Z) (seq 0 n)).
Proof.
  unfold range. rewrite Nat2Z.id. generalize (seq 0 n). intros s.
  induction s as [|i s IH]; simpl; [reflexivity|].
  destruct (Z.of_nat i mod 3 =? r)%Z; simpl; now rewrite IH.
Qed.

Lemma region_select_spec {A : Type} (d : A) (arr : list A) (r : Z) :
  region_select d arr (length arr) r
  = Ok (map (fun i => nth i arr d)
            (filter (fun i => (Z.of_nat i mod 3 =? r)%Z) (seq 0 (length arr)))).
Proof.
  unfold region_select. rewrite filter_range.
  rewrite (list_comp_map _ (fun z => nth (Z.to_nat z) arr d)).
  - rewrite map_map. f_equal. apply map_ext. intros i. now rewrite Nat2Z.id.
  - intros z Hz. apply in_map_iff in Hz as (i & <- & Hi).
    apply filter_In in Hi as [Hi _]. apply in_seq in Hi.
    rewrite py_getitem_nat by lia. now rewrite Nat2Z.id.
Qed.

Lemma mask_select_spec {A : Type} (d : A) (arr : list A) (c : Z) :
  mask_select arr (map (fun i => if (i mod 3 =? c)%Z then 1%Z else 0%Z)
                       (range (Z.of_nat (length arr))))
  = Ok (map (fun i => nth i arr d)
            (filter (fun i => (Z.of_nat i mod 3 =? c)%Z) (seq 0 (length arr)))).
Proof.
  unfold mask_select. rewrite length_map, length_range, Nat2Z.id, Nat.eqb_refl.
  f_equal. unfold range. rewrite Nat2Z.id, map_map.
  rewrite (list_eta d arr) at 1.
  rewrite (select_combine_map (fun i => nth i arr d)
             (fun i => if (Z.of_nat i mod 3 =? c)%Z then 1%Z else 0%Z)).
  f_equal. apply filter_ext. intros i. now destruct (Z.of_nat i mod 3 =? c)%Z.
Qed.

(** X16. The Markov baseline and the neural model use the same regions: the
    examples that the baseline picks by index for the upper and the lower
    region are those that the regional train and test masks select. *)
Theorem markov_regions_match_regional_masks
    (hp : hyperparams) (train_mask test_mask : list Z) (paths : list (list Z)) :
  truthy (regional hp) = true ->
  let masks := regional_masks hp train_mask test_mask (length paths) in
  region_select [] paths (length paths) 1 = mask_select paths (fst masks) /\
  region_select [] paths (length paths) 2 = mask_select paths (snd masks) /\
  is_ok (region_select [] paths (length paths) 1) = true /\
  is_ok (region_select [] paths (length paths) 2) = true.
Proof.
  intros Hreg. unfold regional_masks. rewrite Hreg. simpl fst. simpl snd.
  rewrite !(mask_select_spec []), !region_select_spec. auto.
Qed.

(** ** The model name in [data_setup] and in [train_model] *)

(** X17. Whenever [data_setup] has built the shifts, the choice of the forward
    pass in [train_model] succeeds, so its own error for an invalid model is
    never raised; and for every family whose operators [data_setup] computes
    itself, the number of shifts is the number of shift parameters of the
    chosen forward pass. *)
Theorem model_func_matches_shifts
    (hp : hyperparams) (flips : list R)
    (compute_shift_matrices : ndarray -> ndarray -> result (list ndarray))
    (B1 B2 : ndarray) (shifts : list ndarray) :
  data_setup_shifts hp flips compute_shift_matrices B1 B2 = Ok shifts ->
  exists f, train_model_model_func hp = Ok f /\
            (f = Bunch_func -> compute_shift_matrices B1 B2 = Ok shifts) /\
            (f <> Bunch_func -> length shifts = n_shift_params f).
Proof.
  unfold data_setup_shifts, train_model_model_func. intros H.
  apply bind_ok in H as ([lower upper] & _ & H).
  destruct (model hp =? "scone")%string.
  { injection H as <-. exists Scone_func. split; [reflexivity|]; split; [discriminate | intros _; reflexivity]. }
  destruct (model hp =? "scnn2")%string eqn:E2.
  { repeat (apply bind_ok in H as (? & _ & H)). injection H as <-.
    destruct (String.eqb_spec (model hp) "scnn2"); [|discriminate].
    rewrite e. simpl. exists Scnn_func_2. split; [reflexivity|]; split; [discriminate | intros _; reflexivity]. }
  destruct (model hp =? "scnn3")%string eqn:E3.
  { repeat (apply bind_ok in H as (? & _ & H)). injection H as <-.
    destruct (String.eqb_spec (model hp) "scnn3"); [|discriminate].
    rewrite e. simpl. exists Scnn_func_3. split; [reflexivity|]; split; [discriminate | intros _; reflexivity]. }
  destruct (model hp =? "scnn4")%string eqn:E4.
  { repeat (apply bind_ok in H as (? & _ & H)). injection H as <-.
    destruct (String.eqb_spec (model hp) "scnn4"); [|discriminate].
    rewrite e. simpl. exists Scnn_func_4. split; [reflexivity|]; split; [discriminate | intros _; reflexivity]. }
  destruct (model hp =? "ebli")%string eqn:E5.
  { repeat (apply bind_ok in H as (? & _ & H)). injection H as <-.
    exists Ebli_func. split; [reflexivity|]; split; [discriminate | intros _; reflexivity]. }
  destruct (model hp =? "bunch")%string eqn:E6; [|discriminate].
  exists Bunch_func. split; [reflexivity|]. split; [intros _; assumption | intros Hc; now elim Hc].
Qed.

Lemma conjugate_ok_or_shape (F S : ndarray) : ok_or_shape_error (conjugate F S).
Proof.
  unfold conjugate. apply bind_ok_or_shape; [apply matmul_ok_or_shape|].
  intros. apply matmul_ok_or_shape.
Qed.

Lemma data_setup_L1_ok_or_shape (hp : hyperparams) (flips : list R) (B1 B2 : ndarray) :
  ok_or_shape_error (data_setup_L1 hp flips B1 B2).
Proof.
  unfold data_setup_L1.
  apply bind_ok_or_shape; [apply matmul_ok_or_shape|]. intros l.
  apply bind_ok_or_shape; [apply matmul_ok_or_shape|]. intros u.
  destruct (truthy (flip_edges hp)); [|apply ok_ok_or_shape].
  apply bind_ok_or_shape; [apply conjugate_ok_or_shape|]. intros l'.
  apply bind_ok_or_shape; [apply conjugate_ok_or_shape|]. intros u'.
  apply ok_ok_or_shape.
Qed.

(** X18. An unknown model name stops [data_setup] with its error for an invalid
    model type, unless the flipped operators cannot be formed. *)
Theorem data_setup_shifts_invalid_model
    (hp : hyperparams) (flips : list R)
    (compute_shift_matrices : ndarray -> ndarray -> result (list ndarray))
    (B1 B2 : ndarray) :
  ~ In (model hp) ["scone"; "scnn2"; "scnn3"; "scnn4"; "ebli"; "bunch"]%string ->
  train_model_model_func hp = Raise (Exception "invalid model") /\
  (truthy (flip_edges hp) = false ->
   data_setup_shifts hp flips compute_shift_matrices B1 B2
   = Raise (Exception "invalid model type")) /\
  (truthy (flip_edges hp) = true ->
   data_setup_shifts hp flips compute_shift_matrices B1 B2
   = Raise (Exception "invalid model type") \/
   data_setup_shifts hp flips compute_shift_matrices B1 B2 = Raise ShapeError).
Proof.
  intros Hm. simpl in Hm.
  assert (H1 : (model hp =? "scone")%string = false)
    by (apply String.eqb_neq; intros E; apply Hm; rewrite E; tauto).
  assert (H2 : (model hp =? "scnn2")%string = false)
    by (apply String.eqb_neq; intros E; apply Hm; rewrite E; tauto).
  assert (H3 : (model hp =? "scnn3")%string = false)
    by (apply String.eqb_neq; intros E; apply Hm; rewrite E; tauto).
  assert (H4 : (model hp =? "scnn4")%string = false)
    by (apply String.eqb_neq; intros E; apply Hm; rewrite E; tauto).
  assert (H5 : (model hp =? "ebli")%string = false)
    by (apply String.eqb_neq; intros E; apply Hm; rewrite E; tauto).
  assert (H6 : (model hp =? "bunch")%string = false)
    by (apply String.eqb_neq; intros E; apply Hm; rewrite E; tauto).
  split; [unfold train_model_model_func; now rewrite H1, H2, H3, H4, H5, H6|].
  split; intros Hflip; unfold data_setup_shifts.
  - rewrite data_setup_L1_plain by assumption. simpl.
    now rewrite H1, H2, H3, H4, H5, H6.
  - destruct (data_setup_L1_ok_or_shape hp flips B1 B2) as [([l u] & ->) | ->];
      [|now right].
    left. simpl. now rewrite H1, H2, H3, H4, H5, H6.
Qed.

(** ** Pairing the hidden layers *)

Lemma list_pair_ind {A : Type} (P : list A -> Prop) :
  P [] -> (forall a, P [a]) -> (forall a b r, P r -> P (a :: b :: r)) ->
  forall l, P l.
Proof.
  intros H0 H1 H2.
  fix IH 1. intros [|a [|b r]]; [exact H0 | apply H1 | apply H2, IH].
Qed.

Lemma length_pair_up (l : list Z) : length (pair_up l) = Nat.div2 (length l).
Proof.
  induction l as [| a | a b r IH] using list_pair_ind; simpl; auto.
Qed.

Lemma pair_up_nth (k : nat) : forall l : list Z,
  (2 * k + 1 < length l)%nat ->
  nth k (pair_up l) (0, 0)%Z = (nth (2 * k) l 0%Z, nth (2 * k + 1) l 0%Z).
Proof.
  induction k as [|k IH]; intros [|a [|b r]] H; simpl in H; try lia.
  - reflexivity.
  - replace (2 * S k)%nat with (S (S (2 * k))) by lia.
    replace (S (S (2 * k)) + 1)%nat with (S (S (2 * k + 1))) by lia.
    simpl nth. apply IH. lia.
Qed.

Lemma skipn_cons_nth {A : Type} (d : A) (k : nat) (l : list A) :
  (k < length l)%nat -> skipn k l = nth k l d :: skipn (S k) l.
Proof.
  revert l. induction k as [|k IH]; intros [|x l] H; simpl in H; try lia.
  - reflexivity.
  - simpl. apply IH. lia.
Qed.

Lemma flatten_pair_up (l : list Z) :
  Nat.even (length l) = true -> flatten_layers (pair_up l) = l.
Proof.
  induction l as [| a | a b r IH] using list_pair_ind; simpl; intros H;
    [reflexivity | discriminate | now rewrite IH].
Qed.

Lemma for_each_app {A S : Type} (body : A -> S -> result S) (l1 l2 : list A) (s : S) :
  for_each body (l1 ++ l2) s = (s' <- for_each body l1 s ;; for_each body l2 s').
Proof.
  revert s. induction l1 as [|x l1 IH]; intros s; simpl; [reflexivity|].
  destruct (body x s); simpl; [apply IH | reflexivity].
Qed.

Lemma hidden_layers_loop (nums : list Z) (c : nat) :
  forall (k : nat) (acc : list (Z * Z)),
    (2 * (k + c) <= length nums)%nat ->
    for_each (fun j hidden_layers =>
                a <- py_getitem 0%Z nums j ;;
                b <- py_getitem 0%Z nums (j + 1) ;;
                Ok (hidden_layers ++ [(a, b)]))
             (map (fun i => (2 * Z.of_nat i)%Z) (seq k c)) acc
    = Ok (acc ++ firstn c (skipn k (pair_up nums))).
Proof.
  induction c as [|c IH]; intros k acc H.
  - simpl. now rewrite app_nil_r.
  - cbn [seq map for_each]. cbv beta.
    replace (2 * Z.of_nat k)%Z with (Z.of_nat (2 * k)) by lia.
    replace (Z.of_nat (2 * k) + 1)%Z with (Z.of_nat (2 * k + 1)) by lia.
    rewrite !py_getitem_nat by lia. cbn [bind].
    rewrite IH by lia. f_equal. rewrite <- app_assoc. f_equal.
    assert (Hk : (k < length (pair_up nums))%nat).
    { rewrite length_pair_up.
      destruct (Nat.Even_or_Odd (length nums)) as [[m Hm]|[m Hm]]; rewrite Hm in *.
      - rewrite Nat.div2_double. lia.
      - replace (2 * m + 1)%nat with (S (2 * m)) by lia.
        rewrite Nat.div2_succ_double. lia. }
    rewrite (skipn_cons_nth (0, 0)%Z k) by assumption.
    cbn [firstn app]. rewrite pair_up_nth by lia. reflexivity.
Qed.

(** X19. The numbers given with [-hidden_layers] are paired in order when their
    count is even, and the pairs hold exactly these numbers; an odd count
    stops the loop on an index error at the last number. *)
Theorem hidden_layers_of_pairs (nums : list Z) (m : nat) :
  (length nums = (2 * m)%nat ->
   hidden_layers_of nums = Ok (pair_up nums) /\
   length (pair_up nums) = m /\ flatten_layers (pair_up nums) = nums) /\
  (length nums = (2 * m + 1)%nat -> hidden_layers_of nums = Raise IndexError).
Proof.
  split; intros H; unfold hidden_layers_of, range_step2; rewrite H.
  - replace (2 * m + 1)%nat with (S (2 * m)) by lia. rewrite Nat.div2_succ_double.
    assert (Hlen : length (pair_up nums) = m)
      by (rewrite length_pair_up, H; apply Nat.div2_double).
    rewrite hidden_layers_loop by lia. simpl.
    rewrite <- Hlen at 1. rewrite firstn_all.
    split; [reflexivity|]. split; [assumption|].
    apply flatten_pair_up. rewrite H. rewrite Nat.even_mul. reflexivity.
  - replace (2 * m + 1 + 1)%nat with (2 * (S m))%nat by lia. rewrite Nat.div2_double.
    rewrite seq_S, map_app, for_each_app.
    rewrite hidden_layers_loop by lia. cbn [bind seq map for_each]. cbv beta.
    replace (2 * Z.of_nat (0 + m))%Z with (Z.of_nat (2 * m)) by lia.
    rewrite py_getitem_nat by lia. cbn [bind].
    unfold py_getitem. rewrite H.
    destruct (Z.ltb_spec (Z.of_nat (2 * m) + 1) 0); [lia|].
    destruct (Z.ltb_spec (Z.of_nat (2 * m) + 1) (Z.of_nat (2 * m + 1))); [lia|].
    now rewrite andb_false_r.
Qed.

(** ** An empty weight list *)

Lemma sumf_const (n : nat) (c : R) : sumf n (fun _ => c) = INR n * c.
Proof.
  induction n as [|n IH]; [simpl; lra|].
  change (sumf (S n) (fun _ => c)) with (sumf n (fun _ => c) + c).
  rewrite IH, S_INR. lra.
Qed.

(** X20. With no weight at all the decomposition family passes its validation
    and returns the uniform log-probabilities [- ln(max_degree)] over the
    candidate slots, while the base and combined-sum families fail the
    validation. *)
Theorem forward_passes_without_weights
    (S1 S2 S3 S4 S5 S6 S7 : ndarray) (Bcond : Z -> ndarray)
    (nbrhoods : list (list Z)) (last_node : Z) (flow : ndarray) :
  scone_func [] S1 S2 Bcond last_node flow = wrong_number_of_weights /\
  ebli_func [] S1 S2 S3 Bcond last_node flow = wrong_number_of_weights /\
  bunch_func [] S1 S2 S3 S4 S5 S6 S7 nbrhoods last_node flow
  = Ok (mk (length (np.int_row nbrhoods last_node)) 1
           (fun _ _ => - ln (INR (length (np.int_row nbrhoods last_node))))).
Proof.
  split; [reflexivity|]. split; [reflexivity|].
  unfold bunch_func. simpl. f_equal.
  set (row := np.int_row nbrhoods last_node).
  unfold np.sub_scalar, np.map_entries. simpl.
  apply mk_ext. intros i j Hi Hj.
  assert (Hz : forall a b, get (np.take_rows (np.zeros (shape1 S1) 1) row) a b = 0).
  { intros a b. unfold np.take_rows.
    destruct (Nat.lt_ge_cases a (length row)) as [Ha|Ha];
      [|apply get_mk_out; now left].
    destruct (Nat.lt_ge_cases b 1) as [Hb|Hb]; [|apply get_mk_out; now right].
    rewrite get_mk by assumption. unfold np.zeros.
    change (shape0 (mk (shape1 S1) 1 (fun _ _ : nat => 0))) with (shape1 S1).
    destruct (Nat.lt_ge_cases (jax_index (shape1 S1) (nth a row 0%Z)) (shape1 S1));
      [now rewrite get_mk by lia | apply get_mk_out; now left]. }
  rewrite Hz. unfold logsumexp, sum_exp. simpl shape0. simpl shape1.
  rewrite (sumf_ext _ _ (fun _ => 1)).
  - rewrite sumf_const. replace (INR (length row) * 1) with (INR (length row)) by lra. lra.
  - intros a Ha. simpl. rewrite Hz, exp_0. lra.
Qed.

(** ** Ranges of the activations *)


Lemma get_map_entries (g : R -> R) (A : ndarray) (i j : nat) :
  (i < shape0 A)%nat -> (j < shape1 A)%nat ->
  get (np.map_entries g A) i j = g (get A i j).
Proof. intros Hi Hj. unfold np.map_entries. now rewrite get_mk. Qed.



Lemma for_range_last {S : Type} (body : Z -> S -> result S) (n : nat) :
  forall (i0 : Z) (s c : S),
    for_range body i0 (Datatypes.S n) s = Ok c -> exists i s', body i s' = Ok c.
Proof.
  induction n as [|n IH]; intros i0 s c H.
  - simpl in H. apply bind_ok in H as (s' & Hb & H). injection H as <-. eauto.
  - change (for_range body i0 (Datatypes.S (Datatypes.S n)) s)
      with (s' <- body i0 s ;; for_range body (i0 + 1)%Z (Datatypes.S n) s') in H.
    apply bind_ok in H as (s' & _ & H). eapply IH; eauto.
Qed.



(** X22. The activation functions keep their ranges entry by entry: [relu] is
    never negative and applying it twice changes nothing, [sigmoid] lies
    between 0 and 1, the ends included, and [leaky_relu] is the identity on
    the non-negative entries and the hundredth part on the negative ones. *)
Theorem activation_ranges (x : ndarray) (i j : nat) :
  (i < shape0 x)%nat -> (j < shape1 x)%nat ->
  0 <= get (relu x) i j /\
  relu (relu x) = relu x /\
  0 <= get (sigmoid x) i j <= 1 /\
  (0 <= get x i j -> get (leaky_relu x) i j = get x i j) /\
  (get x i j < 0 -> get (leaky_relu x) i j = 0.01 * get x i j).
Proof.
  intros Hi Hj. unfold relu, np.maximum, sigmoid, leaky_relu.
  rewrite !get_map_entries by assumption.
  split; [apply Rmax_r|]. split.
  { unfold np.map_entries. simpl. apply mk_ext. intros a b Ha Hb.
    rewrite get_mk by assumption. apply Rmax_left, Rmax_r. }
  pose proof (exp_pos (- get x i j)) as He.
  split.
  { split.
    - left. apply Rdiv_lt_0_compat; lra.
    - left. apply Rmult_lt_reg_r with (1 + exp (- get x i j)); [lra|].
      unfold Rdiv. rewrite Rmult_assoc, Rinv_l by lra. lra. }
  split; intros H.
  - destruct (Rle_dec 0 (get x i j)); [reflexivity | contradiction].
  - destruct (Rle_dec 0 (get x i j)); [lra | reflexivity].
Qed.

(** ** The shape of the returned vector *)

Lemma bunch_func_inv weights S_00 S_10 S_01 S_11 S_21 S_12 S_22 nbrhoods last_node flow out :
  bunch_func weights S_00 S_10 S_01 S_11 S_21 S_12 S_22 nbrhoods last_node flow = Ok out ->
  exists n cur_out,
    n_layers_checked (Z.of_nat (length weights)) 7 = Ok n /\
    for_range (bunch_layer weights S_00 S_10 S_01 S_11 S_21 S_12 S_22) 0 (Z.to_nat n)
              (np.zeros (shape1 S_00) 1, flow, np.zeros (shape1 S_22) 1) = Ok cur_out /\
    out = np.sub_scalar (np.take_rows (fst (fst cur_out)) (np.int_row nbrhoods last_node))
            (logsumexp (np.take_rows (fst (fst cur_out))
                                     (np.int_row nbrhoods last_node))).
Proof.
  unfold bunch_func. intros H. apply bind_ok in H as (n & Hn & H).
  apply bind_ok in H as (c & Hc & H). injection H as <-. eauto.
Qed.

(** X23. Whatever the degree of the last node is, a forward pass returns one row
    for each of the max-degree candidate slots. *)
Theorem forward_output_rows
    (G : graph) (max_degree : nat) (weights : list ndarray)
    (S1 S2 S3 S4 S5 S6 S7 S8 B1_jax : ndarray)
    (nbrhoods : list (list Z)) (last_node : Z)
    (flow : ndarray) (k1 k2 : Z) (out : ndarray) :
  let Bcond_func := Bconds_func nbrhoods B1_jax in
  data_setup_nbrhoods G = Ok nbrhoods ->
  max_degree_of G = Ok max_degree ->
  (0 <= last_node < Z.of_nat (length nbrhoods))%Z ->
  scone_func weights S1 S2 Bcond_func last_node flow = Ok out \/
  scnn_func_2 weights S1 S2 S3 S4 Bcond_func last_node flow k1 k2 = Ok out \/
  scnn_func_3 weights S1 S2 S3 S4 S5 S6 Bcond_func last_node flow k1 k2 = Ok out \/
  scnn_func_4 weights S1 S2 S3 S4 S5 S6 S7 S8 Bcond_func last_node flow k1 k2 = Ok out \/
  ebli_func weights S1 S2 S3 Bcond_func last_node flow = Ok out \/
  bunch_func weights S1 S2 S3 S4 S5 S6 S7 nbrhoods last_node flow = Ok out ->
  shape0 out = max_degree.
Proof.
  intros Bcond_func Hnb Hmd Hn H.
  destruct (data_setup_nbrhoods_row G nbrhoods max_degree last_node Hnb Hmd Hn)
    as (a & _ & _ & Hlen).
  destruct H as [H|[H|[H|[H|[H|H]]]]].
  1-5: apply bind_ok in H as (n & _ & H); apply bind_ok in H as (c & _ & H);
       apply readout_inv in H as (l & w & -> & _ & H0 & _);
       simpl; rewrite H0; exact Hlen.
  apply bunch_func_inv in H as (n & c & _ & _ & ->). exact Hlen.
Qed.

(** ** Padding slots in the decomposition family *)

Lemma plus_term_shape0 (acc S x : ndarray) (weights : list ndarray) (j : Z) (r : ndarray) :
  plus_term acc S x weights j = Ok r -> shape0 acc = shape0 S -> shape0 r = shape0 S.
Proof.
  unfold plus_term, shift_term. intros H Hacc.
  apply bind_ok in H as (t & Ht & H).
  apply bind_ok in Ht as (s & Hs & Ht). apply bind_ok in Ht as (w & _ & Ht).
  unfold np.matmul in Hs, Ht.
  destruct (_ =? _) in Hs; [|discriminate]. injection Hs as <-.
  destruct (_ =? _) in Ht; [|discriminate]. injection Ht as <-.
  unfold np.add in H. simpl in H. rewrite Hacc in H.
  unfold np.bdim at 1 in H. rewrite Nat.eqb_refl in H.
  destruct (np.bdim _ _); [|discriminate]. injection H as <-. reflexivity.
Qed.

Lemma bunch_layer_nodes_shape weights S_00 S_10 S_01 S_11 S_21 S_12 S_22 i s c :
  bunch_layer weights S_00 S_10 S_01 S_11 S_21 S_12 S_22 i s = Ok c ->
  shape0 S_10 = shape0 S_00 -> shape0 (fst (fst c)) = shape0 S_00.
Proof.
  destruct s as [[c0 c1] c2]. unfold bunch_layer. intros H Hs.
  apply bind_ok in H as (n0 & Hn0 & H). apply bind_ok in H as (n1 & Hn1 & H).
  repeat (apply bind_ok in H as (? & _ & H)). injection H as <-. simpl.
  rewrite <- Hs. eapply plus_term_shape0; [eassumption|].
  unfold shift_term in Hn0.
  apply bind_ok in Hn0 as (s & Hsd & Hn0). apply bind_ok in Hn0 as (w & _ & Hn0).
  unfold np.matmul in Hsd, Hn0.
  destruct (_ =? _) in Hsd; [|discriminate]. injection Hsd as <-.
  destruct (_ =? _) in Hn0; [|discriminate]. injection Hn0 as <-.
  simpl. congruence.
Qed.

(** X24. In the decomposition family the sentinel indexes the node-level output
    itself, so a padding slot is scored as the node with the largest id: it
    gets the same log-probability as a slot that holds that node. *)
Theorem bunch_func_padding_slot
    (weights : list ndarray) (S_00 S_10 S_01 S_11 S_21 S_12 S_22 : ndarray)
    (nbrhoods : list (list Z)) (last_node : Z) (flow out : ndarray) (j j' k : nat) :
  let row := np.int_row nbrhoods last_node in
  (0 < length weights)%nat ->
  (0 < shape0 S_00)%nat -> shape0 S_10 = shape0 S_00 ->
  bunch_func weights S_00 S_10 S_01 S_11 S_21 S_12 S_22 nbrhoods last_node flow = Ok out ->
  (j < length row)%nat -> (j' < length row)%nat -> (k < shape1 out)%nat ->
  nth j row 0%Z = (-1)%Z ->
  nth j' row 0%Z = (Z.of_nat (shape0 S_00) - 1)%Z ->
  get out j k = get out j' k.
Proof.
  intros row Hw Hpos Hs H Hj Hj' Hk Hsent Hlast.
  apply bunch_func_inv in H as (n & c & Hn & Hloop & ->). fold row in Hk |- *.
  apply n_layers_checked_inv in Hn as [_ Hn].
  assert (Hn1 : exists m, Z.to_nat n = S m) by (exists (Z.to_nat n - 1)%nat; lia).
  destruct Hn1 as (m & Hm). rewrite Hm in Hloop.
  apply for_range_last in Hloop as (i & s & Hlayer).
  pose proof (bunch_layer_nodes_shape _ _ _ _ _ _ _ _ _ _ _ Hlayer Hs) as Hshape.
  change (shape1 (np.sub_scalar (np.take_rows (fst (fst c)) row)
                    (logsumexp (np.take_rows (fst (fst c)) row))))
    with (shape1 (fst (fst c))) in Hk.
  unfold np.sub_scalar, np.map_entries. simpl shape0. simpl shape1.
  rewrite !get_mk by assumption. f_equal.
  unfold np.take_rows. rewrite !get_mk by assumption.
  rewrite Hsent, Hlast, Hshape. f_equal.
  unfold jax_index. change (-1 <? 0)%Z with true. cbv iota.
  destruct (Z.ltb_spec (Z.of_nat (shape0 S_00) - 1) 0); lia.
Qed.

(** ** When the base family returns *)

Lemma plus_term_ok (acc S x w : ndarray) (weights : list ndarray) (j : Z) :
  weight weights j = Ok w ->
  shape1 S = shape0 x -> shape1 x = shape0 w ->
  shape0 acc = shape0 S -> shape1 acc = shape1 w ->
  exists r, plus_term acc S x weights j = Ok r /\
            shape0 r = shape0 S /\ shape1 r = shape1 w.
Proof.
  intros Hw H1 H2 H3 H4. unfold plus_term, shift_term.
  rewrite (matmul_power x S) by assumption. simpl. rewrite Hw. simpl.
  rewrite (matmul_power w (np.dot S x)) by (simpl; assumption). simpl.
  rewrite add_same_shape by (simpl; assumption).
  eexists. split; [reflexivity|]. simpl. auto.
Qed.

Lemma scone_layer_ok (widths : list nat) (weights : list ndarray)
    (S_lower S_upper x : ndarray) (E i : nat) :
  scone_weights_fit widths weights ->
  square_of E S_lower -> square_of E S_upper ->
  (i < length widths - 1)%nat -> has_shape E (nth i widths 0%nat) x ->
  exists y, scone_layer weights S_lower S_upper (Z.of_nat i) x = Ok y /\
            has_shape E (nth (S i) widths 0%nat) y.
Proof.
  intros (Hpos & Hlen & Hfit & _) [L0 L1] [U0 U1] Hi [X0 X1].
  destruct (Hfit i 0%nat Hi ltac:(lia)) as [A0 A1].
  destruct (Hfit i 1%nat Hi ltac:(lia)) as [B0 B1].
  destruct (Hfit i 2%nat Hi ltac:(lia)) as [C0 C1].
  unfold scone_layer.
  replace (Z.of_nat i * 3)%Z with (Z.of_nat (3 * i + 0)) by lia.
  replace (Z.of_nat (3 * i + 0) + 1)%Z with (Z.of_nat (3 * i + 1)) by lia.
  replace (Z.of_nat (3 * i + 0) + 2)%Z with (Z.of_nat (3 * i + 2)) by lia.
  rewrite weight_in_range by lia. cbn [bind].
  rewrite (matmul_power _ x) by congruence. cbn [bind].
  destruct (plus_term_ok (np.dot x (nth (3 * i + 0) weights no_array)) S_lower x
              (nth (3 * i + 1) weights no_array) weights (Z.of_nat (3 * i + 1)))
    as (a1 & -> & P0 & P1);
    [apply weight_in_range; lia
    | cbn [shape0 shape1 np.dot mk]; congruence ..
    | ]. cbn [bind].
  destruct (plus_term_ok a1 S_upper x
              (nth (3 * i + 2) weights no_array) weights (Z.of_nat (3 * i + 2)))
    as (a2 & -> & Q0 & Q1);
    [apply weight_in_range; lia
    | cbn [shape0 shape1 np.dot mk]; congruence ..
    | ]. cbn [bind].
  eexists. split; [reflexivity|]. split; cbn [shape0 shape1 tanh np.tanh np.map_entries mk]; congruence.
Qed.

Lemma scone_layers_ok (widths : list nat) (weights : list ndarray)
    (S_lower S_upper : ndarray) (E : nat) (c : nat) :
  scone_weights_fit widths weights ->
  square_of E S_lower -> square_of E S_upper ->
  forall (i : nat) (x : ndarray),
    (i + c <= length widths - 1)%nat -> has_shape E (nth i widths 0%nat) x ->
    exists y, for_range (scone_layer weights S_lower S_upper) (Z.of_nat i) c x = Ok y /\
              has_shape E (nth (i + c) widths 0%nat) y.
Proof.
  intros Hfit HL HU. induction c as [|c IH]; intros i x Hi Hx.
  - exists x. split; [reflexivity|]. now rewrite Nat.add_0_r.
  - destruct (scone_layer_ok widths weights S_lower S_upper x E i Hfit HL HU
                ltac:(lia) Hx) as (y & Hy & Hys).
    simpl. rewrite Hy. simpl.
    replace (Z.of_nat i + 1)%Z with (Z.of_nat (S i)) by lia.
    destruct (IH (S i) y ltac:(lia) Hys) as (z & Hz & Hzs).
    exists z. split; [assumption|]. now replace (i + S c)%nat with (S i + c)%nat by lia.
Qed.

(** X25. When the shapes fit, the base family returns: for operators of side
    [E], a flow of [E] rows, a selector with [E] columns and weights whose
    shapes chain through the channel widths, [scone_func] returns a vector
    with one row per row of the selector and one column per column of the
    terminal weight. *)
Theorem scone_func_returns
    (widths : list nat) (weights : list ndarray) (S_lower S_upper : ndarray)
    (Bcond_func : Z -> ndarray) (last_node : Z) (flow : ndarray) (E : nat) :
  scone_weights_fit widths weights ->
  square_of E S_lower -> square_of E S_upper ->
  has_shape E (nth 0 widths 0%nat) flow ->
  shape1 (Bcond_func last_node) = E ->
  exists out,
    scone_func weights S_lower S_upper Bcond_func last_node flow = Ok out /\
    shape0 out = shape0 (Bcond_func last_node) /\
    shape1 out = shape1 (nth (length weights - 1) weights no_array).
Proof.
  intros Hfit HL HU Hx HB. pose proof Hfit as (Hpos & Hlen & _ & Hlast).
  set (n := (length widths - 1)%nat) in *.
  unfold scone_func. rewrite Hlen.
  replace (Z.of_nat (3 * n + 1) - 1)%Z with (3 * Z.of_nat n)%Z by lia.
  assert (Hn : n_layers_checked (3 * Z.of_nat n) 3 = Ok (Z.of_nat n)).
  { rewrite n_layers_checked_pass; [| lia |].
    - f_equal. rewrite Z.mul_comm. apply Z.div_mul. lia.
    - rewrite Z.mul_comm. apply Z.mod_mul. lia. }
  rewrite Hn. cbn [bind]. rewrite Nat2Z.id.
  destruct (scone_layers_ok widths weights S_lower S_upper E n Hfit HL HU 0%nat flow
              ltac:(lia) Hx) as (y & Hy & [Y0 Y1]).
  change (Z.of_nat 0) with 0%Z in Hy. rewrite Hy. cbn [bind].
  unfold readout, shift_term.
  rewrite (matmul_power y (Bcond_func last_node)) by congruence. cbn [bind].
  change (-1)%Z with (- Z.of_nat 1)%Z. unfold weight.
  rewrite py_getitem_from_end by lia. cbn [bind]. rewrite Hlen.
  replace (3 * n + 1 - 1)%nat with (3 * n)%nat by lia.
  cbn [Nat.add] in Y1.
  rewrite (matmul_power _ (np.dot (Bcond_func last_node) y))
    by (cbn [shape0 shape1 np.dot mk]; congruence).
  cbn [bind]. eexists. split; [reflexivity|]. split; reflexivity.
Qed.

(** ** Runs of the further properties *)

Lemma ex_flips_sign : Forall sign ex_flips.
Proof.
  unfold ex_flips.
  apply Forall_cons; [left; reflexivity|].
  apply Forall_cons; [right; reflexivity|].
  apply Forall_cons; [left; reflexivity|].
  apply Forall_cons; [right; reflexivity|].
  apply Forall_nil.
Qed.

Lemma scnn_func_2_orientation_flip_invariant_witness :
  (B1_F <- data_setup_B1_jax ex_hp_flip ex_flips ex_B1 ;;
   S1_F <- conjugate (np.diag ex_flips) ex_lower ;;
   S2_F <- conjugate (np.diag ex_flips) ex_lower2 ;;
   S3_F <- conjugate (np.diag ex_flips) ex_upper ;;
   S4_F <- conjugate (np.diag ex_flips) ex_upper2 ;;
   flow_F <- np.matmul (np.diag ex_flips) ex_flow ;;
   scnn_func_2 ex_weights6 S1_F S2_F S3_F S4_F (Bconds_func ex_nbrhoods B1_F)
               3 flow_F 2 2)
  =
  (B1_jax <- data_setup_B1_jax ex_hp_scone ex_flips ex_B1 ;;
   scnn_func_2 ex_weights6 ex_lower ex_lower2 ex_upper ex_upper2
               (Bconds_func ex_nbrhoods B1_jax) 3 ex_flow 2 2).
Proof.
  apply (scnn_func_2_orientation_flip_invariant
           ex_hp_scone ex_hp_flip ex_flips ex_weights6 ex_B1
           ex_lower ex_lower2 ex_upper ex_upper2 ex_nbrhoods 3 ex_flow 2 2);
    first [ exact ex_flips_sign | split; reflexivity | reflexivity ].
Defined.

Lemma scnn_func_3_orientation_flip_invariant_witness :
  (B1_F <- data_setup_B1_jax ex_hp_flip ex_flips ex_B1 ;;
   S1_F <- conjugate (np.diag ex_flips) ex_lower ;;
   S2_F <- conjugate (np.diag ex_flips) ex_lower2 ;;
   S3_F <- conjugate (np.diag ex_flips) ex_lower3 ;;
   S4_F <- conjugate (np.diag ex_flips) ex_upper ;;
   S5_F <- conjugate (np.diag ex_flips) ex_upper2 ;;
   S6_F <- conjugate (np.diag ex_flips) ex_upper3 ;;
   flow_F <- np.matmul (np.diag ex_flips) ex_flow ;;
   scnn_func_3 ex_weights8 S1_F S2_F S3_F S4_F S5_F S6_F
               (Bconds_func ex_nbrhoods B1_F) 3 flow_F 3 3)
  =
  (B1_jax <- data_setup_B1_jax ex_hp_scone ex_flips ex_B1 ;;
   scnn_func_3 ex_weights8 ex_lower ex_lower2 ex_lower3 ex_upper ex_upper2 ex_upper3
               (Bconds_func ex_nbrhoods B1_jax) 3 ex_flow 3 3)
  /\
  is_ok (B1_jax <- data_setup_B1_jax ex_hp_scone ex_flips ex_B1 ;;
         scnn_func_3 ex_weights8 ex_lower ex_lower2 ex_lower3
                     ex_upper ex_upper2 ex_upper3
                     (Bconds_func ex_nbrhoods B1_jax) 3 ex_flow 3 3) = true.
Proof.
  split.
  - apply (scnn_func_3_orientation_flip_invariant
             ex_hp_scone ex_hp_flip ex_flips ex_weights8 ex_B1
             ex_lower ex_lower2 ex_lower3 ex_upper ex_upper2 ex_upper3
             ex_nbrhoods 3 ex_flow 3 3);
      first [ exact ex_flips_sign | split; reflexivity | reflexivity ].
  - vm_compute. reflexivity.
Defined.

Lemma scnn_func_4_orientation_flip_invariant_witness :
  (B1_F <- data_setup_B1_jax ex_hp_flip ex_flips ex_B1 ;;
   S1_F <- conjugate (np.diag ex_flips) ex_lower ;;
   S2_F <- conjugate (np.diag ex_flips) ex_lower2 ;;
   S3_F <- conjugate (np.diag ex_flips) ex_lower3 ;;
   S5_F <- conjugate (np.diag ex_flips) ex_upper ;;
   S6_F <- conjugate (np.diag ex_flips) ex_upper2 ;;
   S7_F <- conjugate (np.diag ex_flips) ex_upper3 ;;
   S8_F <- conjugate (np.diag ex_flips) ex_upper4 ;;
   flow_F <- np.matmul (np.diag ex_flips) ex_flow ;;
   scnn_func_4 one_weights S1_F S2_F S3_F ex_lower4 S5_F S6_F S7_F S8_F
               (Bconds_func ex_nbrhoods B1_F) 3 flow_F 4 4)
  =
  (B1_jax <- data_setup_B1_jax ex_hp_scone ex_flips ex_B1 ;;
   scnn_func_4 one_weights ex_lower ex_lower2 ex_lower3 ex_lower4
               ex_upper ex_upper2 ex_upper3 ex_upper4
               (Bconds_func ex_nbrhoods B1_jax) 3 ex_flow 4 4).
Proof.
  apply (scnn_func_4_orientation_flip_invariant
           ex_hp_scone ex_hp_flip ex_flips one_weights ex_B1
           ex_lower ex_lower2 ex_lower3 ex_lower4 ex_lower4
           ex_upper ex_upper2 ex_upper3 ex_upper4 ex_nbrhoods 3 ex_flow 4 4);
    first [ exact ex_flips_sign | split; reflexivity | reflexivity ].
Defined.

Lemma ebli_func_orientation_flip_invariant_witness :
  (B1_F <- data_setup_B1_jax ex_hp_flip ex_flips ex_B1 ;;
   S_F <- conjugate (np.diag ex_flips) ex_lower ;;
   S2_F <- conjugate (np.diag ex_flips) ex_lower2 ;;
   S3_F <- conjugate (np.diag ex_flips) ex_lower3 ;;
   flow_F <- np.matmul (np.diag ex_flips) ex_flow ;;
   ebli_func ex_weights5 S_F S2_F S3_F (Bconds_func ex_nbrhoods B1_F) 3 flow_F)
  =
  (B1_jax <- data_setup_B1_jax ex_hp_scone ex_flips ex_B1 ;;
   ebli_func ex_weights5 ex_lower ex_lower2 ex_lower3
             (Bconds_func ex_nbrhoods B1_jax) 3 ex_flow)
  /\
  is_ok (B1_jax <- data_setup_B1_jax ex_hp_scone ex_flips ex_B1 ;;
         ebli_func ex_weights5 ex_lower ex_lower2 ex_lower3
                   (Bconds_func ex_nbrhoods B1_jax) 3 ex_flow) = true.
Proof.
  split.
  - apply (ebli_func_orientation_flip_invariant
             ex_hp_scone ex_hp_flip ex_flips ex_weights5 ex_B1
             ex_lower ex_lower2 ex_lower3 ex_nbrhoods 3 ex_flow);
      first [ exact ex_flips_sign | split; reflexivity | reflexivity ].
  - vm_compute. reflexivity.
Defined.

Lemma data_setup_shifts_flip_commutes_witness :
  data_setup_shifts ex_hp_flip ex_flips (fun _ _ => Ok []) ex_B1 ex_B2
  = list_comp (conjugate (np.diag ex_flips)) [ex_lower; ex_upper].
Proof.
  apply (data_setup_shifts_flip_commutes
           ex_hp_scone ex_hp_flip ex_flips (fun _ _ => Ok []) ex_B1 ex_B2
           [ex_lower; ex_upper]);
    first [ exact ex_flips_sign | reflexivity | discriminate ].
Defined.

Lemma scnn_families_read_in_bounds_witness :
  reads_in_bounds
    (scnn_func_4 one_weights ex_lower ex_lower2 ex_lower3 ex_lower4
                 ex_upper ex_upper2 ex_upper3 ex_upper4
                 (Bconds_func ex_nbrhoods ex_B1_jax) 3 ex_flow 4 4).
Proof.
  apply (proj2 (proj2 (scnn_families_read_in_bounds one_weights 4 4))). lia.
Defined.



Lemma padded_row_layout_witness :
  exists a c, adj ex_G 3 = Ok a /\ data_setup_n_nbrs ex_G [3%Z] = Ok [c] /\
              c = length a /\ (c <= 3)%nat.
Proof.
  destruct (padded_row_layout ex_G ex_nbrhoods 3 3 eq_refl eq_refl ltac:(simpl; lia))
    as (a & c & Ha & Hn & Hc & Hle & _).
  exists a, c. auto.
Defined.

Lemma conjugate_involutive_witness :
  conjugate (np.diag ex_flips) ex_lower_F = Ok ex_lower.
Proof.
  apply (conjugate_involutive ex_flips ex_lower ex_lower_F).
  - exact ex_flips_sign.
  - exact (wf_mk _ _ _).
  - reflexivity.
  - reflexivity.
Defined.

Lemma flip_flows_involutive_witness :
  (X' <- flip_flows [ex_flow] (length ex_flips) (np.diag ex_flips) ;;
   flip_flows X' (length ex_flips) (np.diag ex_flips)) = Ok [ex_flow].
Proof.
  apply (flip_flows_involutive ex_flips [ex_flow]).
  - exact ex_flips_sign.
  - apply Forall_cons; [|apply Forall_nil].
    split; [|split; reflexivity].
    split; [reflexivity|]. simpl. repeat (apply Forall_cons; [reflexivity|]).
    apply Forall_nil.
Defined.

Lemma markov_regions_match_regional_masks_witness :
  region_select [] ex_paths (length ex_paths) 1
  = mask_select ex_paths (fst (regional_masks ex_hp_regional [] [] (length ex_paths))) /\
  region_select [] ex_paths (length ex_paths) 2
  = mask_select ex_paths (snd (regional_masks ex_hp_regional [] [] (length ex_paths))) /\
  is_ok (region_select [] ex_paths (length ex_paths) 1) = true /\
  is_ok (region_select [] ex_paths (length ex_paths) 2) = true.
Proof.
  apply (markov_regions_match_regional_masks ex_hp_regional [] [] ex_paths).
  reflexivity.
Defined.

Lemma model_func_matches_shifts_witness :
  exists f, train_model_model_func ex_hp_scone = Ok f /\
            (f = Bunch_func -> (fun _ _ : ndarray => @Ok (list ndarray) []) ex_B1 ex_B2
                               = Ok [ex_lower; ex_upper]) /\
            (f <> Bunch_func -> length [ex_lower; ex_upper] = n_shift_params f).
Proof.
  apply (model_func_matches_shifts ex_hp_scone [] (fun _ _ => Ok []) ex_B1 ex_B2
                                   [ex_lower; ex_upper]).
  reflexivity.
Defined.

Lemma data_setup_shifts_invalid_model_witness :
  train_model_model_func ex_hp_unknown = Raise (Exception "invalid model") /\
  data_setup_shifts ex_hp_unknown [] (fun _ _ => Ok []) ex_B1 ex_B2
  = Raise (Exception "invalid model type").
Proof.
  destruct (data_setup_shifts_invalid_model ex_hp_unknown [] (fun _ _ => Ok [])
                                            ex_B1 ex_B2) as (H1 & H2 & _).
  - simpl. intros [H|[H|[H|[H|[H|[H|[]]]]]]]; discriminate.
  - split; [exact H1 | exact (H2 eq_refl)].
Defined.

Lemma hidden_layers_of_pairs_witness :
  hidden_layers_of [3; 16; 3; 16; 3; 16]%Z = Ok [(3, 16); (3, 16); (3, 16)]%Z /\
  hidden_layers_of [3; 16; 3]%Z = Raise IndexError.
Proof.
  split.
  - exact (proj1 (proj1 (hidden_layers_of_pairs [3; 16; 3; 16; 3; 16]%Z 3) eq_refl)).
  - exact (proj2 (hidden_layers_of_pairs [3; 16; 3]%Z 1) eq_refl).
Defined.


Lemma activation_ranges_witness :
  0 <= get (relu ex_flow) 0 0 /\
  relu (relu ex_flow) = relu ex_flow /\
  0 <= get (sigmoid ex_flow) 0 0 <= 1 /\
  (0 <= get ex_flow 0 0 -> get (leaky_relu ex_flow) 0 0 = get ex_flow 0 0) /\
  (get ex_flow 0 0 < 0 -> get (leaky_relu ex_flow) 0 0 = 0.01 * get ex_flow 0 0).
Proof.
  apply (activation_ranges ex_flow 0 0); simpl; lia.
Defined.

Lemma forward_output_rows_witness : shape0 ex_out = 3%nat.
Proof.
  apply (forward_output_rows ex_G 3 ex_weights ex_lower ex_upper
           no_array no_array no_array no_array no_array no_array ex_B1_jax
           ex_nbrhoods 3 ex_flow 2 2 ex_out).
  - reflexivity.
  - reflexivity.
  - simpl. lia.
  - left. vm_compute. reflexivity.
Defined.

Lemma bunch_func_padding_slot_witness : get ex_bunch_out 1 0 = get ex_bunch_out 0 0.
Proof.
  apply (bunch_func_padding_slot ex_weights7 ex_S_00 ex_B1 (np.T ex_B1) ex_lower
           ex_B2 (np.T ex_B2) ex_S_22 ex_nbrhoods_hub 0 ex_flow ex_bunch_out 1 0 0).
  - simpl. lia.
  - simpl. lia.
  - reflexivity.
  - vm_compute. reflexivity.
  - simpl. lia.
  - simpl. lia.
  - vm_compute. lia.
  - reflexivity.
  - reflexivity.
Defined.

Lemma scone_func_returns_witness :
  exists out,
    scone_func ex_weights ex_lower ex_upper (Bconds_func ex_nbrhoods ex_B1_jax) 3 ex_flow
    = Ok out /\
    shape0 out = shape0 (Bconds_func ex_nbrhoods ex_B1_jax 3) /\
    shape1 out = shape1 (nth (length ex_weights - 1) ex_weights no_array).
Proof.
  apply (scone_func_returns [1; 2]%nat ex_weights ex_lower ex_upper
           (Bconds_func ex_nbrhoods ex_B1_jax) 3 ex_flow 4).
  - split; [simpl; lia|]. split; [reflexivity|]. split; [|reflexivity].
    intros i r Hi Hr. simpl in Hi.
    assert (i = 0)%nat as -> by lia.
    destruct r as [|[|[|r]]]; [split; reflexivity .. | lia].
  - split; reflexivity.
  - split; reflexivity.
  - split; reflexivity.
  - reflexivity.
Defined.
